(** * Xapo micro-payment SDK: padding, encryption and widget construction

    A shallow embedding of [xapo_sdk/xapo_utils.py] (the padding and
    [encrypt]), of [xapo_sdk/xapo_tools.py] (class [MicroPayment], which
    uses [xapo_utils]) and of [xapo_sdk/micro_payment.py] (class
    [XapoMicroPaymentSDK], with its own copies [_pkcs7_encode] and [_encrypt]
    of the two helpers).

    The modules are read as Python 3 reads them: with [unicode_literals] the
    payloads, secrets and templates are text, [json.dumps] returns text,
    [base64.b64encode] returns bytes and a dictionary keeps the order in
    which its keys were set.  Python text ([str]) is a list of code points;
    Python [bytes] is a list of [byte].  The two are different types, as
    they are in the source: the SDK pads text, and only the cipher library
    turns that text into bytes.

    The libraries the SDK calls are modelled by what they compute:
    [Crypto.Cipher.AES] by the cipher of FIPS-197 in ECB mode, [base64],
    [json], [urllib.parse], [str.format], [textwrap.dedent] and [time] by
    their documented behaviour on the inputs the SDK gives them.  The
    doctest of [encrypt] is reproduced by the model ([encrypt_doctest]). *)

From Stdlib Require Import List NArith ZArith Bool Lia String Ascii Zify.

From Stdlib.Strings Require Byte.
From Stdlib Require DecimalString DecimalZ QArith Qround SpecFloat.
Import ListNotations.

Definition byte : Set := Corelib.Init.Byte.byte.

(** ** Python values *)

Module Py.

(** A [str]: the sequence of its code points. *)
Definition text := list N.

(** A [bytes] object. *)
Definition bytes := list byte.

(** The exceptions the modelled code can raise. *)
Inductive PyError : Type :=
| ZeroDivisionError      (* integer modulo by zero *)
| OverflowError          (* cannot fit 'int' into an index-sized integer *)
| MemoryError            (* a list too long for any allocation *)
| ValueError_byte        (* bytearray(): byte must be in range(0, 256) *)
| UnicodeDecodeError     (* bytes.decode() on malformed UTF-8 *)
| UnicodeEncodeError     (* text that has no UTF-8 encoding (surrogates) *)
| ValueError_key_length  (* AES key must be either 16, 24, or 32 bytes long *)
| ValueError_block_length (* Input strings must be a multiple of 16 in length *)
| KeyError               (* str.format(): no such replacement field *)
| ValueError_format.     (* str.format(): single brace in the template *)

Inductive result (A : Type) : Type :=
| Ok (a : A)
| Raise (e : PyError).
Arguments Ok {A} a.
Arguments Raise {A} e.

Definition bind {A B} (r : result A) (f : A -> result B) : result B :=
  match r with
  | Ok a => f a
  | Raise e => Raise e
  end.

Definition of_option {A} (e : PyError) (o : option A) : result A :=
  match o with
  | Some a => Ok a
  | None => Raise e
  end.

(** Literals: a Rocq string read as Python text, one code point per
    character. *)
Definition lit (s : string) : text :=
  map N_of_ascii (list_ascii_of_string s).

(** [len(x)] *)
Definition len {A} (x : list A) : Z := Z.of_nat (List.length x).

(** [[x] * n], on CPython with 64-bit indexes.  The count is converted to
    an index first: a count below [-2**63] or above [2**63 - 1] raises
    [OverflowError].  A count that is not positive gives the empty list.
    A list of [2**60] items or more is refused with [MemoryError], its
    size in bytes being no index.  Whether a shorter list fits depends on
    the machine: the model takes it to fit. *)
Definition list_mul {A} (x : A) (n : Z) : result (list A) :=
  if ((n <? - 2 ^ 63) || (2 ^ 63 <=? n))%Z then Raise OverflowError
  else if (2 ^ 60 <=? n)%Z then Raise MemoryError
  else Ok (repeat x (Z.to_nat n)).

(** Bytes as numbers. *)
Definition b2n (b : byte) : N := Byte.to_N b.

Definition n2b (n : N) : byte :=
  match Byte.of_N (n mod 256) with
  | Some b => b
  | None => Byte.x00
  end.

(** [bytearray(iterable_of_ints)] *)
Fixpoint bytearray (l : list Z) : result bytes :=
  match l with
  | [] => Ok []
  | z :: l' =>
      if ((0 <=? z) && (z <? 256))%Z
      then bind (bytearray l') (fun bs => Ok (n2b (Z.to_N z) :: bs))
      else Raise ValueError_byte
  end.

(** *** UTF-8 *)

Definition is_surrogate (c : N) : bool := (0xD800 <=? c)%N && (c <=? 0xDFFF)%N.

(** A code point that is a Unicode scalar value: what UTF-8 can encode. *)
Definition is_scalar (c : N) : bool := (c <? 0x110000)%N && negb (is_surrogate c).

Definition utf8_encode_char (c : N) : option bytes :=
  if (c <? 0x80)%N then Some [n2b c]
  else if (c <? 0x800)%N then
    Some [n2b (0xC0 + c / 64); n2b (0x80 + c mod 64)]
  else if (c <? 0x10000)%N then
    if is_surrogate c then None
    else Some [n2b (0xE0 + c / 4096); n2b (0x80 + (c / 64) mod 64);
               n2b (0x80 + c mod 64)]
  else if (c <? 0x110000)%N then
    Some [n2b (0xF0 + c / 262144); n2b (0x80 + (c / 4096) mod 64);
          n2b (0x80 + (c / 64) mod 64); n2b (0x80 + c mod 64)]
  else None.

(** [s.encode('utf-8')], strict. *)
Fixpoint utf8_encode (s : text) : option bytes :=
  match s with
  | [] => Some []
  | c :: s' =>
      match utf8_encode_char c, utf8_encode s' with
      | Some bs, Some r => Some (bs ++ r)
      | _, _ => None
      end
  end.

Definition is_cont (b : byte) : bool :=
  (0x80 <=? b2n b)%N && (b2n b <? 0xC0)%N.

Definition cons_opt {A} (a : A) (o : option (list A)) : option (list A) :=
  match o with
  | Some l => Some (a :: l)
  | None => None
  end.

(** [b.decode('utf-8')], strict: overlong forms, surrogates and values above
    U+10FFFF are rejected. *)
Fixpoint utf8_decode (bs : bytes) : option text :=
  match bs with
  | [] => Some []
  | b0 :: r0 =>
      let n0 := b2n b0 in
      if (n0 <? 0x80)%N then cons_opt n0 (utf8_decode r0)
      else if (n0 <? 0xC2)%N then None
      else if (n0 <? 0xE0)%N then
        match r0 with
        | b1 :: r1 =>
            if is_cont b1
            then cons_opt ((n0 - 0xC0) * 64 + (b2n b1 - 0x80))%N (utf8_decode r1)
            else None
        | _ => None
        end
      else if (n0 <? 0xF0)%N then
        match r0 with
        | b1 :: b2 :: r2 =>
            let c := ((n0 - 0xE0) * 4096 + (b2n b1 - 0x80) * 64
                      + (b2n b2 - 0x80))%N in
            if is_cont b1 && is_cont b2 && (0x800 <=? c)%N
               && negb (is_surrogate c)
            then cons_opt c (utf8_decode r2)
            else None
        | _ => None
        end
      else if (n0 <? 0xF5)%N then
        match r0 with
        | b1 :: b2 :: b3 :: r3 =>
            let c := ((n0 - 0xF0) * 262144 + (b2n b1 - 0x80) * 4096
                      + (b2n b2 - 0x80) * 64 + (b2n b3 - 0x80))%N in
            if is_cont b1 && is_cont b2 && is_cont b3
               && (0x10000 <=? c)%N && (c <? 0x110000)%N
            then cons_opt c (utf8_decode r3)
            else None
        | _ => None
        end
      else None
  end.

(** [sep.join(parts)] *)
Fixpoint join (sep : text) (parts : list text) : text :=
  match parts with
  | [] => []
  | [p] => p
  | p :: ps => p ++ sep ++ join sep ps
  end.

(** [s] starts with [p]: what follows [p] in [s]. *)
Fixpoint strip_prefix (p s : text) : option text :=
  match p, s with
  | [], _ => Some s
  | x :: p', y :: s' => if (x =? y)%N then strip_prefix p' s' else None
  | _ :: _, [] => None
  end.

Fixpoint text_eqb (a b : text) : bool :=
  match a, b with
  | [], [] => true
  | x :: a', y :: b' => (x =? y)%N && text_eqb a' b'
  | _, _ => false
  end.

(** Text made of ASCII characters only. *)
Definition is_ascii (s : text) : bool := forallb (fun c => (c <? 128)%N) s.

End Py.

Import Py.

Declare Scope py_scope.
Delimit Scope py_scope with py.
Notation "x <- c ;; k" := (bind c (fun x => k))
  (at level 61, c at next level, right associativity) : py_scope.
Open Scope py_scope.

(** ** The cipher library: AES (FIPS-197) in ECB mode

    [Crypto.Cipher.AES] is not part of the repository; it is modelled by the
    algorithm it implements.  A state is four columns of four bytes. *)

Module AES.

Definition block_size : nat := 16.

(** [AES.key_size = (16, 24, 32)] *)
Definition key_size : list nat := [16; 24; 32]%nat.

Definition bxor (a b : byte) : byte := n2b (N.lxor (b2n a) (b2n b)).

(** Multiplication by [x] in GF(2^8) modulo [x^8 + x^4 + x^3 + x + 1]. *)
Definition xtime (a : byte) : byte :=
  let n := b2n a in
  n2b (N.lxor (N.shiftl n 1) (if (128 <=? n)%N then 0x1b else 0)).

Fixpoint gmul_pos (p : positive) (a : byte) : byte :=
  match p with
  | xH => a
  | xO p' => gmul_pos p' (xtime a)
  | xI p' => bxor a (gmul_pos p' (xtime a))
  end.

(** Multiplication of [a] by the field element with bit pattern [c]. *)
Definition gmul (c : N) (a : byte) : byte :=
  match c with
  | N0 => Byte.x00
  | Npos p => gmul_pos p a
  end.

Definition sbox_table : list N :=
  [
    0x63; 0x7c; 0x77; 0x7b; 0xf2; 0x6b; 0x6f; 0xc5; 0x30; 0x01; 0x67; 0x2b; 0xfe; 0xd7; 0xab; 0x76;
    0xca; 0x82; 0xc9; 0x7d; 0xfa; 0x59; 0x47; 0xf0; 0xad; 0xd4; 0xa2; 0xaf; 0x9c; 0xa4; 0x72; 0xc0;
    0xb7; 0xfd; 0x93; 0x26; 0x36; 0x3f; 0xf7; 0xcc; 0x34; 0xa5; 0xe5; 0xf1; 0x71; 0xd8; 0x31; 0x15;
    0x04; 0xc7; 0x23; 0xc3; 0x18; 0x96; 0x05; 0x9a; 0x07; 0x12; 0x80; 0xe2; 0xeb; 0x27; 0xb2; 0x75;
    0x09; 0x83; 0x2c; 0x1a; 0x1b; 0x6e; 0x5a; 0xa0; 0x52; 0x3b; 0xd6; 0xb3; 0x29; 0xe3; 0x2f; 0x84;
    0x53; 0xd1; 0x00; 0xed; 0x20; 0xfc; 0xb1; 0x5b; 0x6a; 0xcb; 0xbe; 0x39; 0x4a; 0x4c; 0x58; 0xcf;
    0xd0; 0xef; 0xaa; 0xfb; 0x43; 0x4d; 0x33; 0x85; 0x45; 0xf9; 0x02; 0x7f; 0x50; 0x3c; 0x9f; 0xa8;
    0x51; 0xa3; 0x40; 0x8f; 0x92; 0x9d; 0x38; 0xf5; 0xbc; 0xb6; 0xda; 0x21; 0x10; 0xff; 0xf3; 0xd2;
    0xcd; 0x0c; 0x13; 0xec; 0x5f; 0x97; 0x44; 0x17; 0xc4; 0xa7; 0x7e; 0x3d; 0x64; 0x5d; 0x19; 0x73;
    0x60; 0x81; 0x4f; 0xdc; 0x22; 0x2a; 0x90; 0x88; 0x46; 0xee; 0xb8; 0x14; 0xde; 0x5e; 0x0b; 0xdb;
    0xe0; 0x32; 0x3a; 0x0a; 0x49; 0x06; 0x24; 0x5c; 0xc2; 0xd3; 0xac; 0x62; 0x91; 0x95; 0xe4; 0x79;
    0xe7; 0xc8; 0x37; 0x6d; 0x8d; 0xd5; 0x4e; 0xa9; 0x6c; 0x56; 0xf4; 0xea; 0x65; 0x7a; 0xae; 0x08;
    0xba; 0x78; 0x25; 0x2e; 0x1c; 0xa6; 0xb4; 0xc6; 0xe8; 0xdd; 0x74; 0x1f; 0x4b; 0xbd; 0x8b; 0x8a;
    0x70; 0x3e; 0xb5; 0x66; 0x48; 0x03; 0xf6; 0x0e; 0x61; 0x35; 0x57; 0xb9; 0x86; 0xc1; 0x1d; 0x9e;
    0xe1; 0xf8; 0x98; 0x11; 0x69; 0xd9; 0x8e; 0x94; 0x9b; 0x1e; 0x87; 0xe9; 0xce; 0x55; 0x28; 0xdf;
    0x8c; 0xa1; 0x89; 0x0d; 0xbf; 0xe6; 0x42; 0x68; 0x41; 0x99; 0x2d; 0x0f; 0xb0; 0x54; 0xbb; 0x16
  ]%N.

Definition inv_sbox_table : list N :=
  [
    0x52; 0x09; 0x6a; 0xd5; 0x30; 0x36; 0xa5; 0x38; 0xbf; 0x40; 0xa3; 0x9e; 0x81; 0xf3; 0xd7; 0xfb;
    0x7c; 0xe3; 0x39; 0x82; 0x9b; 0x2f; 0xff; 0x87; 0x34; 0x8e; 0x43; 0x44; 0xc4; 0xde; 0xe9; 0xcb;
    0x54; 0x7b; 0x94; 0x32; 0xa6; 0xc2; 0x23; 0x3d; 0xee; 0x4c; 0x95; 0x0b; 0x42; 0xfa; 0xc3; 0x4e;
    0x08; 0x2e; 0xa1; 0x66; 0x28; 0xd9; 0x24; 0xb2; 0x76; 0x5b; 0xa2; 0x49; 0x6d; 0x8b; 0xd1; 0x25;
    0x72; 0xf8; 0xf6; 0x64; 0x86; 0x68; 0x98; 0x16; 0xd4; 0xa4; 0x5c; 0xcc; 0x5d; 0x65; 0xb6; 0x92;
    0x6c; 0x70; 0x48; 0x50; 0xfd; 0xed; 0xb9; 0xda; 0x5e; 0x15; 0x46; 0x57; 0xa7; 0x8d; 0x9d; 0x84;
    0x90; 0xd8; 0xab; 0x00; 0x8c; 0xbc; 0xd3; 0x0a; 0xf7; 0xe4; 0x58; 0x05; 0xb8; 0xb3; 0x45; 0x06;
    0xd0; 0x2c; 0x1e; 0x8f; 0xca; 0x3f; 0x0f; 0x02; 0xc1; 0xaf; 0xbd; 0x03; 0x01; 0x13; 0x8a; 0x6b;
    0x3a; 0x91; 0x11; 0x41; 0x4f; 0x67; 0xdc; 0xea; 0x97; 0xf2; 0xcf; 0xce; 0xf0; 0xb4; 0xe6; 0x73;
    0x96; 0xac; 0x74; 0x22; 0xe7; 0xad; 0x35; 0x85; 0xe2; 0xf9; 0x37; 0xe8; 0x1c; 0x75; 0xdf; 0x6e;
    0x47; 0xf1; 0x1a; 0x71; 0x1d; 0x29; 0xc5; 0x89; 0x6f; 0xb7; 0x62; 0x0e; 0xaa; 0x18; 0xbe; 0x1b;
    0xfc; 0x56; 0x3e; 0x4b; 0xc6; 0xd2; 0x79; 0x20; 0x9a; 0xdb; 0xc0; 0xfe; 0x78; 0xcd; 0x5a; 0xf4;
    0x1f; 0xdd; 0xa8; 0x33; 0x88; 0x07; 0xc7; 0x31; 0xb1; 0x12; 0x10; 0x59; 0x27; 0x80; 0xec; 0x5f;
    0x60; 0x51; 0x7f; 0xa9; 0x19; 0xb5; 0x4a; 0x0d; 0x2d; 0xe5; 0x7a; 0x9f; 0x93; 0xc9; 0x9c; 0xef;
    0xa0; 0xe0; 0x3b; 0x4d; 0xae; 0x2a; 0xf5; 0xb0; 0xc8; 0xeb; 0xbb; 0x3c; 0x83; 0x53; 0x99; 0x61;
    0x17; 0x2b; 0x04; 0x7e; 0xba; 0x77; 0xd6; 0x26; 0xe1; 0x69; 0x14; 0x63; 0x55; 0x21; 0x0c; 0x7d
  ]%N.

Definition sbox (a : byte) : byte :=
  n2b (nth (N.to_nat (b2n a)) sbox_table 0%N).

Definition inv_sbox (a : byte) : byte :=
  n2b (nth (N.to_nat (b2n a)) inv_sbox_table 0%N).

Definition word : Set := (byte * byte * byte * byte)%type.
Definition state : Set := (word * word * word * word)%type.

Definition map_word (f : byte -> byte) (w : word) : word :=
  let '(a, b, c, d) := w in (f a, f b, f c, f d).

Definition map_state (f : word -> word) (s : state) : state :=
  let '(a, b, c, d) := s in (f a, f b, f c, f d).

Definition xor_word (v w : word) : word :=
  let '(a, b, c, d) := v in
  let '(a', b', c', d') := w in
  (bxor a a', bxor b b', bxor c c', bxor d d').

Definition sub_bytes : state -> state := map_state (map_word sbox).
Definition inv_sub_bytes : state -> state := map_state (map_word inv_sbox).

(** Row [r] of the state is rotated left by [r] columns. *)
Definition shift_rows (s : state) : state :=
  let '((a0, a1, a2, a3), (b0, b1, b2, b3),
        (c0, c1, c2, c3), (d0, d1, d2, d3)) := s in
  ((a0, b1, c2, d3), (b0, c1, d2, a3), (c0, d1, a2, b3), (d0, a1, b2, c3)).

Definition inv_shift_rows (s : state) : state :=
  let '((a0, a1, a2, a3), (b0, b1, b2, b3),
        (c0, c1, c2, c3), (d0, d1, d2, d3)) := s in
  ((a0, d1, c2, b3), (b0, a1, d2, c3), (c0, b1, a2, d3), (d0, c1, b2, a3)).

Definition mix_column (w : word) : word :=
  let '(a, b, c, d) := w in
  (bxor (gmul 2 a) (bxor (gmul 3 b) (bxor c d)),
   bxor a (bxor (gmul 2 b) (bxor (gmul 3 c) d)),
   bxor a (bxor b (bxor (gmul 2 c) (gmul 3 d))),
   bxor (gmul 3 a) (bxor b (bxor c (gmul 2 d)))).

Definition inv_mix_column (w : word) : word :=
  let '(a, b, c, d) := w in
  (bxor (gmul 14 a) (bxor (gmul 11 b) (bxor (gmul 13 c) (gmul 9 d))),
   bxor (gmul 9 a) (bxor (gmul 14 b) (bxor (gmul 11 c) (gmul 13 d))),
   bxor (gmul 13 a) (bxor (gmul 9 b) (bxor (gmul 14 c) (gmul 11 d))),
   bxor (gmul 11 a) (bxor (gmul 13 b) (bxor (gmul 9 c) (gmul 14 d)))).

Definition mix_columns : state -> state := map_state mix_column.
Definition inv_mix_columns : state -> state := map_state inv_mix_column.

Definition add_round_key (rk s : state) : state :=
  let '(k0, k1, k2, k3) := rk in
  let '(s0, s1, s2, s3) := s in
  (xor_word s0 k0, xor_word s1 k1, xor_word s2 k2, xor_word s3 k3).

(** Equality test on columns. *)
Definition word_eqb (v w : word) : bool :=
  let '(a, b, c, d) := v in
  let '(a', b', c', d') := w in
  Byte.eqb a a' && Byte.eqb b b' && Byte.eqb c c' && Byte.eqb d d'.

(** *** Key expansion *)

Definition zero_word : word := (Byte.x00, Byte.x00, Byte.x00, Byte.x00).

Definition rot_word (w : word) : word :=
  let '(a, b, c, d) := w in (b, c, d, a).

Definition sub_word : word -> word := map_word sbox.

Fixpoint words_of_bytes (bs : bytes) : list word :=
  match bs with
  | a :: b :: c :: d :: r => (a, b, c, d) :: words_of_bytes r
  | _ => []
  end.

(** The loop of KeyExpansion: [i] is the index of the next word, [rc] the
    round constant of the next multiple of [Nk]. *)
Fixpoint expand (n : nat) (Nk i : nat) (rc : byte) (w : list word)
  : list word :=
  match n with
  | O => w
  | S n' =>
      let temp := nth (i - 1) w zero_word in
      let '(temp', rc') :=
        if (i mod Nk =? 0)%nat then
          (xor_word (sub_word (rot_word temp))
             (rc, Byte.x00, Byte.x00, Byte.x00), xtime rc)
        else if (6 <? Nk)%nat && (i mod Nk =? 4)%nat then
          (sub_word temp, rc)
        else (temp, rc) in
      expand n' Nk (S i) rc' (w ++ [xor_word (nth (i - Nk) w zero_word) temp'])
  end.

Fixpoint round_keys_of_words (ws : list word) : list state :=
  match ws with
  | a :: b :: c :: d :: r => (a, b, c, d) :: round_keys_of_words r
  | _ => []
  end.

Definition key_expansion (key : bytes) : list state :=
  let Nk := (List.length key / 4)%nat in
  let Nr := (Nk + 6)%nat in
  round_keys_of_words
    (expand (4 * (Nr + 1) - Nk) Nk Nk Byte.x01 (words_of_bytes key)).

(** *** The cipher and its inverse *)

Definition round (rk s : state) : state :=
  add_round_key rk (mix_columns (shift_rows (sub_bytes s))).

Definition final_round (rk s : state) : state :=
  add_round_key rk (shift_rows (sub_bytes s)).

Fixpoint rounds (rks : list state) (s : state) : state :=
  match rks with
  | [] => s
  | [rk] => final_round rk s
  | rk :: rks' => rounds rks' (round rk s)
  end.

Definition cipher (rks : list state) (s : state) : state :=
  match rks with
  | [] => s
  | rk0 :: rks' => rounds rks' (add_round_key rk0 s)
  end.

Definition inv_round (rk s : state) : state :=
  inv_sub_bytes (inv_shift_rows (inv_mix_columns (add_round_key rk s))).

Definition inv_final_round (rk s : state) : state :=
  inv_sub_bytes (inv_shift_rows (add_round_key rk s)).

Fixpoint inv_rounds (rks : list state) (s : state) : state :=
  match rks with
  | [] => s
  | [rk] => inv_final_round rk s
  | rk :: rks' => inv_round rk (inv_rounds rks' s)
  end.

Definition inv_cipher (rks : list state) (s : state) : state :=
  match rks with
  | [] => s
  | rk0 :: rks' => add_round_key rk0 (inv_rounds rks' s)
  end.

(** *** Blocks *)

Definition bytes_of_word (w : word) : bytes :=
  let '(a, b, c, d) := w in [a; b; c; d].

Definition bytes_of_state (s : state) : bytes :=
  let '(a, b, c, d) := s in
  bytes_of_word a ++ bytes_of_word b ++ bytes_of_word c ++ bytes_of_word d.

(** Cut a byte string into 16-byte blocks; [None] when its length is not a
    multiple of the block size. *)
Fixpoint blocks (bs : bytes) : option (list state) :=
  match bs with
  | [] => Some []
  | a0 :: a1 :: a2 :: a3 :: b0 :: b1 :: b2 :: b3
    :: c0 :: c1 :: c2 :: c3 :: d0 :: d1 :: d2 :: d3 :: r =>
      match blocks r with
      | Some l =>
          Some (((a0, a1, a2, a3), (b0, b1, b2, b3),
                 (c0, c1, c2, c3), (d0, d1, d2, d3)) :: l)
      | None => None
      end
  | _ => None
  end.

Definition unblocks (l : list state) : bytes := flat_map bytes_of_state l.

(** *** The cipher object

    [AES.new(key=..., mode=AES.MODE_ECB)] keeps nothing but the expanded
    key: ECB has no initialisation vector and no chaining state. *)

Record cipher_obj : Set := { round_keys : list state }.

(** A text argument reaches the library as its UTF-8 bytes. *)
Definition arg_bytes (s : text) : result bytes :=
  of_option UnicodeEncodeError (utf8_encode s).

Definition new (key : text) : result cipher_obj :=
  k <- arg_bytes key ;;
  if existsb (Nat.eqb (List.length k)) key_size
  then Ok {| round_keys := key_expansion k |}
  else Raise ValueError_key_length.

Definition ecb (f : state -> state) (data : bytes) : result bytes :=
  match blocks data with
  | Some l => Ok (unblocks (map f l))
  | None => Raise ValueError_block_length
  end.

Definition encrypt (c : cipher_obj) (data : text) : result bytes :=
  d <- arg_bytes data ;;
  ecb (cipher (round_keys c)) d.

Definition decrypt (c : cipher_obj) (data : bytes) : result bytes :=
  ecb (inv_cipher (round_keys c)) data.

End AES.

(** ** [base64]: the standard alphabet with [=] padding *)

Module Base64.

Definition alphabet : text :=
  lit "ABCDEFGHIJKLMNOPQRSTUVWXYZabcdefghijklmnopqrstuvwxyz0123456789+/".

(** The character [=]. *)
Definition pad : byte := n2b 61.

Definition enc6 (n : N) : byte := n2b (nth (N.to_nat n) alphabet 0%N).

Fixpoint index_of (c : N) (l : list N) (i : N) : option N :=
  match l with
  | [] => None
  | x :: l' => if (x =? c)%N then Some i else index_of c l' (i + 1)%N
  end.

Definition dec6 (c : byte) : option N := index_of (b2n c) alphabet 0%N.

(** [base64.b64encode(s)] *)
Fixpoint b64encode (bs : bytes) : bytes :=
  match bs with
  | [] => []
  | [a] =>
      let n := b2n a in
      [enc6 (n / 4); enc6 (n mod 4 * 16); pad; pad]
  | [a; b] =>
      let n := (b2n a * 256 + b2n b)%N in
      [enc6 (n / 1024); enc6 (n / 16 mod 64); enc6 (n mod 16 * 4); pad]
  | a :: b :: c :: r =>
      let n := (b2n a * 65536 + b2n b * 256 + b2n c)%N in
      enc6 (n / 262144) :: enc6 (n / 4096 mod 64) :: enc6 (n / 64 mod 64)
        :: enc6 (n mod 64) :: b64encode r
  end.

Definition is_pad (c : byte) : bool := (b2n c =? 61)%N.

(** [base64.b64decode(s)] on canonical input: groups of four characters,
    the last one possibly ending in one or two [=]. *)
Fixpoint b64decode (cs : bytes) : option bytes :=
  match cs with
  | [] => Some []
  | c0 :: c1 :: c2 :: c3 :: r =>
      if is_pad c3 then
        match r with
        | [] =>
            if is_pad c2 then
              match dec6 c0, dec6 c1 with
              | Some x0, Some x1 => Some [n2b (x0 * 4 + x1 / 16)]
              | _, _ => None
              end
            else
              match dec6 c0, dec6 c1, dec6 c2 with
              | Some x0, Some x1, Some x2 =>
                  Some [n2b (x0 * 4 + x1 / 16); n2b (x1 mod 16 * 16 + x2 / 4)]
              | _, _, _ => None
              end
        | _ => None
        end
      else
        match dec6 c0, dec6 c1, dec6 c2, dec6 c3, b64decode r with
        | Some x0, Some x1, Some x2, Some x3, Some bs =>
            Some (n2b (x0 * 4 + x1 / 16) :: n2b (x1 mod 16 * 16 + x2 / 4)
                    :: n2b (x2 mod 4 * 64 + x3) :: bs)
        | _, _, _, _, _ => None
        end
  | _ => None
  end.

End Base64.

(** ** [json]: serialisation of the values the SDK handles *)

Module Json.

Local Open Scope N_scope.

(** The Python values that occur as attributes of a configuration object
    and that [json.dumps] accepts.  A [float] is carried by the text
    [json.dumps] prints for it ([float.__repr__], or [NaN], [Infinity],
    [-Infinity]): that text is the only thing the serialisation uses. *)
Inductive pyval : Type :=
| VNone
| VBool (b : bool)
| VInt (z : Z)
| VFloat (repr : text)
| VStr (s : text).

(** A dictionary, in insertion order. *)
Definition dict := list (text * pyval).

Definition hexdigit (n : N) : N :=
  if (n <? 10)%N then (48 + n)%N else (87 + n)%N.

(** ['{0:04x}'.format(n)] for [n < 0x10000] *)
Definition hex4 (n : N) : text :=
  [hexdigit (n / 4096); hexdigit (n / 256 mod 16);
   hexdigit (n / 16 mod 16); hexdigit (n mod 16)].

Definition backslash : N := 92.
Definition quote : N := 34.

(** The replacement of one character by [py_encode_basestring_ascii]. *)
Definition escape_char (c : N) : text :=
  if (c =? backslash)%N then [backslash; backslash]
  else if (c =? quote)%N then [backslash; quote]
  else if (c =? 8)%N then [backslash; 98]
  else if (c =? 12)%N then [backslash; 102]
  else if (c =? 10)%N then [backslash; 110]
  else if (c =? 13)%N then [backslash; 114]
  else if (c =? 9)%N then [backslash; 116]
  else if (32 <=? c)%N && (c <=? 126)%N then [c]
  else if (c <? 0x10000)%N then backslash :: 117 :: hex4 c
  else
    let n := (c - 0x10000)%N in
    let s1 := (0xd800 + n / 1024 mod 1024)%N in
    let s2 := (0xdc00 + n mod 1024)%N in
    (backslash :: 117 :: hex4 s1) ++ (backslash :: 117 :: hex4 s2).

Definition encode_string (s : text) : text :=
  quote :: flat_map escape_char s ++ [quote].

(** [int.__repr__] *)
Definition repr_int (z : Z) : text :=
  lit (DecimalString.NilZero.string_of_int (Z.to_int z)).

Definition encode_value (v : pyval) : text :=
  match v with
  | VNone => lit "null"
  | VBool true => lit "true"
  | VBool false => lit "false"
  | VInt z => repr_int z
  | VFloat r => r
  | VStr s => encode_string s
  end.

Definition encode_item (kv : text * pyval) : text :=
  encode_string (fst kv) ++ lit ": " ++ encode_value (snd kv).

(** [json.dumps(d)] for a dictionary with string keys, default options
    ([ensure_ascii=True], separators [", "] and [": "]). *)
Definition dumps (d : dict) : text :=
  lit "{" ++ join (lit ", ") (map encode_item d) ++ lit "}".

(** *** Decoding *)

Definition unhexdigit (c : N) : option N :=
  if (48 <=? c)%N && (c <=? 57)%N then Some (c - 48)%N
  else if (97 <=? c)%N && (c <=? 102)%N then Some (c - 87)%N
  else if (65 <=? c)%N && (c <=? 70)%N then Some (c - 55)%N
  else None.

Definition unhex4 (a b c d : N) : option N :=
  match unhexdigit a, unhexdigit b, unhexdigit c, unhexdigit d with
  | Some x, Some y, Some z, Some w => Some (x * 4096 + y * 256 + z * 16 + w)%N
  | _, _, _, _ => None
  end.

Definition unescape (e : N) : option N :=
  if (e =? quote)%N then Some quote
  else if (e =? backslash)%N then Some backslash
  else if (e =? 47)%N then Some 47%N
  else if (e =? 98)%N then Some 8%N
  else if (e =? 102)%N then Some 12%N
  else if (e =? 110)%N then Some 10%N
  else if (e =? 114)%N then Some 13%N
  else if (e =? 116)%N then Some 9%N
  else None.

Definition push (c : N) (o : option (text * text)) : option (text * text) :=
  match o with
  | Some (s, rest) => Some (c :: s, rest)
  | None => None
  end.

Definition is_high (u : N) : bool := (0xd800 <=? u)%N && (u <=? 0xdbff)%N.
Definition is_low (u : N) : bool := (0xdc00 <=? u)%N && (u <=? 0xdfff)%N.

(** [py_scanstring], strict: reads a string body up to its closing quote
    and returns the decoded text and what follows the quote. *)
Fixpoint scanstring (s : text) : option (text * text) :=
  match s with
  | [] => None
  | c :: r =>
      if (c =? quote)%N then Some ([], r)
      else if (c =? backslash)%N then
        match r with
        | [] => None
        | e :: r1 =>
            if (e =? 117)%N then
              match r1 with
              | h1 :: h2 :: h3 :: h4 :: r2 =>
                  match unhex4 h1 h2 h3 h4 with
                  | None => None
                  | Some uni =>
                      if is_high uni then
                        match r2 with
                        | b :: u :: r2' =>
                            if (b =? backslash)%N && (u =? 117)%N then
                              match r2' with
                              | k1 :: k2 :: k3 :: k4 :: r3 =>
                                  match unhex4 k1 k2 k3 k4 with
                                  | None => None
                                  | Some uni2 =>
                                      if is_low uni2 then
                                        push (0x10000 + (uni - 0xd800) * 1024
                                              + (uni2 - 0xdc00))%N
                                          (scanstring r3)
                                      else push uni (scanstring r2)
                                  end
                              | _ => None
                              end
                            else push uni (scanstring r2)
                        | _ => push uni (scanstring r2)
                        end
                      else push uni (scanstring r2)
                  end
              | _ => None
              end
            else
              match unescape e with
              | Some ch => push ch (scanstring r1)
              | None => None
              end
        end
      else if (c <? 32)%N then None
      else push c (scanstring r)
  end.

Definition is_number_char (c : N) : bool :=
  (48 <=? c)%N && (c <=? 57)%N
  || (c =? 45)%N || (c =? 43)%N || (c =? 46)%N || (c =? 101)%N || (c =? 69)%N.

(** The longest prefix of number characters, and the rest. *)
Fixpoint span_number (s : text) : text * text :=
  match s with
  | c :: r =>
      if is_number_char c
      then let '(n, rest) := span_number r in (c :: n, rest)
      else ([], s)
  | [] => ([], [])
  end.

Definition is_float_token (n : text) : bool :=
  existsb (fun c => (c =? 46)%N || (c =? 101)%N || (c =? 69)%N) n.

Definition text_to_string (s : text) : string :=
  string_of_list_ascii (map ascii_of_N s).

Definition parse_int (n : text) : option Z :=
  option_map Z.of_int (DecimalString.NilZero.int_of_string (text_to_string n)).

Definition parse_literal (p : text) (v : pyval) (s : text)
  : option (pyval * text) :=
  option_map (fun rest => (v, rest)) (strip_prefix p s).

(** One JSON scalar: a string, a number or one of the constants. *)
Definition parse_value (s : text) : option (pyval * text) :=
  match s with
  | [] => None
  | c :: r =>
      if (c =? quote)%N then
        option_map (fun '(str, rest) => (VStr str, rest)) (scanstring r)
      else if (c =? 110)%N then parse_literal (lit "null") VNone s
      else if (c =? 116)%N then parse_literal (lit "true") (VBool true) s
      else if (c =? 102)%N then parse_literal (lit "false") (VBool false) s
      else if (c =? 78)%N then parse_literal (lit "NaN") (VFloat (lit "NaN")) s
      else if (c =? 73)%N then
        parse_literal (lit "Infinity") (VFloat (lit "Infinity")) s
      else if (c =? 45)%N && (match r with i :: _ => (i =? 73)%N | [] => false end)
      then parse_literal (lit "-Infinity") (VFloat (lit "-Infinity")) s
      else
        let '(n, rest) := span_number s in
        if is_float_token n then Some (VFloat n, rest)
        else option_map (fun z => (VInt z, rest)) (parse_int n)
  end.

Fixpoint skip_ws (s : text) : text :=
  match s with
  | c :: r =>
      if (c =? 32)%N || (c =? 9)%N || (c =? 10)%N || (c =? 13)%N
      then skip_ws r else s
  | [] => []
  end.

(** The members of an object, after the opening brace or a comma. *)
Fixpoint parse_members (fuel : nat) (s : text) : option (dict * text) :=
  match fuel with
  | O => None
  | S fuel' =>
      match skip_ws s with
      | q :: r =>
          if (q =? quote)%N then
            match scanstring r with
            | Some (key, r1) =>
                match skip_ws r1 with
                | colon :: r2 =>
                    if (colon =? 58)%N then
                      match parse_value (skip_ws r2) with
                      | Some (v, r3) =>
                          match skip_ws r3 with
                          | d :: r4 =>
                              if (d =? 44)%N then
                                match parse_members fuel' r4 with
                                | Some (m, r5) => Some ((key, v) :: m, r5)
                                | None => None
                                end
                              else if (d =? 125)%N then Some ([(key, v)], r4)
                              else None
                          | [] => None
                          end
                      | None => None
                      end
                    else None
                | [] => None
                end
            | None => None
            end
          else None
      | [] => None
      end
  end.

(** [json.loads(s, object_pairs_hook=list)] for an object whose values are
    scalars: the members in the order of the text. *)
Definition loads (s : text) : option dict :=
  match skip_ws s with
  | b :: r =>
      if (b =? 123)%N then
        match skip_ws r with
        | e :: r' =>
            if (e =? 125)%N then
              match skip_ws r' with [] => Some [] | _ => None end
            else
              match parse_members (S (List.length r)) r with
              | Some (m, rest) =>
                  match skip_ws rest with [] => Some m | _ => None end
              | None => None
              end
        | [] => None
        end
      else None
  | [] => None
  end.

End Json.

(** ** [urllib.parse]: form encoding of a query

    As in Python 3.7 and later, where [~] is among the characters that are
    never quoted. *)

Module Urllib.

Local Open Scope N_scope.

(** [_ALWAYS_SAFE]: letters, digits and [_ . - ~] *)
Definition is_always_safe (c : N) : bool :=
  (65 <=? c) && (c <=? 90) || (97 <=? c) && (c <=? 122)
  || (48 <=? c) && (c <=? 57)
  || (c =? 95) || (c =? 46) || (c =? 45) || (c =? 126).

Definition hexdigit_upper (n : N) : N :=
  if n <? 10 then 48 + n else 55 + n.

(** ['%{:02X}'.format(b)] *)
Definition percent (b : byte) : text :=
  [37; hexdigit_upper (b2n b / 16); hexdigit_upper (b2n b mod 16)].

Definition space : N := 32.
Definition plus : N := 43.

(** [quote_from_bytes(bs, safe)] *)
Definition quote_from_bytes (bs : bytes) (safe : list N) : text :=
  flat_map
    (fun b =>
       if is_always_safe (b2n b) || existsb (N.eqb (b2n b)) safe
       then [b2n b] else percent b)
    bs.

(** [s.replace(a, b)] for single characters *)
Definition replace_char (a b : N) (s : text) : text :=
  map (fun c => if c =? a then b else c) s.

(** [quote_plus(bs)] for a [bytes] argument, [safe=''] *)
Definition quote_plus_bytes (bs : bytes) : text :=
  if existsb (fun b => b2n b =? space) bs
  then replace_char space plus (quote_from_bytes bs [space])
  else quote_from_bytes bs [].

(** A value of the query mapping: text or bytes. *)
Inductive qvalue : Type :=
| QStr (s : text)
| QBytes (b : bytes).

(** [quote_plus(v)]: text is encoded as UTF-8 first. *)
Definition quote_plus (v : qvalue) : result text :=
  match v with
  | QStr s =>
      bs <- of_option UnicodeEncodeError (utf8_encode s) ;;
      Ok (quote_plus_bytes bs)
  | QBytes b => Ok (quote_plus_bytes b)
  end.

Fixpoint encode_pairs (query : list (text * qvalue)) : result (list text) :=
  match query with
  | [] => Ok []
  | (k, v) :: q =>
      k' <- quote_plus (QStr k) ;;
      v' <- quote_plus v ;;
      l <- encode_pairs q ;;
      Ok ((k' ++ lit "=" ++ v') :: l)
  end.

(** [urlencode(query)] *)
Definition urlencode (query : list (text * qvalue)) : result text :=
  l <- encode_pairs query ;;
  Ok (join (lit "&") l).

(** *** Decoding a query string *)

(** [s.split(sep)] for a one-character separator *)
Fixpoint split_on (sep : N) (s : text) : list text :=
  match s with
  | [] => [[]]
  | c :: r =>
      if c =? sep then [] :: split_on sep r
      else
        match split_on sep r with
        | l :: ls => (c :: l) :: ls
        | [] => [[c]]
        end
  end.

(** [s.split(sep, 1)]: the text before the first separator and, when there
    is one, the text after it. *)
Fixpoint split_first (sep : N) (s : text) : text * option text :=
  match s with
  | [] => ([], None)
  | c :: r =>
      if c =? sep then ([], Some r)
      else let '(a, b) := split_first sep r in (c :: a, b)
  end.

(** [unquote_to_bytes], on ASCII text: [%XX] becomes a byte, a [%] that is
    not followed by two hexadecimal digits stays. *)
Fixpoint unquote_to_bytes (s : text) : option bytes :=
  match s with
  | [] => Some []
  | c :: r =>
      if 128 <=? c then None
      else if c =? 37 then
        match r with
        | h1 :: h2 :: r' =>
            match Json.unhexdigit h1, Json.unhexdigit h2 with
            | Some x, Some y => cons_opt (n2b (16 * x + y)) (unquote_to_bytes r')
            | _, _ => cons_opt (n2b c) (unquote_to_bytes r)
            end
        | _ => cons_opt (n2b c) (unquote_to_bytes r)
        end
      else cons_opt (n2b c) (unquote_to_bytes r)
  end.

(** [unquote_plus(s)] on ASCII text whose escapes form valid UTF-8. *)
Definition unquote_plus (s : text) : option text :=
  match unquote_to_bytes (replace_char plus space s) with
  | Some bs => utf8_decode bs
  | None => None
  end.

Fixpoint parse_pairs (l : list text) : option (list (text * text)) :=
  match l with
  | [] => Some []
  | [] :: l' => parse_pairs l'
  | p :: l' =>
      let '(n, v) := split_first 61 p in
      match unquote_plus n,
            unquote_plus (match v with Some x => x | None => [] end),
            parse_pairs l' with
      | Some name, Some value, Some rest => Some ((name, value) :: rest)
      | _, _, _ => None
      end
  end.

(** [parse_qsl(qs, keep_blank_values=True)] *)
Definition parse_qsl (qs : text) : option (list (text * text)) :=
  parse_pairs (split_on 38 qs).

End Urllib.

(** ** [str.format] and [textwrap.dedent] *)

Module Str.

Local Open Scope N_scope.

Definition lbrace : N := 123.
Definition rbrace : N := 125.
Definition newline : N := 10.

Fixpoint lookup (k : text) (kw : list (text * text)) : option text :=
  match kw with
  | [] => None
  | (k', v) :: kw' =>
      if list_eq_dec N.eq_dec k k' then Some v else lookup k kw'
  end.

(** [tpl.format( *args, **kwargs)] for templates whose replacement fields
    are plain: [{}] (the next positional argument) or [{name}].  [field]
    is [None] in literal text and holds the reversed field name read so far
    inside braces; [auto] numbers the [{}] fields. *)
Fixpoint format_from (tpl : text) (field : option text) (auto : nat)
  (args : list text) (kwargs : list (text * text)) : result text :=
  match field with
  | None =>
      match tpl with
      | [] => Ok []
      | c :: r =>
          if c =? lbrace then
            match r with
            | c' :: r' =>
                if c' =? lbrace
                then s <- format_from r' None auto args kwargs ;; Ok (lbrace :: s)
                else format_from r (Some []) auto args kwargs
            | [] => Raise ValueError_format
            end
          else if c =? rbrace then
            match r with
            | c' :: r' =>
                if c' =? rbrace
                then s <- format_from r' None auto args kwargs ;; Ok (rbrace :: s)
                else Raise ValueError_format
            | [] => Raise ValueError_format
            end
          else s <- format_from r None auto args kwargs ;; Ok (c :: s)
      end
  | Some name =>
      match tpl with
      | [] => Raise ValueError_format
      | c :: r =>
          if c =? rbrace then
            match name with
            | [] =>
                v <- of_option KeyError (nth_error args auto) ;;
                s <- format_from r None (S auto) args kwargs ;;
                Ok (v ++ s)
            | _ =>
                v <- of_option KeyError (lookup (rev name) kwargs) ;;
                s <- format_from r None auto args kwargs ;;
                Ok (v ++ s)
            end
          else if (c =? lbrace) || (c =? 33) || (c =? 58) || (c =? 46)
                  || (c =? 91)
          then Raise ValueError_format
          else format_from r (Some (c :: name)) auto args kwargs
      end
  end.

Definition format (tpl : text) (args : list text)
  (kwargs : list (text * text)) : result text :=
  format_from tpl None 0 args kwargs.

(** *** [textwrap.dedent] *)

Definition is_blank (c : N) : bool := (c =? 32) || (c =? 9).

(** [_whitespace_only_re.sub('', text)], line by line *)
Definition normalise_line (l : text) : text :=
  if forallb is_blank l then [] else l.

Fixpoint leading_whitespace (l : text) : text :=
  match l with
  | c :: r => if is_blank c then c :: leading_whitespace r else []
  | [] => []
  end.

Fixpoint common_prefix (a b : text) : text :=
  match a, b with
  | x :: a', y :: b' => if x =? y then x :: common_prefix a' b' else []
  | _, _ => []
  end.

(** The margin: the longest whitespace prefix common to the lines that
    have contents; [None] when no line has. *)
Fixpoint margin_of (lines : list text) : option text :=
  match lines with
  | [] => None
  | l :: ls =>
      match l, margin_of ls with
      | [], m => m
      | _ :: _, None => Some (leading_whitespace l)
      | _ :: _, Some m => Some (common_prefix (leading_whitespace l) m)
      end
  end.

Definition remove_prefix (p l : text) : text :=
  match strip_prefix p l with
  | Some r => r
  | None => l
  end.

(** [textwrap.dedent(text)]: lines that consist of blanks become empty,
    then the margin is removed from every line that starts with it. *)
Definition dedent (s : text) : text :=
  let lines := map normalise_line (Urllib.split_on newline s) in
  match margin_of lines with
  | Some (c :: m) => join [newline] (map (remove_prefix (c :: m)) lines)
  | _ => join [newline] lines
  end.

(** A template literal of the source, line by line; the apostrophe stands
    for the double quote of the Python text. *)
Definition line (s : string) : text :=
  map (fun c => if c =? 39 then 34 else c) (lit s).

Definition template (lines : list text) : text := join [newline] lines.

(** Occurrences of [u] in [s], counted at every position. *)
Definition starts_with (u s : text) : bool :=
  match strip_prefix u s with
  | Some _ => true
  | None => false
  end.

Fixpoint count_occurrences (u s : text) : nat :=
  (if starts_with u s then 1 else 0)%nat
  + match s with
    | [] => 0%nat
    | _ :: s' => count_occurrences u s'
    end.

End Str.
(** ** The clock

    [time.time()] returns a binary64 float.  Floats are modelled by the
    IEEE 754 specification of the Standard Library, with 53 bits of
    precision: the product [time.time() * 1000] is rounded to the nearest
    float, as the processor does, before [round] is applied to it. *)

Module Time.

Definition float : Set := SpecFloat.spec_float.

Definition prec : Z := 53.
Definition emax : Z := 1024.

(** [x * y] on floats: the exact product, rounded to the nearest float,
    ties to the even mantissa. *)
Definition mul (x y : float) : float := SpecFloat.SFmul prec emax x y.

(** [float(1000)]: [1000 = 8796093022208000 * 2 ** -43], exactly. *)
Definition thousand : float :=
  SpecFloat.S754_finite false 8796093022208000 (-43).

Definition is_finite (x : float) : bool :=
  match x with
  | SpecFloat.S754_zero _ | SpecFloat.S754_finite _ _ _ => true
  | _ => false
  end.

(** The exact value of a finite float. *)
Definition to_Q (x : float) : QArith_base.Q :=
  match x with
  | SpecFloat.S754_finite s m e =>
      let v :=
        match e with
        | Zneg p => QArith_base.Qmake (Zpos m) (2 ^ p)
        | _ => QArith_base.inject_Z (Zpos m * 2 ^ e)
        end in
      if s then QArith_base.Qopp v else v
  | _ => QArith_base.inject_Z 0
  end.

(** A reading of the clock is a float, and one whose product by 1000 is
    finite: the clock counts seconds in a machine integer. *)
Definition is_reading (x : float) : bool :=
  SpecFloat.valid_binary prec emax x && is_finite (mul x thousand).

Record World : Set := {
  clock : float;
  clock_is_reading : is_reading clock = true
}.

Definition time (w : World) : float := clock w.

(** [round(x)]: to the nearest integer, ties to the even one. *)
Definition round (x : QArith_base.Q) : Z :=
  let f := Qround.Qfloor x in
  match QArith_base.Qcompare
          (QArith_base.Qminus x (QArith_base.inject_Z f))
          (QArith_base.Qmake 1 2) with
  | Lt => f
  | Gt => (f + 1)%Z
  | Eq => if Z.even f then f else (f + 1)%Z
  end.

(** [int(round(time.time() * 1000))] *)
Definition now_ms (w : World) : Z :=
  round (to_Q (mul (time w) thousand)).

End Time.

(** ** [xapo_utils.py] *)

Module xapo_utils.

(** [l = len(bytestring); val = k - (l % k);
     return bytestring + bytearray([val] * val).decode()] *)
Definition _pkcs7_padding (bytestring : text) (k : Z) : result text :=
  let l := len bytestring in
  if (k =? 0)%Z then Raise ZeroDivisionError else
  let val := (k - (l mod k))%Z in
  vals <- list_mul val val ;;
  ba <- bytearray vals ;;
  pad <- of_option UnicodeDecodeError (utf8_decode ba) ;;
  Ok (bytestring ++ pad).

(** [cipher = AES.new(key=app_secret, mode=AES.MODE_ECB);
     padded_payload = _pkcs7_padding(payload);
     encrypted_payload = cipher.encrypt(padded_payload);
     return base64.b64encode(encrypted_payload)] *)
Definition encrypt (payload app_secret : text) : result bytes :=
  cipher <- AES.new app_secret ;;
  padded_payload <- _pkcs7_padding payload 16 ;;
  encrypted_payload <- AES.encrypt cipher padded_payload ;;
  Ok (Base64.b64encode encrypted_payload).

End xapo_utils.

(** ** [xapo_tools.py]: class [MicroPayment], the payment type is part of
    the configuration *)

Module xapo_tools.

Import Json.

Record MicroPaymentConfig : Type := {
  sender_user_id : pyval;
  sender_user_email : pyval;
  sender_user_cellphone : pyval;
  receiver_user_id : pyval;
  receiver_user_email : pyval;
  pay_object_id : pyval;
  amount_BIT : pyval;
  timestamp : pyval;
  pay_type : pyval
}.

(** The keyword arguments of a call of the constructor; [None] for an
    argument that the caller leaves out. *)
Record kwargs : Type := {
  kw_sender_user_id : option pyval;
  kw_sender_user_email : option pyval;
  kw_sender_user_cellphone : option pyval;
  kw_receiver_user_id : option pyval;
  kw_receiver_user_email : option pyval;
  kw_pay_object_id : option pyval;
  kw_amount_BIT : option pyval;
  kw_timestamp : option pyval;
  kw_pay_type : option pyval
}.

Definition no_kwargs : kwargs :=
  {| kw_sender_user_id := None; kw_sender_user_email := None;
     kw_sender_user_cellphone := None; kw_receiver_user_id := None;
     kw_receiver_user_email := None; kw_pay_object_id := None;
     kw_amount_BIT := None; kw_timestamp := None; kw_pay_type := None |}.

(** The function object of [__init__]: its default values are computed
    when the [def] statement runs, that is when the module is imported,
    and kept in the function. *)
Record init_function : Type := { __defaults__ : MicroPaymentConfig }.

(** Running the [def] statement in the world of the import. *)
Definition def___init__ (w : Time.World) : init_function :=
  {| __defaults__ :=
       {| sender_user_id := VStr []; sender_user_email := VStr [];
          sender_user_cellphone := VStr []; receiver_user_id := VStr [];
          receiver_user_email := VStr []; pay_object_id := VStr [];
          amount_BIT := VInt 0;
          timestamp := VInt (Time.now_ms w);
          pay_type := VStr [] |} |}.

Definition arg (given : option pyval) (default : pyval) : pyval :=
  match given with
  | Some v => v
  | None => default
  end.

(** A call [MicroPaymentConfig(...)] made in world [w]: the body only
    copies its arguments; the clock of [w] is not read. *)
Definition __init__ (f : init_function) (w : Time.World) (kw : kwargs)
  : MicroPaymentConfig :=
  let d := __defaults__ f in
  {| sender_user_id := arg (kw_sender_user_id kw) (sender_user_id d);
     sender_user_email := arg (kw_sender_user_email kw) (sender_user_email d);
     sender_user_cellphone :=
       arg (kw_sender_user_cellphone kw) (sender_user_cellphone d);
     receiver_user_id := arg (kw_receiver_user_id kw) (receiver_user_id d);
     receiver_user_email :=
       arg (kw_receiver_user_email kw) (receiver_user_email d);
     pay_object_id := arg (kw_pay_object_id kw) (pay_object_id d);
     amount_BIT := arg (kw_amount_BIT kw) (amount_BIT d);
     timestamp := arg (kw_timestamp kw) (timestamp d);
     pay_type := arg (kw_pay_type kw) (pay_type d) |}.

(** [config.__dict__], in the order of the assignments of [__init__]. *)
Definition __dict__ (c : MicroPaymentConfig) : dict :=
  [(lit "sender_user_id", sender_user_id c);
   (lit "sender_user_email", sender_user_email c);
   (lit "sender_user_cellphone", sender_user_cellphone c);
   (lit "receiver_user_id", receiver_user_id c);
   (lit "receiver_user_email", receiver_user_email c);
   (lit "pay_object_id", pay_object_id c);
   (lit "amount_BIT", amount_BIT c);
   (lit "timestamp", timestamp c);
   (lit "pay_type", pay_type c)].

Record MicroPayment : Type := {
  service_url : text;
  app_id : text;
  app_secret : text
}.

(** [json_config = json.dumps(config.__dict__);
     encrypted_config = xapo_utils.encrypt(json_config, self.app_secret);
     query = {"app_id": ..., "button_request": ..., "customization": ...};
     query_str = urlencode(query);
     widget_url = self.service_url + "?" + query_str] *)
Definition __build_url (self : MicroPayment) (config : MicroPaymentConfig)
  : result text :=
  let json_config := dumps (__dict__ config) in
  encrypted_config <- xapo_utils.encrypt json_config (app_secret self) ;;
  let query :=
    [(lit "app_id", Urllib.QStr (app_id self));
     (lit "button_request", Urllib.QBytes encrypted_config);
     (lit "customization",
      Urllib.QStr (dumps [(lit "button_text", pay_type config)]))] in
  query_str <- Urllib.urlencode query ;;
  let widget_url := service_url self ++ lit "?" ++ query_str in
  Ok widget_url.

Definition iframe_snippet : text :=
  Str.template
    [Str.line EmptyString;
     Str.line "                <iframe id='tipButtonFrame' scrolling='no' frameborder='0'";
     Str.line "                    style='border:none; overflow:hidden; height:22px;'";
     Str.line "                    allowTransparency='true' src='{url}'>";
     Str.line "                </iframe>";
     Str.line "              "].

Definition div_snippet : text :=
  Str.template
    [Str.line EmptyString;
     Str.line "                <div id='tipButtonDiv' class='tipButtonDiv'></div>";
     Str.line "                <div id='tipButtonPopup' class='tipButtonPopup'></div>";
     Str.line "                <script>";
     Str.line "                    $(document).ready(function() {{";
     Str.line "                        $('#tipButtonDiv').load('{url}');";
     Str.line "                    }});";
     Str.line "                </script>";
     Str.line "              "].

Definition build_iframe_widget (self : MicroPayment)
  (config : MicroPaymentConfig) : result text :=
  widget_url <- __build_url self config ;;
  snippet <- Str.format iframe_snippet [] [(lit "url", widget_url)] ;;
  Ok (Str.dedent snippet).

Definition build_div_widget (self : MicroPayment)
  (config : MicroPaymentConfig) : result text :=
  widget_url <- __build_url self config ;;
  snippet <- Str.format div_snippet [] [(lit "url", widget_url)] ;;
  Ok (Str.dedent snippet).

End xapo_tools.

(** ** [micro_payment.py]: class [XapoMicroPaymentSDK], the payment type is
    an argument of the builders *)

Module micro_payment.

Import Json.

Definition _pkcs7_encode (bytestring : text) (k : Z) : result text :=
  let l := len bytestring in
  if (k =? 0)%Z then Raise ZeroDivisionError else
  let val := (k - (l mod k))%Z in
  vals <- list_mul val val ;;
  ba <- bytearray vals ;;
  pad <- of_option UnicodeDecodeError (utf8_decode ba) ;;
  Ok (bytestring ++ pad).

Definition _encrypt (payload app_secret : text) : result bytes :=
  cipher <- AES.new app_secret ;;
  padded_payload <- _pkcs7_encode payload 16 ;;
  encrypted_payload <- AES.encrypt cipher padded_payload ;;
  Ok (Base64.b64encode encrypted_payload).

Record MicroPaymentConfig : Type := {
  sender_user_id : pyval;
  sender_user_email : pyval;
  sender_user_cellphone : pyval;
  receiver_user_id : pyval;
  receiver_user_email : pyval;
  pay_object_id : pyval;
  amount_BIT : pyval;
  timestamp : pyval
}.

Record kwargs : Type := {
  kw_sender_user_id : option pyval;
  kw_sender_user_email : option pyval;
  kw_sender_user_cellphone : option pyval;
  kw_receiver_user_id : option pyval;
  kw_receiver_user_email : option pyval;
  kw_pay_object_id : option pyval;
  kw_amount_BIT : option pyval;
  kw_timestamp : option pyval
}.

Definition no_kwargs : kwargs :=
  {| kw_sender_user_id := None; kw_sender_user_email := None;
     kw_sender_user_cellphone := None; kw_receiver_user_id := None;
     kw_receiver_user_email := None; kw_pay_object_id := None;
     kw_amount_BIT := None; kw_timestamp := None |}.

Record init_function : Type := { __defaults__ : MicroPaymentConfig }.

Definition def___init__ (w : Time.World) : init_function :=
  {| __defaults__ :=
       {| sender_user_id := VStr []; sender_user_email := VStr [];
          sender_user_cellphone := VStr []; receiver_user_id := VStr [];
          receiver_user_email := VStr []; pay_object_id := VStr [];
          amount_BIT := VInt 0;
          timestamp := VInt (Time.now_ms w) |} |}.

Definition arg (given : option pyval) (default : pyval) : pyval :=
  match given with
  | Some v => v
  | None => default
  end.

Definition __init__ (f : init_function) (w : Time.World) (kw : kwargs)
  : MicroPaymentConfig :=
  let d := __defaults__ f in
  {| sender_user_id := arg (kw_sender_user_id kw) (sender_user_id d);
     sender_user_email := arg (kw_sender_user_email kw) (sender_user_email d);
     sender_user_cellphone :=
       arg (kw_sender_user_cellphone kw) (sender_user_cellphone d);
     receiver_user_id := arg (kw_receiver_user_id kw) (receiver_user_id d);
     receiver_user_email :=
       arg (kw_receiver_user_email kw) (receiver_user_email d);
     pay_object_id := arg (kw_pay_object_id kw) (pay_object_id d);
     amount_BIT := arg (kw_amount_BIT kw) (amount_BIT d);
     timestamp := arg (kw_timestamp kw) (timestamp d) |}.

Definition __dict__ (c : MicroPaymentConfig) : dict :=
  [(lit "sender_user_id", sender_user_id c);
   (lit "sender_user_email", sender_user_email c);
   (lit "sender_user_cellphone", sender_user_cellphone c);
   (lit "receiver_user_id", receiver_user_id c);
   (lit "receiver_user_email", receiver_user_email c);
   (lit "pay_object_id", pay_object_id c);
   (lit "amount_BIT", amount_BIT c);
   (lit "timestamp", timestamp c)].

Record XapoMicroPaymentSDK : Type := {
  service_url : text;
  app_id : text;
  app_secret : text
}.

Definition __build_url (self : XapoMicroPaymentSDK)
  (config : MicroPaymentConfig) (pay_type : pyval) : result text :=
  let json_config := dumps (__dict__ config) in
  encrypted_config <- _encrypt json_config (app_secret self) ;;
  let query :=
    [(lit "app_id", Urllib.QStr (app_id self));
     (lit "button_request", Urllib.QBytes encrypted_config);
     (lit "customization",
      Urllib.QStr (dumps [(lit "button_text", pay_type)]))] in
  query_str <- Urllib.urlencode query ;;
  let widget_url := service_url self ++ lit "?" ++ query_str in
  Ok widget_url.

Definition iframe_snippet : text :=
  Str.template
    [Str.line EmptyString;
     Str.line "                <iframe id='tipButtonFrame' scrolling='no' frameborder='0'";
     Str.line "                    style='border:none; overflow:hidden; height:22px;'";
     Str.line "                    allowTransparency='true' src='{}'>";
     Str.line "                </iframe>";
     Str.line "              "].

Definition div_snippet : text :=
  Str.template
    [Str.line EmptyString;
     Str.line "                <div id='tipButtonDiv' class='tipButtonDiv'></div>";
     Str.line "                <div id='tipButtonPopup' class='tipButtonPopup'></div>";
     Str.line "                <script>";
     Str.line "                    $(document).ready(function() {{";
     Str.line "                        $('#tipButtonDiv').load('{url}');";
     Str.line "                    }});";
     Str.line "                </script>";
     Str.line "              "].

Definition build_iframe_widget (self : XapoMicroPaymentSDK)
  (config : MicroPaymentConfig) (pay_type : pyval) : result text :=
  widget_url <- __build_url self config pay_type ;;
  res <- Str.format iframe_snippet [widget_url] [] ;;
  Ok (Str.dedent res).

Definition build_div_widget (self : XapoMicroPaymentSDK)
  (config : MicroPaymentConfig) (pay_type : pyval) : result text :=
  widget_url <- __build_url self config pay_type ;;
  res <- Str.format div_snippet [] [(lit "url", widget_url)] ;;
  Ok (Str.dedent res).

End micro_payment.

(** ** The receiving side

    What the provider does with [button_request]: base64-decode, decrypt in
    ECB mode under the shared secret, and strip the trailing [p] bytes, [p]
    being the value of the last byte. *)

Module Provider.

Definition pkcs7_strip (bs : bytes) : option bytes :=
  match rev bs with
  | [] => None
  | final :: _ =>
      let p := N.to_nat (b2n final) in
      if (p <=? List.length bs)%nat
      then Some (firstn (List.length bs - p) bs)
      else None
  end.

Definition decrypt (encoded : bytes) (app_secret : text) : option bytes :=
  match Base64.b64decode encoded, AES.new app_secret with
  | Some ct, Ok cipher =>
      match AES.decrypt cipher ct with
      | Ok plain => pkcs7_strip plain
      | Raise _ => None
      end
  | _, _ => None
  end.

(** The payload as text again. *)
Definition decrypt_text (encoded : bytes) (app_secret : text) : option text :=
  match decrypt encoded app_secret with
  | Some bs => utf8_decode bs
  | None => None
  end.

End Provider.

(** ** Notions used in the statements *)

(** Every byte, for proofs by enumeration. *)
Definition all_bytes : list byte := map (fun n => n2b (N.of_nat n)) (seq 0 256).

(** A key length the cipher accepts. *)
Definition valid_key_length (n : nat) : bool :=
  existsb (Nat.eqb n) AES.key_size.

(** The number of characters appended to a text of [n] characters. *)
Definition pad_length (n : nat) : nat := 16 - n mod 16.

(** The padded text of a payload. *)
Definition padded (payload : text) : text :=
  let p := pad_length (List.length payload) in
  payload ++ repeat (N.of_nat p) p.

(** The texts [json.dumps] prints for a float. *)
Definition is_float_repr (r : text) : bool :=
  text_eqb r (lit "NaN") || text_eqb r (lit "Infinity")
  || text_eqb r (lit "-Infinity")
  || forallb Json.is_number_char r && Json.is_float_token r.

(** A value whose text is made of Unicode scalar values (no surrogate code
    points), or a float with a proper [repr]. *)
Definition value_ok (v : Json.pyval) : bool :=
  match v with
  | Json.VStr s => forallb is_scalar s
  | Json.VFloat r => is_float_repr r
  | _ => true
  end.

Definition dict_ok (d : Json.dict) : bool :=
  forallb (fun kv => forallb is_scalar (fst kv) && value_ok (snd kv)) d.

(** What may follow a value in a JSON text: nothing, or a character that
    cannot continue a number. *)
Definition ends_number (rest : text) : Prop :=
  match rest with
  | [] => True
  | c :: _ => Json.is_number_char c = false
  end.

(** The characters of a printed integer. *)
Definition is_int_char (c : N) : bool :=
  ((48 <=? c) && (c <=? 57) || (c =? 45))%N.

(** The characters [quote_plus] produces. *)
Definition is_quoted_char (c : N) : bool :=
  (Urllib.is_always_safe c || (c =? 43) || (c =? 37))%N.

(** What [quote_plus] makes of one byte. *)
Definition quoted_byte (b : byte) : text :=
  if Urllib.is_always_safe (b2n b) then [b2n b]
  else if (b2n b =? 32)%N then [43%N]
  else Urllib.percent b.

Definition is_ascii_bytes (bs : bytes) : bool :=
  forallb (fun b => (b2n b <? 128)%N) bs.

(** A query whose texts have a UTF-8 encoding and whose byte strings are
    ASCII. *)
Definition qvalue_ok (v : Urllib.qvalue) : bool :=
  match v with
  | Urllib.QStr s => forallb is_scalar s
  | Urllib.QBytes b => is_ascii_bytes b
  end.

Definition query_ok (q : list (text * Urllib.qvalue)) : bool :=
  forallb (fun kv => forallb is_scalar (fst kv) && qvalue_ok (snd kv)) q.

(** The text a query value is read back as. *)
Definition qvalue_text (v : Urllib.qvalue) : text :=
  match v with
  | Urllib.QStr s => s
  | Urllib.QBytes b => map b2n b
  end.

(** A text without the character [c]. *)
Definition lacks (c : N) (s : text) : bool := forallb (fun x => negb (x =? c)%N) s.

(** The two snippets once formatted and dedented, around the URL. *)
Definition iframe_html (url : text) : text :=
  Str.template
    [Str.line EmptyString;
     Str.line "<iframe id='tipButtonFrame' scrolling='no' frameborder='0'";
     Str.line "    style='border:none; overflow:hidden; height:22px;'";
     Str.line "    allowTransparency='true' src='"]
  ++ url
  ++ Str.template
       [Str.line "'>";
        Str.line "</iframe>";
        Str.line EmptyString].

Definition div_html (url : text) : text :=
  Str.template
    [Str.line EmptyString;
     Str.line "<div id='tipButtonDiv' class='tipButtonDiv'></div>";
     Str.line "<div id='tipButtonPopup' class='tipButtonPopup'></div>";
     Str.line "<script>";
     Str.line "    $(document).ready(function() {";
     Str.line "        $('#tipButtonDiv').load('"]
  ++ url
  ++ Str.template
       [Str.line "');";
        Str.line "    });";
        Str.line "</script>";
        Str.line EmptyString].

(** The two snippets with the URL put in by [format], before [dedent]. *)
Definition iframe_formatted (url : text) : text :=
  Str.template
    [Str.line EmptyString;
     Str.line "                <iframe id='tipButtonFrame' scrolling='no' frameborder='0'";
     Str.line "                    style='border:none; overflow:hidden; height:22px;'";
     Str.line "                    allowTransparency='true' src='"]
  ++ url
  ++ Str.template
       [Str.line "'>";
        Str.line "                </iframe>";
        Str.line "              "].

Definition div_formatted (url : text) : text :=
  Str.template
    [Str.line EmptyString;
     Str.line "                <div id='tipButtonDiv' class='tipButtonDiv'></div>";
     Str.line "                <div id='tipButtonPopup' class='tipButtonPopup'></div>";
     Str.line "                <script>";
     Str.line "                    $(document).ready(function() {";
     Str.line "                        $('#tipButtonDiv').load('"]
  ++ url
  ++ Str.template
       [Str.line "');";
        Str.line "                    });";
        Str.line "                </script>";
        Str.line "              "].

(** What [encrypt] computes, written with nothing but its two arguments:
    the key is the UTF-8 encoding of the secret, the data the UTF-8
    encoding of the payload followed by the pad bytes, and each 16-byte
    block of the data is enciphered on its own under the expanded key. *)
Definition encrypt_closed_form (payload app_secret : text) : result bytes :=
  match utf8_encode app_secret with
  | None => Raise UnicodeEncodeError
  | Some key =>
      if valid_key_length (List.length key) then
        match utf8_encode payload with
        | None => Raise UnicodeEncodeError
        | Some bs =>
            let p := pad_length (List.length payload) in
            match AES.blocks (bs ++ repeat (n2b (N.of_nat p)) p) with
            | None => Raise ValueError_block_length
            | Some l =>
                Ok (Base64.b64encode
                      (flat_map
                         (fun block =>
                            AES.bytes_of_state
                              (AES.cipher (AES.key_expansion key) block))
                         l))
            end
        end
      else Raise ValueError_key_length
  end.

(** Joining the lines of [a] and of [b] when [a ++ b] is cut into lines:
    the last line of [a] continues with the first line of [b]. *)
Definition glue (la lb : list text) : list text :=
  removelast la ++ (last la [] ++ hd [] lb) :: tl lb.

(** [d.get(k)]: the value of the last member with key [k]. *)
Fixpoint dict_get (k : text) (d : Json.dict) : option Json.pyval :=
  match d with
  | [] => None
  | (k', v) :: d' =>
      match dict_get k d' with
      | Some v' => Some v'
      | None => if text_eqb k k' then Some v else None
      end
  end.

(** The attribute names of a configuration of [xapo_tools.py]. *)
Definition schema_keys : list text :=
  [lit "sender_user_id"; lit "sender_user_email"; lit "sender_user_cellphone";
   lit "receiver_user_id"; lit "receiver_user_email"; lit "pay_object_id";
   lit "amount_BIT"; lit "timestamp"; lit "pay_type"].

(** The query mapping of both builders. *)
Definition query_of (app_id : text) (button_request : bytes)
  (button_text : Json.pyval) : list (text * Urllib.qvalue) :=
  [(lit "app_id", Urllib.QStr app_id);
   (lit "button_request", Urllib.QBytes button_request);
   (lit "customization",
    Urllib.QStr (Json.dumps [(lit "button_text", button_text)]))].

(** The builder of the doctests of [XapoMicroPaymentSDK], and a
    configuration with the same values. *)
Definition sdk : micro_payment.XapoMicroPaymentSDK :=
  {| micro_payment.service_url := lit "http://dev.xapo.com:8089/pay_button/show";
     micro_payment.app_id := lit "b91014cc28c94841";
     micro_payment.app_secret := lit "c533a6e606fb62ccb13e8baf8a95cbdc" |}.

Definition sdk_config : micro_payment.MicroPaymentConfig :=
  {| micro_payment.sender_user_id := Json.VStr [];
     micro_payment.sender_user_email := Json.VStr (lit "sender@xapo.com");
     micro_payment.sender_user_cellphone := Json.VStr (lit "+5491112341234");
     micro_payment.receiver_user_id := Json.VStr (lit "r0210");
     micro_payment.receiver_user_email :=
       Json.VStr (lit "fernando.taboada@xapo.com");
     micro_payment.pay_object_id := Json.VStr (lit "to0210");
     micro_payment.amount_BIT := Json.VFloat (lit "0.01");
     micro_payment.timestamp := Json.VInt 1410973639125 |}.

(** The shape of what a builder returns, [url_result] being the result of
    [__build_url] and [iframe_result], [div_result] those of the two widget
    builders: the URL is [service_url + "?" + query_string], the query
    string is the form encoding of the three parameters, each widget is its
    snippet around the URL and contains the URL at exactly one position, and
    the query string reads back as the [app_id], a non-empty
    [button_request], which is the output of [encrypt], and a
    [customization] that decodes to the object with the single member
    [button_text]. *)
Definition widget_shape (service_url app_id app_secret : text)
  (json_config : Json.dict) (button_text : Json.pyval)
  (url_result iframe_result div_result : result text) : Prop :=
  exists (button_request : bytes) (query_string url customization : text),
    xapo_utils.encrypt (Json.dumps json_config) app_secret = Ok button_request
    /\ Urllib.urlencode
         [(lit "app_id", Urllib.QStr app_id);
          (lit "button_request", Urllib.QBytes button_request);
          (lit "customization", Urllib.QStr customization)] = Ok query_string
    /\ url = service_url ++ lit "?" ++ query_string
    /\ url_result = Ok url
    /\ iframe_result = Ok (iframe_html url)
    /\ Str.count_occurrences url (iframe_html url) = 1
    /\ div_result = Ok (div_html url)
    /\ Str.count_occurrences url (div_html url) = 1
    /\ Urllib.parse_qsl query_string
       = Some [(lit "app_id", app_id);
               (lit "button_request", map b2n button_request);
               (lit "customization", customization)]
    /\ button_request <> []
    /\ Json.loads customization = Some [(lit "button_text", button_text)].

(** ** Inputs taken from the docstrings *)

Module Doctest.

(** The payload of the doctest of [encrypt]: the backslash-newline pairs of
    the docstring join its lines, so the continuation prompts are part of
    the text. *)
Definition json : text :=
  Str.line "{'sender_user_id':'s160901',    ... 'sender_user_email':'fernando.taboada@gmail.com',    ... 'sender_user_cellphone':'',    ... 'receiver_user_id':'r160901'    ... 'receiver_user_email':'fernando.taboada@xapo.com',    ... 'tip_object_id':'to160901',    ... 'amount_SAT':'',    ... 'timestamp':1410973639125}".

Definition secret : text := lit "bc4e142dc053407b0028accffc289c18".

(** The output the doctest expects. *)
Definition enc : bytes :=
  map n2b
    (lit "rjiFHpE3794U23dEKNyEzwd+xx4/r7Lm2W/KcLbRbore5X6QUVCZAkZXCzkbFXNZ+muss+QioHTzf8lVs6TTECU37/2Gqc5CyAmFzN32CoQUBD8mreaOHRu4+UftuMX2Fy6iKlPGHuyxUM+zb0DT8xHek2w5ROtkZJG59A8Vs9xdDEvy3rmDRa56tB/xy2JsjyiT3RtDSDr0+bMfG1mUYNvAymH0aaweJTAJTlz0V2/EaArbeee+XHthf7dhXJmktP52nDLXHSDLzr4jCr9uNI6w7EXQ4FR/qRxgu5ieNJ5bZ0YVEKg1ax5nikt3hq3zK6pU7eM/VEjAKAAoomlV8uO/WZ6M7kvZaTHd4a7Q9feEGMK3K2zC0I92ArOIPOOa5/kRseUtNYNupcZfGBTY0O9njpv3d36BB+nCbPV4ZHg=").

(** A secret of 16 bytes. *)
Definition secret16 : text := lit "c533a6e606fb62cc".

(** The text of one character, U+00E9, which UTF-8 encodes in two bytes. *)
Definition e_acute : text := [233%N].

(** The builder and the configuration of the doctests of [MicroPayment]. *)
Definition xmp : xapo_tools.MicroPayment :=
  {| xapo_tools.service_url := lit "http://dev.xapo.com:8089/pay_button/show";
     xapo_tools.app_id := lit "b91014cc28c94841";
     xapo_tools.app_secret := lit "c533a6e606fb62ccb13e8baf8a95cbdc" |}.

Definition mpc_kwargs : xapo_tools.kwargs :=
  {| xapo_tools.kw_sender_user_id := None;
     xapo_tools.kw_sender_user_email := Some (Json.VStr (lit "sender@xapo.com"));
     xapo_tools.kw_sender_user_cellphone := Some (Json.VStr (lit "+5491112341234"));
     xapo_tools.kw_receiver_user_id := Some (Json.VStr (lit "r0210"));
     xapo_tools.kw_receiver_user_email :=
       Some (Json.VStr (lit "fernando.taboada@xapo.com"));
     xapo_tools.kw_pay_object_id := Some (Json.VStr (lit "to0210"));
     xapo_tools.kw_amount_BIT := Some (Json.VFloat (lit "0.01"));
     xapo_tools.kw_timestamp := None;
     xapo_tools.kw_pay_type := Some (Json.VStr (lit "Tip")) |}.

(** Three moments: the import of the module and two later calls, at
    1000, 2000 and 3000 seconds. *)
Definition at_import : Time.World :=
  {| Time.clock := SpecFloat.S754_finite false 8796093022208000 (-43);
     Time.clock_is_reading := eq_refl |}.
Definition at_first_call : Time.World :=
  {| Time.clock := SpecFloat.S754_finite false 8796093022208000 (-42);
     Time.clock_is_reading := eq_refl |}.
Definition at_second_call : Time.World :=
  {| Time.clock := SpecFloat.S754_finite false 6597069766656000 (-41);
     Time.clock_is_reading := eq_refl |}.

(** A reading with a fraction: [7391987682515091 * 2 ** -22] seconds, about
    1762387200.0015. *)
Definition at_a_fraction : Time.World :=
  {| Time.clock := SpecFloat.S754_finite false 7391987682515091 (-22);
     Time.clock_is_reading := eq_refl |}.

Definition mpc : xapo_tools.MicroPaymentConfig :=
  xapo_tools.__init__ (xapo_tools.def___init__ at_import) at_first_call mpc_kwargs.

(** A payment type made of the two surrogate code points U+D83D U+DE00,
    and the one character U+1F600 they stand for in UTF-16. *)
Definition surrogate_pair : text := [55357%N; 56832%N].
Definition one_character : text := [128512%N].

Definition mpc_surrogate_pair : xapo_tools.MicroPaymentConfig :=
  xapo_tools.__init__ (xapo_tools.def___init__ at_import) at_first_call
    {| xapo_tools.kw_sender_user_id := None;
       xapo_tools.kw_sender_user_email := None;
       xapo_tools.kw_sender_user_cellphone := None;
       xapo_tools.kw_receiver_user_id := None;
       xapo_tools.kw_receiver_user_email := None;
       xapo_tools.kw_pay_object_id := None;
       xapo_tools.kw_amount_BIT := None;
       xapo_tools.kw_timestamp := None;
       xapo_tools.kw_pay_type := Some (Json.VStr surrogate_pair) |}.

(** A builder whose service URL has a line break followed by four
    spaces. *)
Definition xmp_two_lines : xapo_tools.MicroPayment :=
  {| xapo_tools.service_url :=
       lit "http://dev.xapo.com:8089" ++ [Str.newline]
       ++ lit "    /pay_button/show";
     xapo_tools.app_id := lit "b91014cc28c94841";
     xapo_tools.app_secret := lit "c533a6e606fb62ccb13e8baf8a95cbdc" |}.

End Doctest.

(** ** Notions used in the further properties *)

(** The characters of a base64 text: those of the alphabet, and [=]. *)
Definition is_base64_char (b : byte) : bool :=
  existsb (N.eqb (b2n b)) Base64.alphabet || Base64.is_pad b.

(** The characters of a form-encoded query string: letters, digits,
    [_ . - ~], the [+] and [%] of the quoting, and the separators [=] and
    [&]. *)
Definition is_query_char (c : N) : bool :=
  (is_quoted_char c || (c =? 61) || (c =? 38))%N.

(** A builder of the doctests with a secret of six characters. *)
Definition xmp_short_secret : xapo_tools.MicroPayment :=
  {| xapo_tools.service_url := lit "http://dev.xapo.com:8089/pay_button/show";
     xapo_tools.app_id := lit "b91014cc28c94841";
     xapo_tools.app_secret := lit "secret" |}.

(** * Properties *)

(** Division and modulo by constants, for [lia]. *)
Ltac Zify.zify_post_hook ::= Z.to_euclidean_division_equations.

(** ** Bytes *)

Lemma b2n_lt (b : byte) : (b2n b < 256)%N.
Proof.
  unfold b2n. pose proof (Byte.to_N_bounded b). lia.
Qed.

Lemma n2b_b2n (b : byte) : n2b (b2n b) = b.
Proof.
  unfold n2b. rewrite N.mod_small by apply b2n_lt.
  unfold b2n. now rewrite Byte.of_to_N.
Qed.

Lemma b2n_n2b (n : N) : (n < 256)%N -> b2n (n2b n) = n.
Proof.
  intros H. unfold n2b, b2n. rewrite N.mod_small by assumption.
  destruct (Byte.of_N n) as [b|] eqn:E.
  - now apply Byte.to_of_N.
  - apply Byte.of_N_None_iff in E. lia.
Qed.

Lemma b2n_inj (a b : byte) : b2n a = b2n b -> a = b.
Proof.
  intros H. rewrite <- (n2b_b2n a), <- (n2b_b2n b). now rewrite H.
Qed.

Lemma all_bytes_complete (b : byte) : In b all_bytes.
Proof.
  apply in_map_iff. exists (N.to_nat (b2n b)). split.
  - rewrite N2Nat.id. apply n2b_b2n.
  - apply in_seq. pose proof (b2n_lt b). lia.
Qed.

Lemma forall_bytes (P : byte -> bool) :
  forallb P all_bytes = true -> forall b, P b = true.
Proof.
  intros H b. rewrite forallb_forall in H. apply H, all_bytes_complete.
Qed.

Lemma forall_bytes2 (P : byte -> byte -> bool) :
  forallb (fun a => forallb (P a) all_bytes) all_bytes = true ->
  forall a b, P a b = true.
Proof.
  intros H a b.
  apply (forall_bytes (P a)). revert a. now apply forall_bytes.
Qed.

Lemma byte_eqb_eq (a b : byte) : Byte.eqb a b = true -> a = b.
Proof. apply Byte.byte_dec_bl. Qed.

(** ** The block cipher is a permutation *)

Module AESFacts.

Import AES.

Lemma lxor_byte (a b : byte) : (N.lxor (b2n a) (b2n b) < 256)%N.
Proof.
  apply N.ltb_lt.
  apply (forall_bytes2 (fun a b => (N.lxor (b2n a) (b2n b) <? 256)%N)).
  vm_compute. reflexivity.
Qed.

Lemma b2n_bxor (a b : byte) : b2n (bxor a b) = N.lxor (b2n a) (b2n b).
Proof. apply b2n_n2b, lxor_byte. Qed.

(** Equations between exclusive-or combinations, decided bit by bit. *)
Ltac bxor_ac :=
  apply b2n_inj; rewrite ?b2n_bxor; apply N.bits_inj;
  let i := fresh "i" in
  intro i; rewrite ?N.lxor_spec;
  repeat match goal with
    | |- context [N.testbit ?x i] => destruct (N.testbit x i)
    end;
  reflexivity.

Lemma bxor_comm (a b : byte) : bxor a b = bxor b a.
Proof. bxor_ac. Qed.

Lemma bxor_assoc (a b c : byte) : bxor a (bxor b c) = bxor (bxor a b) c.
Proof. bxor_ac. Qed.

Lemma bxor_cancel (a b : byte) : bxor (bxor a b) b = a.
Proof. bxor_ac. Qed.

Lemma bxor_0_r (a : byte) : bxor a Byte.x00 = a.
Proof.
  apply b2n_inj. rewrite b2n_bxor. change (b2n Byte.x00) with 0%N.
  apply N.lxor_0_r.
Qed.

Lemma bxor_0_l (a : byte) : bxor Byte.x00 a = a.
Proof. rewrite bxor_comm. apply bxor_0_r. Qed.

Lemma xtime_linear (a b : byte) :
  xtime (bxor a b) = bxor (xtime a) (xtime b).
Proof.
  apply byte_eqb_eq.
  apply (forall_bytes2
           (fun a b => Byte.eqb (xtime (bxor a b)) (bxor (xtime a) (xtime b)))).
  vm_compute. reflexivity.
Qed.

Lemma gmul_pos_linear (p : positive) :
  forall a b, gmul_pos p (bxor a b) = bxor (gmul_pos p a) (gmul_pos p b).
Proof.
  induction p as [p IH | p IH |]; intros a b; simpl.
  - rewrite xtime_linear, IH. bxor_ac.
  - now rewrite xtime_linear, IH.
  - reflexivity.
Qed.

Lemma gmul_linear (c : N) (a b : byte) :
  gmul c (bxor a b) = bxor (gmul c a) (gmul c b).
Proof.
  destruct c as [|p]; simpl.
  - now rewrite bxor_0_l.
  - apply gmul_pos_linear.
Qed.

Lemma xor_word_cancel (s k : word) : xor_word (xor_word s k) k = s.
Proof.
  destruct s as [[[a b] c] d], k as [[[a' b'] c'] d']; simpl.
  now rewrite !bxor_cancel.
Qed.

Lemma add_round_key_involutive (rk s : state) :
  add_round_key rk (add_round_key rk s) = s.
Proof.
  destruct rk as [[[k0 k1] k2] k3], s as [[[s0 s1] s2] s3]; simpl.
  now rewrite !xor_word_cancel.
Qed.

Lemma inv_sbox_sbox (b : byte) : inv_sbox (sbox b) = b.
Proof.
  apply byte_eqb_eq.
  apply (forall_bytes (fun b => Byte.eqb (inv_sbox (sbox b)) b)).
  vm_compute. reflexivity.
Qed.

Lemma inv_sub_bytes_sub_bytes (s : state) : inv_sub_bytes (sub_bytes s) = s.
Proof.
  destruct s as [[[[[[a0 a1] a2] a3] [[[b0 b1] b2] b3]]
                    [[[c0 c1] c2] c3]] [[[d0 d1] d2] d3]].
  unfold inv_sub_bytes, sub_bytes; simpl.
  now rewrite !inv_sbox_sbox.
Qed.

Lemma inv_shift_rows_shift_rows (s : state) :
  inv_shift_rows (shift_rows s) = s.
Proof.
  destruct s as [[[[[[a0 a1] a2] a3] [[[b0 b1] b2] b3]]
                    [[[c0 c1] c2] c3]] [[[d0 d1] d2] d3]].
  reflexivity.
Qed.

Lemma word_eq (a b c d a' b' c' d' : byte) :
  a = a' -> b = b' -> c = c' -> d = d' -> (a, b, c, d) = (a', b', c', d').
Proof. intros; subst; reflexivity. Qed.

Lemma mix_column_linear (v w : word) :
  mix_column (xor_word v w) = xor_word (mix_column v) (mix_column w).
Proof.
  destruct v as [[[a b] c] d], w as [[[a' b'] c'] d'].
  unfold mix_column, xor_word.
  rewrite !gmul_linear.
  apply word_eq; bxor_ac.
Qed.

Lemma inv_mix_column_linear (v w : word) :
  inv_mix_column (xor_word v w)
  = xor_word (inv_mix_column v) (inv_mix_column w).
Proof.
  destruct v as [[[a b] c] d], w as [[[a' b'] c'] d'].
  unfold inv_mix_column, xor_word.
  rewrite !gmul_linear.
  apply word_eq; bxor_ac.
Qed.

Lemma word_eqb_eq (v w : word) : word_eqb v w = true -> v = w.
Proof.
  destruct v as [[[a b] c] d], w as [[[a' b'] c'] d']; simpl.
  rewrite !andb_true_iff. intros [[[H1 H2] H3] H4].
  apply byte_eqb_eq in H1, H2, H3, H4. now subst.
Qed.

(** On a column with a single non-zero byte the two maps cancel: 4 x 256
    cases. *)
Lemma inv_mix_unit (f : byte -> word) :
  forallb (fun a => word_eqb (inv_mix_column (mix_column (f a))) (f a))
    all_bytes = true ->
  forall a, inv_mix_column (mix_column (f a)) = f a.
Proof.
  intros H a. apply word_eqb_eq.
  now apply (forall_bytes
               (fun a => word_eqb (inv_mix_column (mix_column (f a))) (f a))).
Qed.

Lemma inv_mix_column_mix_column (w : word) :
  inv_mix_column (mix_column w) = w.
Proof.
  destruct w as [[[a b] c] d].
  set (z := Byte.x00).
  assert (E : (a, b, c, d)
              = xor_word (a, z, z, z)
                  (xor_word (z, b, z, z)
                     (xor_word (z, z, c, z) (z, z, z, d)))).
  { unfold xor_word, z. now rewrite !bxor_0_l, !bxor_0_r. }
  rewrite E at 1.
  rewrite !mix_column_linear, !inv_mix_column_linear.
  rewrite (inv_mix_unit (fun a => (a, z, z, z))) by (vm_compute; reflexivity).
  rewrite (inv_mix_unit (fun b => (z, b, z, z))) by (vm_compute; reflexivity).
  rewrite (inv_mix_unit (fun c => (z, z, c, z))) by (vm_compute; reflexivity).
  rewrite (inv_mix_unit (fun d => (z, z, z, d))) by (vm_compute; reflexivity).
  now rewrite <- E.
Qed.

Lemma inv_mix_columns_mix_columns (s : state) :
  inv_mix_columns (mix_columns s) = s.
Proof.
  destruct s as [[[c0 c1] c2] c3].
  unfold inv_mix_columns, mix_columns; simpl.
  now rewrite !inv_mix_column_mix_column.
Qed.

Lemma inv_round_round (rk s : state) : inv_round rk (round rk s) = s.
Proof.
  unfold inv_round, round.
  now rewrite add_round_key_involutive, inv_mix_columns_mix_columns,
    inv_shift_rows_shift_rows, inv_sub_bytes_sub_bytes.
Qed.

Lemma inv_final_round_final_round (rk s : state) :
  inv_final_round rk (final_round rk s) = s.
Proof.
  unfold inv_final_round, final_round.
  now rewrite add_round_key_involutive, inv_shift_rows_shift_rows,
    inv_sub_bytes_sub_bytes.
Qed.

Lemma inv_rounds_rounds (rks : list state) :
  forall s, inv_rounds rks (rounds rks s) = s.
Proof.
  induction rks as [|rk rks IH]; intros s.
  - reflexivity.
  - destruct rks as [|rk' rks'].
    + apply inv_final_round_final_round.
    + change (inv_round rk (inv_rounds (rk' :: rks')
                              (rounds (rk' :: rks') (round rk s))) = s).
      rewrite IH. apply inv_round_round.
Qed.

(** Decryption undoes encryption, whatever the round keys. *)
Lemma inv_cipher_cipher (rks : list state) (s : state) :
  inv_cipher rks (cipher rks s) = s.
Proof.
  destruct rks as [|rk0 rks]; simpl.
  - reflexivity.
  - rewrite inv_rounds_rounds. apply add_round_key_involutive.
Qed.

Lemma blocks_unblocks (l : list state) : blocks (unblocks l) = Some l.
Proof.
  induction l as [|s l IH].
  - reflexivity.
  - destruct s as [[[[[[a0 a1] a2] a3] [[[b0 b1] b2] b3]]
                      [[[c0 c1] c2] c3]] [[[d0 d1] d2] d3]].
    unfold unblocks in *. cbn [flat_map bytes_of_state bytes_of_word app].
    cbn [blocks]. now rewrite IH.
Qed.

Lemma unblocks_blocks (bs : bytes) (l : list state) :
  blocks bs = Some l -> unblocks l = bs.
Proof.
  revert l.
  induction bs as [bs IH] using (well_founded_induction
                                   (Wf_nat.well_founded_ltof _ (@List.length byte))).
  intros l H.
  destruct bs as [|a0 [|a1 [|a2 [|a3 [|b0 [|b1 [|b2 [|b3 [|c0 [|c1 [|c2 [|c3
    [|d0 [|d1 [|d2 [|d3 r]]]]]]]]]]]]]]]]; try discriminate.
  - injection H as <-. reflexivity.
  - cbn [blocks] in H.
    destruct (blocks r) as [l'|] eqn:E; [|discriminate].
    injection H as <-.
    unfold unblocks. cbn [flat_map bytes_of_state bytes_of_word app].
    do 16 f_equal. apply IH; [|assumption].
    unfold Wf_nat.ltof. simpl. lia.
Qed.

Lemma blocks_length (bs : bytes) (l : list state) :
  blocks bs = Some l -> List.length bs = (16 * List.length l)%nat.
Proof.
  intros H. apply unblocks_blocks in H. subst bs.
  induction l as [|s l IH]; [reflexivity|].
  destruct s as [[[[[[a0 a1] a2] a3] [[[b0 b1] b2] b3]]
                    [[[c0 c1] c2] c3]] [[[d0 d1] d2] d3]].
  unfold unblocks in *. cbn [flat_map bytes_of_state bytes_of_word app].
  cbn [List.length]. rewrite IH. simpl. lia.
Qed.

(** A byte string whose length is a multiple of 16 splits into blocks. *)
Lemma blocks_total (n : nat) :
  forall bs, List.length bs = (16 * n)%nat -> exists l, blocks bs = Some l.
Proof.
  induction n as [|n IH]; intros bs H.
  - destruct bs; [now exists []|discriminate].
  - destruct bs as [|a0 [|a1 [|a2 [|a3 [|b0 [|b1 [|b2 [|b3 [|c0 [|c1 [|c2 [|c3
      [|d0 [|d1 [|d2 [|d3 r]]]]]]]]]]]]]]]]; simpl in H; try lia.
    destruct (IH r) as [l E]; [lia|].
    eexists. cbn [blocks]. rewrite E. reflexivity.
Qed.

Lemma blocks_not_multiple (bs : bytes) :
  (List.length bs mod 16 <> 0)%nat -> blocks bs = None.
Proof.
  intros H. destruct (blocks bs) as [l|] eqn:E; [|reflexivity].
  apply blocks_length in E. exfalso. apply H. rewrite E.
  rewrite Nat.mul_comm. apply Nat.Div0.mod_mul.
Qed.

(** ECB decryption undoes ECB encryption. *)
Lemma ecb_inverse (rks : list state) (data ct : bytes) :
  ecb (cipher rks) data = Ok ct -> ecb (inv_cipher rks) ct = Ok data.
Proof.
  unfold ecb. destruct (blocks data) as [l|] eqn:E; [|discriminate].
  intros [= <-]. rewrite blocks_unblocks, map_map.
  f_equal. rewrite (map_ext _ (fun s => s)) by apply inv_cipher_cipher.
  rewrite map_id. now apply unblocks_blocks.
Qed.

End AESFacts.

(** ** UTF-8 *)

Module Utf8Facts.

Local Open Scope N_scope.

Ltac decide_tests :=
  repeat match goal with
    | |- context [(?a <? ?b)] => destruct (N.ltb_spec a b); try lia
    | |- context [(?a <=? ?b)] => destruct (N.leb_spec a b); try lia
    | H : context [(?a <? ?b)] |- _ => destruct (N.ltb_spec a b); try lia
    | H : context [(?a <=? ?b)] |- _ => destruct (N.leb_spec a b); try lia
    end.

Lemma some_inj {A} (a b : A) : Some a = Some b -> a = b.
Proof. now intros [= ->]. Qed.

(** Decoding reads back one encoded character. *)
Lemma utf8_decode_char (c : N) (bs rest : bytes) :
  utf8_encode_char c = Some bs ->
  utf8_decode (bs ++ rest) = cons_opt c (utf8_decode rest).
Proof.
  unfold utf8_encode_char, is_surrogate.
  destruct (N.ltb_spec c 0x80).
  { intros E%some_inj; subst bs. cbn [app utf8_decode].
    rewrite b2n_n2b by lia. decide_tests. reflexivity. }
  destruct (N.ltb_spec c 0x800).
  { intros E%some_inj; subst bs. cbn [app utf8_decode]. unfold is_cont.
    rewrite !b2n_n2b by lia. decide_tests. cbn [andb].
    f_equal. lia. }
  destruct (N.ltb_spec c 0x10000).
  { destruct (N.leb_spec 0xD800 c); destruct (N.leb_spec c 0xDFFF);
      cbn [andb]; try discriminate;
      intros E%some_inj; subst bs; cbn [app utf8_decode];
      unfold is_cont, is_surrogate;
      rewrite !b2n_n2b by lia;
      replace ((0xE0 + c / 4096 - 0xE0) * 4096
               + (0x80 + (c / 64) mod 64 - 0x80) * 64
               + (0x80 + c mod 64 - 0x80)) with c by lia;
      decide_tests; reflexivity. }
  destruct (N.ltb_spec c 0x110000); [|discriminate].
  intros E%some_inj; subst bs. cbn [app utf8_decode]. unfold is_cont.
  rewrite !b2n_n2b by lia.
  replace ((0xF0 + c / 262144 - 0xF0) * 262144
           + (0x80 + (c / 4096) mod 64 - 0x80) * 4096
           + (0x80 + (c / 64) mod 64 - 0x80) * 64
           + (0x80 + c mod 64 - 0x80)) with c by lia.
  decide_tests. reflexivity.
Qed.

(** [s.encode('utf-8').decode('utf-8') == s] *)
Lemma utf8_decode_encode (s : text) (bs : bytes) :
  utf8_encode s = Some bs -> utf8_decode bs = Some s.
Proof.
  revert bs. induction s as [|c s IH]; intros bs; cbn [utf8_encode].
  - now intros [= <-].
  - destruct (utf8_encode_char c) as [b|] eqn:Ec; [|discriminate].
    destruct (utf8_encode s) as [r|] eqn:Es; [|discriminate].
    intros [= <-]. rewrite (utf8_decode_char c b r Ec).
    now rewrite (IH r eq_refl).
Qed.

Lemma utf8_encode_app (s t : text) :
  utf8_encode (s ++ t)
  = match utf8_encode s, utf8_encode t with
    | Some a, Some b => Some (a ++ b)
    | _, _ => None
    end.
Proof.
  induction s as [|c s IH]; cbn [app utf8_encode].
  - now destruct (utf8_encode t).
  - rewrite IH. destruct (utf8_encode_char c), (utf8_encode s), (utf8_encode t);
      try reflexivity.
    now rewrite app_assoc.
Qed.

(** ASCII text is encoded one byte per character. *)
Lemma utf8_encode_ascii (s : text) :
  is_ascii s = true -> utf8_encode s = Some (map n2b s).
Proof.
  induction s as [|c s IH]; cbn [is_ascii forallb utf8_encode map].
  - reflexivity.
  - rewrite andb_true_iff. intros [Hc Hs].
    unfold is_ascii in IH. rewrite (IH Hs).
    unfold utf8_encode_char. change (c <? 128) with (c <? 0x80) in Hc.
    now rewrite Hc.
Qed.

(** Scalar values are exactly the code points UTF-8 encodes. *)
Lemma utf8_encode_char_scalar (c : N) :
  is_scalar c = true -> exists bs, utf8_encode_char c = Some bs.
Proof.
  unfold is_scalar, utf8_encode_char. rewrite andb_true_iff, negb_true_iff.
  intros [H1 H2]. rewrite H1, H2.
  destruct (c <? 0x80); [eauto|].
  destruct (c <? 0x800); [eauto|].
  destruct (c <? 0x10000); eauto.
Qed.

Lemma utf8_encode_scalar (s : text) :
  forallb is_scalar s = true -> exists bs, utf8_encode s = Some bs.
Proof.
  induction s as [|c s IH]; cbn [forallb utf8_encode].
  - eauto.
  - rewrite andb_true_iff. intros [Hc Hs].
    destruct (utf8_encode_char_scalar c Hc) as [b ->].
    destruct (IH Hs) as [r ->]. eauto.
Qed.

Lemma utf8_encode_char_length (c : N) (bs : bytes) :
  utf8_encode_char c = Some bs -> (1 <= List.length bs)%nat.
Proof.
  unfold utf8_encode_char.
  destruct (c <? 0x80); [intros [= <-]; simpl; lia|].
  destruct (c <? 0x800); [intros [= <-]; simpl; lia|].
  destruct (c <? 0x10000).
  - destruct (is_surrogate c); [discriminate|intros [= <-]; simpl; lia].
  - destruct (c <? 0x110000); [intros [= <-]; simpl; lia|discriminate].
Qed.

(** An encoding is at least as long as the text. *)
Lemma utf8_encode_length (s : text) (bs : bytes) :
  utf8_encode s = Some bs -> (List.length s <= List.length bs)%nat.
Proof.
  revert bs. induction s as [|c s IH]; intros bs; cbn [utf8_encode].
  - intros [= <-]. simpl. lia.
  - destruct (utf8_encode_char c) as [b|] eqn:Ec; [|discriminate].
    destruct (utf8_encode s) as [r|] eqn:Es; [|discriminate].
    intros [= <-]. rewrite length_app. cbn [List.length].
    pose proof (utf8_encode_char_length c b Ec).
    pose proof (IH r eq_refl). lia.
Qed.

Lemma is_ascii_app (s t : text) :
  is_ascii (s ++ t) = is_ascii s && is_ascii t.
Proof. apply forallb_app. Qed.

Lemma is_ascii_repeat (c : N) (n : nat) :
  c < 128 -> is_ascii (repeat c n) = true.
Proof.
  intros H. induction n as [|n IH]; cbn [repeat is_ascii forallb].
  - reflexivity.
  - apply andb_true_iff. split; [now apply N.ltb_lt|exact IH].
Qed.

End Utf8Facts.

(** ** Base64 *)

Module Base64Facts.

Import Base64.
Local Open Scope N_scope.

Lemma forall_N_below (P : N -> bool) (k : nat) :
  forallb P (map N.of_nat (seq 0 k)) = true ->
  forall n, n < N.of_nat k -> P n = true.
Proof.
  intros H n Hn. rewrite forallb_forall in H. apply H.
  apply in_map_iff. exists (N.to_nat n). split.
  - apply N2Nat.id.
  - apply in_seq. lia.
Qed.

Lemma dec6_enc6 (n : N) : n < 64 -> dec6 (enc6 n) = Some n.
Proof.
  intros H.
  assert (E : (match dec6 (enc6 n) with Some m => m =? n | None => false end)
              = true).
  { apply (forall_N_below
             (fun n => match dec6 (enc6 n) with
                       | Some m => m =? n
                       | None => false
                       end) 64); [vm_compute; reflexivity | exact H]. }
  destruct (dec6 (enc6 n)) as [m|]; [|discriminate].
  apply N.eqb_eq in E. now subst.
Qed.

Lemma enc6_not_pad (n : N) : n < 64 -> is_pad (enc6 n) = false.
Proof.
  intros H. apply negb_true_iff.
  apply (forall_N_below (fun n => negb (is_pad (enc6 n))) 64);
    [vm_compute; reflexivity | exact H].
Qed.

Lemma is_pad_pad : is_pad pad = true.
Proof. reflexivity. Qed.

(** [b64decode(b64encode(s)) == s] *)
Lemma b64decode_b64encode (bs : bytes) : b64decode (b64encode bs) = Some bs.
Proof.
  induction bs as [bs IH] using (well_founded_induction
                                   (Wf_nat.well_founded_ltof _ (@List.length byte))).
  destruct bs as [|a [|b [|c r]]].
  - reflexivity.
  - pose proof (b2n_lt a).
    cbn [b64encode b64decode]. rewrite is_pad_pad.
    rewrite !dec6_enc6 by lia.
    replace (b2n a / 4 * 4 + b2n a mod 4 * 16 / 16) with (b2n a) by lia.
    now rewrite n2b_b2n.
  - pose proof (b2n_lt a). pose proof (b2n_lt b).
    cbn [b64encode b64decode]. rewrite is_pad_pad.
    rewrite enc6_not_pad by lia.
    rewrite !dec6_enc6 by lia.
    set (n := b2n a * 256 + b2n b).
    replace (n / 1024 * 4 + n / 16 mod 64 / 16) with (b2n a) by (unfold n; lia).
    replace (n / 16 mod 64 mod 16 * 16 + n mod 16 * 4 / 4) with (b2n b)
      by (unfold n; lia).
    now rewrite !n2b_b2n.
  - pose proof (b2n_lt a). pose proof (b2n_lt b). pose proof (b2n_lt c).
    cbn [b64encode b64decode].
    set (n := b2n a * 65536 + b2n b * 256 + b2n c).
    rewrite enc6_not_pad by lia.
    rewrite !dec6_enc6 by lia.
    rewrite IH by (unfold Wf_nat.ltof; simpl; lia).
    replace (n / 262144 * 4 + n / 4096 mod 64 / 16) with (b2n a)
      by (unfold n; lia).
    replace (n / 4096 mod 64 mod 16 * 16 + n / 64 mod 64 / 4) with (b2n b)
      by (unfold n; lia).
    replace (n / 64 mod 64 mod 4 * 64 + n mod 64) with (b2n c)
      by (unfold n; lia).
    now rewrite !n2b_b2n.
Qed.

Lemma b64encode_nonempty (bs : bytes) : bs <> [] -> b64encode bs <> [].
Proof.
  destruct bs as [|a [|b [|c r]]]; [congruence| | |]; discriminate.
Qed.

End Base64Facts.

(** ** The padding *)

Module PaddingFacts.

Import Utf8Facts.

Lemma pad_length_range (n : nat) : 1 <= pad_length n <= 16.
Proof.
  unfold pad_length. pose proof (Nat.mod_upper_bound n 16 ltac:(lia)). lia.
Qed.

Lemma pad_length_multiple (n : nat) : (n + pad_length n) mod 16 = 0.
Proof.
  unfold pad_length. pose proof (Nat.mod_upper_bound n 16 ltac:(lia)).
  rewrite (Nat.div_mod_eq n 16) at 1.
  replace (16 * (n / 16) + n mod 16 + (16 - n mod 16))
    with ((1 + n / 16) * 16) by lia.
  apply Nat.Div0.mod_mul.
Qed.

Lemma bytearray_repeat (z : Z) (n : nat) :
  (0 <= z < 256)%Z -> bytearray (repeat z n) = Ok (repeat (n2b (Z.to_N z)) n).
Proof.
  intros H. induction n as [|n IH]; cbn [repeat bytearray].
  - reflexivity.
  - destruct (Z.leb_spec 0 z); [|lia]. destruct (Z.ltb_spec z 256); [|lia].
    cbn [andb]. now rewrite IH.
Qed.

Lemma utf8_decode_repeat (c : N) (n : nat) :
  (c < 128)%N -> utf8_decode (repeat (n2b c) n) = Some (repeat c n).
Proof.
  intros H. induction n as [|n IH]; cbn [repeat utf8_decode].
  - reflexivity.
  - rewrite b2n_n2b by lia.
    destruct (N.ltb_spec c 0x80); [|lia]. now rewrite IH.
Qed.

Lemma val_pad_length (bytestring : text) :
  (16 - len bytestring mod 16)%Z = Z.of_nat (pad_length (List.length bytestring)).
Proof.
  unfold len, pad_length.
  pose proof (Nat.mod_upper_bound (List.length bytestring) 16 ltac:(lia)).
  rewrite Nat2Z.inj_sub by lia. now rewrite Nat2Z.inj_mod.
Qed.

(** The counts for which [[x] * n] is built. *)
Lemma list_mul_ok {A} (x : A) (n : Z) :
  (- 2 ^ 63 <= n < 2 ^ 60)%Z -> list_mul x n = Ok (repeat x (Z.to_nat n)).
Proof.
  intros H. unfold list_mul.
  destruct (Z.ltb_spec n (- 2 ^ 63)); [lia|].
  destruct (Z.leb_spec (2 ^ 63) n); [lia|].
  destruct (Z.leb_spec (2 ^ 60) n); [lia|]. reflexivity.
Qed.

(** The result of the padding, in closed form. *)
Lemma _pkcs7_padding_16 (bytestring : text) :
  let p := pad_length (List.length bytestring) in
  xapo_utils._pkcs7_padding bytestring 16
  = Ok (bytestring ++ repeat (N.of_nat p) p).
Proof.
  intros p. unfold xapo_utils._pkcs7_padding.
  change (16 =? 0)%Z with false. cbv iota.
  rewrite val_pad_length. fold p.
  pose proof (pad_length_range (List.length bytestring)). fold p in H.
  rewrite list_mul_ok by lia. cbn [bind]. rewrite Nat2Z.id.
  rewrite bytearray_repeat by lia. cbn [bind].
  replace (Z.to_N (Z.of_nat p)) with (N.of_nat p) by lia.
  rewrite utf8_decode_repeat by lia. reflexivity.
Qed.

End PaddingFacts.

(** ** [encrypt] *)

Module CodecFacts.

Import Utf8Facts PaddingFacts AESFacts Base64Facts.

Lemma valid_key_length_iff (n : nat) :
  valid_key_length n = true <-> In n AES.key_size.
Proof.
  unfold valid_key_length. rewrite existsb_exists. split.
  - intros [x [Hx E]]. apply Nat.eqb_eq in E. now subst.
  - intros H. exists n. split; [assumption|apply Nat.eqb_refl].
Qed.

Lemma new_ok (secret : text) (key : bytes) :
  utf8_encode secret = Some key ->
  valid_key_length (List.length key) = true ->
  AES.new secret = Ok {| AES.round_keys := AES.key_expansion key |}.
Proof.
  intros E V. unfold AES.new, AES.arg_bytes. rewrite E. cbn [of_option bind].
  unfold valid_key_length in V. now rewrite V.
Qed.

Lemma new_key_error (secret : text) :
  AES.new secret = Raise ValueError_key_length <->
  exists key, utf8_encode secret = Some key
              /\ valid_key_length (List.length key) = false.
Proof.
  unfold AES.new, AES.arg_bytes, valid_key_length.
  destruct (utf8_encode secret) as [key|]; cbn [of_option bind].
  - destruct (existsb (Nat.eqb (List.length key)) AES.key_size) eqn:E.
    + split; [discriminate|]. intros [k [[= <-] H]]. congruence.
    + split; [|reflexivity]. intros _. now exists key.
  - split; [discriminate|]. intros [k [H _]]. discriminate.
Qed.

Lemma encrypt_with_cipher (payload secret : text) (c : AES.cipher_obj) :
  AES.new secret = Ok c ->
  xapo_utils.encrypt payload secret
  = (ct <- AES.encrypt c (padded payload) ;; Ok (Base64.b64encode ct)).
Proof.
  intros E. unfold xapo_utils.encrypt. rewrite E. cbn [bind].
  now rewrite _pkcs7_padding_16.
Qed.

Lemma encrypt_without_cipher (payload secret : text) (e : PyError) :
  AES.new secret = Raise e -> xapo_utils.encrypt payload secret = Raise e.
Proof. intros E. unfold xapo_utils.encrypt. now rewrite E. Qed.

Lemma utf8_encode_padded (payload : text) :
  utf8_encode (padded payload)
  = match utf8_encode payload with
    | Some bs =>
        let p := pad_length (List.length payload) in
        Some (bs ++ repeat (n2b (N.of_nat p)) p)
    | None => None
    end.
Proof.
  unfold padded. rewrite utf8_encode_app.
  pose proof (pad_length_range (List.length payload)).
  rewrite (utf8_encode_ascii (repeat _ _))
    by (apply is_ascii_repeat; lia).
  now rewrite map_repeat.
Qed.

Lemma length_padded (payload : text) :
  List.length (padded payload)
  = List.length payload + pad_length (List.length payload).
Proof. unfold padded. now rewrite length_app, repeat_length. Qed.

Lemma pkcs7_strip_padded (bs : bytes) (p : nat) :
  1 <= p <= 16 ->
  Provider.pkcs7_strip (bs ++ repeat (n2b (N.of_nat p)) p) = Some bs.
Proof.
  intros H. unfold Provider.pkcs7_strip.
  rewrite rev_app_distr, rev_repeat.
  destruct p as [|p]; [lia|]. cbn [repeat app].
  rewrite b2n_n2b by lia. rewrite Nat2N.id.
  rewrite length_app. cbn [List.length]. rewrite repeat_length.
  destruct (Nat.leb_spec (S p) (List.length bs + S p)); [|lia].
  replace (List.length bs + S p - S p) with (List.length bs + 0) by lia.
  rewrite firstn_app_2. cbn [firstn]. now rewrite app_nil_r.
Qed.

(** Whatever [encrypt] returns decrypts to the payload. *)
Lemma encrypt_decrypt (payload secret : text) (out : bytes) :
  xapo_utils.encrypt payload secret = Ok out ->
  Provider.decrypt_text out secret = Some payload.
Proof.
  intros E.
  destruct (AES.new secret) as [c|e] eqn:Ec;
    [|rewrite (encrypt_without_cipher _ _ _ Ec) in E; discriminate].
  rewrite (encrypt_with_cipher _ _ _ Ec) in E.
  unfold AES.encrypt, AES.arg_bytes in E. rewrite utf8_encode_padded in E.
  destruct (utf8_encode payload) as [bs|] eqn:Eu; [|discriminate].
  cbn [of_option bind] in E.
  destruct (AES.ecb (AES.cipher (AES.round_keys c)) _) as [ct|] eqn:Ect;
    [|discriminate].
  cbn [bind] in E. injection E as <-.
  unfold Provider.decrypt_text, Provider.decrypt.
  rewrite b64decode_b64encode, Ec. unfold AES.decrypt.
  rewrite (ecb_inverse _ _ _ Ect).
  rewrite pkcs7_strip_padded by apply pad_length_range.
  now apply utf8_decode_encode.
Qed.

(** The cipher accepts a padded payload exactly when the bytes that the
    encoding adds to the characters are a multiple of 16. *)
Lemma encrypt_block_check (payload secret : text) (c : AES.cipher_obj)
  (bs : bytes) :
  AES.new secret = Ok c ->
  utf8_encode payload = Some bs ->
  if ((List.length bs + pad_length (List.length payload)) mod 16 =? 0)%nat
  then exists ct, AES.encrypt c (padded payload) = Ok ct
                  /\ xapo_utils.encrypt payload secret = Ok (Base64.b64encode ct)
  else xapo_utils.encrypt payload secret = Raise ValueError_block_length.
Proof.
  intros Ec Eu. rewrite (encrypt_with_cipher _ _ _ Ec).
  unfold AES.encrypt, AES.arg_bytes. rewrite utf8_encode_padded, Eu.
  cbn [of_option bind]. unfold AES.ecb.
  set (p := pad_length (List.length payload)).
  set (data := bs ++ repeat (n2b (N.of_nat p)) p).
  assert (L : List.length data = List.length bs + p)
    by (unfold data; now rewrite length_app, repeat_length).
  destruct (Nat.eqb_spec ((List.length bs + p) mod 16) 0) as [M|M].
  - apply Nat.Div0.mod_divides in M. destruct M as [k M].
    destruct (blocks_total k data) as [l El]; [lia|].
    rewrite El. cbn [bind]. eauto.
  - rewrite blocks_not_multiple by (rewrite L; exact M). reflexivity.
Qed.

Lemma encrypt_ascii (payload secret : text) (key : bytes) :
  is_ascii payload = true ->
  utf8_encode secret = Some key ->
  valid_key_length (List.length key) = true ->
  exists out, xapo_utils.encrypt payload secret = Ok out.
Proof.
  intros Ha Ek Vk.
  pose proof (encrypt_block_check payload secret _ _ (new_ok _ _ Ek Vk)
                (utf8_encode_ascii _ Ha)) as H.
  rewrite length_map, pad_length_multiple in H. cbn [Nat.eqb] in H.
  destruct H as [ct [_ H]]. eauto.
Qed.

End CodecFacts.

(** ** JSON: decoding reads back what [dumps] writes *)

Module JsonFacts.

Import Json Utf8Facts.
Local Open Scope N_scope.

Lemma unhexdigit_hexdigit (d : N) : d < 16 -> unhexdigit (hexdigit d) = Some d.
Proof.
  intros H. unfold hexdigit, unhexdigit.
  destruct (N.ltb_spec d 10).
  - destruct (N.leb_spec 48 (48 + d)); [|lia].
    destruct (N.leb_spec (48 + d) 57); [|lia].
    cbn [andb]. f_equal. lia.
  - destruct (N.leb_spec 48 (87 + d)); [|lia].
    destruct (N.leb_spec (87 + d) 57); [lia|].
    destruct (N.leb_spec 97 (87 + d)); [|lia].
    destruct (N.leb_spec (87 + d) 102); [|lia].
    cbn [andb]. f_equal. lia.
Qed.

Lemma unhex4_hex4 (n : N) :
  n < 65536 ->
  unhex4 (hexdigit (n / 4096)) (hexdigit (n / 256 mod 16))
    (hexdigit (n / 16 mod 16)) (hexdigit (n mod 16)) = Some n.
Proof.
  intros H. unfold unhex4.
  rewrite !unhexdigit_hexdigit by lia. f_equal. lia.
Qed.

(** The decoder reads back one escaped character. *)
Lemma scanstring_escape_char (c : N) (t : text) :
  is_scalar c = true ->
  scanstring (escape_char c ++ t) = push c (scanstring t).
Proof.
  unfold is_scalar, is_surrogate. rewrite andb_true_iff, negb_true_iff.
  intros [Hmax Hsur]. apply N.ltb_lt in Hmax.
  unfold escape_char, backslash, quote.
  destruct (N.eqb_spec c 92) as [->|H92]; [reflexivity|].
  destruct (N.eqb_spec c 34) as [->|H34]; [reflexivity|].
  destruct (N.eqb_spec c 8) as [->|H8]; [reflexivity|].
  destruct (N.eqb_spec c 12) as [->|H12]; [reflexivity|].
  destruct (N.eqb_spec c 10) as [->|H10]; [reflexivity|].
  destruct (N.eqb_spec c 13) as [->|H13]; [reflexivity|].
  destruct (N.eqb_spec c 9) as [->|H9]; [reflexivity|].
  destruct (N.leb_spec 32 c) as [H32|H32];
    [destruct (N.leb_spec c 126) as [H126|H126]|]; cbn [andb].
  - (* printable ASCII *)
    cbn [app scanstring]. unfold backslash, quote.
    destruct (N.eqb_spec c 34); [contradiction|].
    destruct (N.eqb_spec c 92); [contradiction|].
    destruct (N.ltb_spec c 32); [lia|]. reflexivity.
  - (* above the ASCII range *)
    destruct (N.ltb_spec c 0x10000) as [H16|H16].
    + unfold hex4. cbn [app scanstring N.eqb Pos.eqb backslash quote].
      rewrite unhex4_hex4 by assumption.
      unfold is_high.
      destruct (N.leb_spec 0xd800 c); destruct (N.leb_spec c 0xdbff);
        cbn [andb]; try reflexivity.
      exfalso. revert Hsur.
      destruct (N.leb_spec 0xD800 c); destruct (N.leb_spec c 0xDFFF);
        cbn [andb]; try discriminate; lia.
    + set (n := c - 0x10000).
      assert (Hn : n < 0x100000) by (unfold n; lia).
      unfold hex4.
      cbn [app scanstring N.eqb Pos.eqb backslash quote andb].
      rewrite unhex4_hex4 by lia.
      unfold is_high.
      destruct (N.leb_spec 0xd800 (0xd800 + n / 1024 mod 1024)); [|lia].
      destruct (N.leb_spec (0xd800 + n / 1024 mod 1024) 0xdbff); [|lia].
      cbn [andb]. rewrite unhex4_hex4 by lia.
      unfold is_low.
      destruct (N.leb_spec 0xdc00 (0xdc00 + n mod 1024)); [|lia].
      destruct (N.leb_spec (0xdc00 + n mod 1024) 0xdfff); [|lia].
      cbn [andb].
      replace (0x10000 + (0xd800 + n / 1024 mod 1024 - 0xd800) * 1024
               + (0xdc00 + n mod 1024 - 0xdc00)) with c by (unfold n; lia).
      reflexivity.
  - (* a control character without a short escape *)
    destruct (N.ltb_spec c 0x10000) as [H16|H16]; [|lia].
    unfold hex4. cbn [app scanstring N.eqb Pos.eqb backslash quote].
    rewrite unhex4_hex4 by assumption.
    unfold is_high.
    destruct (N.leb_spec 0xd800 c); [lia|]. reflexivity.
Qed.

(** A string body is read back up to its closing quote. *)
Lemma scanstring_escape (s rest : text) :
  forallb is_scalar s = true ->
  scanstring (flat_map escape_char s ++ quote :: rest) = Some (s, rest).
Proof.
  induction s as [|c s IH]; cbn [forallb flat_map].
  - intros _. reflexivity.
  - rewrite andb_true_iff. intros [Hc Hs].
    rewrite <- app_assoc, scanstring_escape_char by assumption.
    now rewrite IH.
Qed.

Lemma parse_value_string (s rest : text) :
  forallb is_scalar s = true ->
  parse_value (encode_string s ++ rest) = Some (VStr s, rest).
Proof.
  intros H. unfold encode_string. cbn [app parse_value].
  unfold quote at 1. cbn [N.eqb Pos.eqb].
  rewrite <- app_assoc. cbn [app].
  now rewrite scanstring_escape.
Qed.

Lemma text_eqb_eq (a b : text) : text_eqb a b = true <-> a = b.
Proof.
  revert b. induction a as [|x a IH]; intros [|y b]; cbn [text_eqb];
    try (split; [discriminate|congruence]); [tauto|].
  rewrite andb_true_iff, N.eqb_eq, IH. split.
  - intros [-> ->]. reflexivity.
  - intros [= -> ->]. tauto.
Qed.

Lemma text_to_string_lit (s : string) : text_to_string (lit s) = s.
Proof.
  unfold text_to_string, lit. rewrite map_map.
  rewrite (map_ext _ (fun a => a)) by apply ascii_N_embedding.
  rewrite map_id. apply string_of_list_ascii_of_string.
Qed.

Lemma span_number_app (n rest : text) :
  forallb is_number_char n = true -> ends_number rest ->
  span_number (n ++ rest) = (n, rest).
Proof.
  intros Hn Hr. induction n as [|c n IH]; cbn [app].
  - destruct rest as [|c rest]; [reflexivity|].
    cbn [span_number]. cbn in Hr. now rewrite Hr.
  - cbn [forallb] in Hn. apply andb_true_iff in Hn. destruct Hn as [Hc Hn].
    cbn [span_number]. rewrite Hc, (IH Hn). reflexivity.
Qed.

(** A number token is read whole. *)
Lemma parse_value_number (n rest : text) :
  forallb is_number_char n = true ->
  n <> [] ->
  (forall n', n = 45 :: n' -> n' <> []) ->
  ends_number rest ->
  parse_value (n ++ rest)
  = if is_float_token n then Some (VFloat n, rest)
    else option_map (fun z => (VInt z, rest)) (parse_int n).
Proof.
  intros Hn Hne Hminus Hr.
  pose proof (span_number_app n rest Hn Hr) as Hs.
  destruct n as [|c n]; [contradiction|]. cbn [app] in *.
  cbn [forallb] in Hn. apply andb_true_iff in Hn. destruct Hn as [Hc Hn].
  unfold parse_value.
  assert (D : (c =? quote) = false /\ (c =? 110) = false /\ (c =? 116) = false
              /\ (c =? 102) = false /\ (c =? 78) = false /\ (c =? 73) = false).
  { unfold is_number_char in Hc. unfold quote.
    repeat split; apply N.eqb_neq; intros ->; discriminate. }
  destruct D as [-> [-> [-> [-> [-> ->]]]]].
  assert (M : (c =? 45)
              && match n ++ rest with i :: _ => i =? 73 | [] => false end
              = false).
  { destruct (N.eqb_spec c 45) as [->|]; [|reflexivity]. cbn [andb].
    destruct n as [|i n]; [now specialize (Hminus [] eq_refl)|].
    cbn [app]. cbn [forallb] in Hn. apply andb_true_iff in Hn.
    destruct Hn as [Hi _]. apply N.eqb_neq. intros ->. discriminate. }
  rewrite M, Hs. reflexivity.
Qed.

Lemma is_int_char_number (s : text) :
  forallb is_int_char s = true ->
  forallb is_number_char s = true /\ is_float_token s = false.
Proof.
  induction s as [|c s IH]; cbn [forallb is_float_token existsb]; [tauto|].
  rewrite andb_true_iff. intros [Hc Hs]. destruct (IH Hs) as [-> H2].
  unfold is_float_token in H2. rewrite H2.
  unfold is_int_char in Hc. unfold is_number_char.
  destruct ((48 <=? c) && (c <=? 57)) eqn:Hd.
  - apply andb_true_iff in Hd. destruct Hd as [H1%N.leb_le H3%N.leb_le].
    split; [reflexivity|].
    destruct (N.eqb_spec c 46); [lia|]. destruct (N.eqb_spec c 101); [lia|].
    destruct (N.eqb_spec c 69); [lia|]. reflexivity.
  - cbn [orb] in Hc. apply N.eqb_eq in Hc. subst c. split; reflexivity.
Qed.

Lemma uint_digits (d : Decimal.uint) :
  forallb is_int_char (lit (DecimalString.NilEmpty.string_of_uint d)) = true.
Proof. induction d; cbn; try assumption; reflexivity. Qed.

Lemma repr_int_chars (z : Z) : forallb is_int_char (repr_int z) = true.
Proof.
  unfold repr_int.
  assert (U : forall d, forallb is_int_char
                          (lit (DecimalString.NilZero.string_of_uint d)) = true).
  { intros d. destruct d; try apply uint_digits. reflexivity. }
  destruct (Z.to_int z) as [d|d]; cbn [DecimalString.NilZero.string_of_int].
  - apply U.
  - change (lit (String "-" (DecimalString.NilZero.string_of_uint d)))
      with (45 :: lit (DecimalString.NilZero.string_of_uint d)).
    cbn [forallb]. now rewrite U.
Qed.

Lemma to_int_proper (z : Z) :
  Z.to_int z <> Decimal.Pos Decimal.Nil /\ Z.to_int z <> Decimal.Neg Decimal.Nil.
Proof.
  destruct z as [|p|p]; cbn [Z.to_int]; split; try discriminate;
    intros [= H]; now apply DecimalPos.Unsigned.to_uint_nonnil in H.
Qed.

Lemma parse_int_repr_int (z : Z) : parse_int (repr_int z) = Some z.
Proof.
  unfold parse_int, repr_int. rewrite text_to_string_lit.
  destruct (to_int_proper z) as [H1 H2].
  rewrite DecimalString.NilZero.isi by assumption.
  cbn [option_map]. now rewrite DecimalZ.of_to.
Qed.

Lemma repr_int_shape (z : Z) :
  repr_int z <> [] /\ (forall n', repr_int z = 45 :: n' -> n' <> []).
Proof.
  unfold repr_int. destruct z as [|p|p]; cbn [Z.to_int].
  - split; [discriminate|]. intros n'. discriminate.
  - cbn [DecimalString.NilZero.string_of_int].
    pose proof (DecimalPos.Unsigned.to_uint_nonnil p) as Hp.
    pose proof (uint_digits (Pos.to_uint p)) as Hd.
    destruct (Pos.to_uint p); try contradiction; (split; [discriminate|]);
      intros n'; discriminate.
  - cbn [DecimalString.NilZero.string_of_int].
    pose proof (DecimalPos.Unsigned.to_uint_nonnil p) as Hp.
    change (lit (String "-" (DecimalString.NilZero.string_of_uint (Pos.to_uint p))))
      with (45 :: lit (DecimalString.NilZero.string_of_uint (Pos.to_uint p))).
    split; [discriminate|]. intros n' [= <-].
    destruct (Pos.to_uint p); try contradiction; discriminate.
Qed.

(** Every value that [dumps] accepts is read back. *)
Lemma parse_value_encode_value (v : pyval) (rest : text) :
  value_ok v = true -> ends_number rest ->
  parse_value (encode_value v ++ rest) = Some (v, rest).
Proof.
  intros Hv Hr. destruct v as [|[|]|z|r|s]; cbn [encode_value].
  - reflexivity.
  - reflexivity.
  - reflexivity.
  - destruct (is_int_char_number _ (repr_int_chars z)) as [H1 H2].
    destruct (repr_int_shape z) as [H3 H4].
    rewrite parse_value_number by assumption.
    rewrite H2, parse_int_repr_int. reflexivity.
  - cbn [value_ok] in Hv. unfold is_float_repr in Hv.
    rewrite !orb_true_iff, !text_eqb_eq, andb_true_iff in Hv.
    destruct Hv as [[[-> | ->] | ->] | [H1 H2]]; try reflexivity.
    rewrite parse_value_number; try assumption.
    + now rewrite H2.
    + intros ->. discriminate.
    + intros n' ->. intros ->. discriminate.
  - now apply parse_value_string.
Qed.

Lemma skip_ws_encode_value (v : pyval) (t : text) :
  value_ok v = true -> skip_ws (encode_value v ++ t) = encode_value v ++ t.
Proof.
  intros Hv. destruct v as [|[|]|z|r|s]; cbn [encode_value]; try reflexivity.
  - destruct (repr_int_shape z) as [H _].
    pose proof (repr_int_chars z) as Hc.
    destruct (repr_int z) as [|c n]; [contradiction|].
    cbn [forallb] in Hc. apply andb_true_iff in Hc. destruct Hc as [Hc _].
    cbn [app skip_ws]. unfold is_int_char in Hc.
    destruct (N.eqb_spec c 32) as [->|]; [discriminate|].
    destruct (N.eqb_spec c 9) as [->|]; [discriminate|].
    destruct (N.eqb_spec c 10) as [->|]; [discriminate|].
    destruct (N.eqb_spec c 13) as [->|]; [discriminate|]. reflexivity.
  - cbn [value_ok] in Hv. unfold is_float_repr in Hv.
    rewrite !orb_true_iff, !text_eqb_eq, andb_true_iff in Hv.
    destruct Hv as [[[-> | ->] | ->] | [H1 H2]]; try reflexivity.
    destruct r as [|c n]; [discriminate|].
    cbn [forallb] in H1. apply andb_true_iff in H1. destruct H1 as [Hc _].
    cbn [app skip_ws]. unfold is_number_char in Hc.
    destruct (N.eqb_spec c 32) as [->|]; [discriminate|].
    destruct (N.eqb_spec c 9) as [->|]; [discriminate|].
    destruct (N.eqb_spec c 10) as [->|]; [discriminate|].
    destruct (N.eqb_spec c 13) as [->|]; [discriminate|]. reflexivity.
Qed.

Lemma parse_members_space (fuel : nat) (s : text) :
  parse_members fuel (32 :: s) = parse_members fuel s.
Proof. destruct fuel; reflexivity. Qed.

(** One member, followed by [tail], which starts with a comma or a closing
    brace. *)
Lemma parse_member (k : text) (v : pyval) (tail : text) :
  forallb is_scalar k = true -> value_ok v = true -> ends_number tail ->
  exists r,
    scanstring (flat_map escape_char k ++ quote :: lit ": " ++ encode_value v ++ tail)
    = Some (k, r)
    /\ skip_ws r = 58 :: 32 :: encode_value v ++ tail
    /\ parse_value (skip_ws (32 :: encode_value v ++ tail)) = Some (v, tail).
Proof.
  intros Hk Hv Ht. eexists. split; [now apply scanstring_escape|]. split.
  - reflexivity.
  - cbn [skip_ws N.eqb Pos.eqb orb].
    rewrite skip_ws_encode_value by assumption.
    now apply parse_value_encode_value.
Qed.

(** One step of the member loop. *)
Lemma parse_members_step (fuel : nat) (k : text) (v : pyval) (tail : text) :
  forallb is_scalar k = true -> value_ok v = true -> ends_number tail ->
  parse_members (S fuel) (encode_item (k, v) ++ tail)
  = match skip_ws tail with
    | [] => None
    | d :: r4 =>
        if d =? 44 then
          match parse_members fuel r4 with
          | Some (m, r5) => Some ((k, v) :: m, r5)
          | None => None
          end
        else if d =? 125 then Some ([(k, v)], r4)
        else None
    end.
Proof.
  intros Hk Hv Ht.
  destruct (parse_member k v tail Hk Hv Ht) as [r [H1 [H2 H3]]].
  assert (E : encode_item (k, v) ++ tail
              = 34 :: (flat_map escape_char k
                       ++ 34 :: lit ": " ++ encode_value v ++ tail)).
  { unfold encode_item, encode_string, quote. cbn [fst snd].
    rewrite <- !app_assoc. cbn [app]. now rewrite <- !app_assoc. }
  rewrite E. unfold quote in H1.
  cbn [parse_members skip_ws N.eqb Pos.eqb orb].
  unfold quote at 1. cbn [N.eqb Pos.eqb].
  rewrite H1, H2. cbn [N.eqb Pos.eqb].
  rewrite H3. reflexivity.
Qed.

Lemma parse_members_dumps (d : dict) :
  forall (fuel : nat) (rest : text),
    d <> [] -> dict_ok d = true -> (List.length d <= fuel)%nat ->
    parse_members fuel (join (lit ", ") (map encode_item d) ++ lit "}" ++ rest)
    = Some (d, rest).
Proof.
  induction d as [|[k v] d IH]; intros fuel rest Hne Hok Hfuel;
    [contradiction|].
  cbn [dict_ok forallb fst snd] in Hok.
  apply andb_true_iff in Hok. destruct Hok as [Hkv Hd].
  apply andb_true_iff in Hkv. destruct Hkv as [Hk Hv].
  destruct fuel as [|fuel]; [cbn in Hfuel; lia|].
  cbn [List.length] in Hfuel.
  destruct d as [|kv' d'].
  - (* the last member *)
    cbn [map join].
    rewrite parse_members_step by (assumption || reflexivity).
    reflexivity.
  - (* a member followed by others *)
    set (others := kv' :: d') in *.
    change (join (lit ", ") (map encode_item ((k, v) :: others)))
      with (encode_item (k, v) ++ lit ", "
            ++ join (lit ", ") (map encode_item others)).
    rewrite <- !app_assoc.
    rewrite parse_members_step by (assumption || reflexivity).
    change (lit ", " ++ join (lit ", ") (map encode_item others)
            ++ lit "}" ++ rest)
      with (44 :: 32 :: join (lit ", ") (map encode_item others)
            ++ lit "}" ++ rest).
    cbn [skip_ws N.eqb Pos.eqb orb].
    rewrite parse_members_space.
    rewrite (IH fuel rest); [reflexivity|discriminate|exact Hd|lia].
Qed.

Lemma length_join_items (d : dict) :
  (List.length d <= List.length (join (lit ", ") (map encode_item d)))%nat.
Proof.
  induction d as [|kv d IH]; [cbn; lia|].
  destruct d as [|kv' d'].
  - cbn [map join]. unfold encode_item, encode_string.
    cbn [app List.length]. lia.
  - set (others := kv' :: d') in *.
    change (join (lit ", ") (map encode_item (kv :: others)))
      with (encode_item kv ++ lit ", "
            ++ join (lit ", ") (map encode_item others)).
    assert (1 <= List.length (encode_item kv))%nat
      by (unfold encode_item, encode_string; cbn [app List.length]; lia).
    rewrite !length_app. cbn [List.length]. lia.
Qed.

(** [json.loads(json.dumps(d)) == d] *)
Theorem loads_dumps (d : dict) : dict_ok d = true -> loads (dumps d) = Some d.
Proof.
  intros Hok. unfold dumps, loads.
  destruct d as [|kv d'].
  - reflexivity.
  - set (d := kv :: d') in *.
    change (lit "{" ++ join (lit ", ") (map encode_item d) ++ lit "}")
      with (123 :: join (lit ", ") (map encode_item d) ++ lit "}").
    cbn [skip_ws N.eqb Pos.eqb orb].
    assert (Q : exists t, join (lit ", ") (map encode_item d) ++ lit "}"
                          = quote :: t).
    { unfold d. destruct d'; cbn [map join]; unfold encode_item, encode_string;
        cbn [app]; eauto. }
    destruct Q as [t Q].
    pose proof (parse_members_dumps d
                  (S (List.length (join (lit ", ") (map encode_item d) ++ lit "}")))
                  [] ltac:(discriminate) Hok) as P.
    rewrite app_nil_r in P.
    rewrite P.
    + rewrite Q. cbn [skip_ws quote N.eqb Pos.eqb orb]. reflexivity.
    + rewrite length_app. pose proof (length_join_items d). lia.
Qed.

End JsonFacts.

(** ** Form encoding: [parse_qsl] reads back what [urlencode] writes *)

Module UrllibFacts.

Import Urllib Utf8Facts.
Local Open Scope N_scope.

Lemma flat_map_map {A B C} (f : A -> list B) (g : B -> C) (l : list A) :
  map g (flat_map f l) = flat_map (fun x => map g (f x)) l.
Proof.
  induction l as [|x l IH]; cbn [flat_map map]; [reflexivity|].
  now rewrite map_app, IH.
Qed.

Lemma percent_shape (b : byte) :
  exists h l, percent b = [37; hexdigit_upper h; hexdigit_upper l]
              /\ h < 16 /\ l < 16 /\ 16 * h + l = b2n b.
Proof.
  pose proof (b2n_lt b). exists (b2n b / 16), (b2n b mod 16).
  repeat split; lia.
Qed.

Lemma hexdigit_upper_range (d : N) :
  d < 16 -> (48 <= hexdigit_upper d <= 57 \/ 65 <= hexdigit_upper d <= 70)
            /\ Json.unhexdigit (hexdigit_upper d) = Some d.
Proof.
  intros H. unfold hexdigit_upper, Json.unhexdigit.
  destruct (N.ltb_spec d 10).
  - split; [lia|].
    destruct (N.leb_spec 48 (48 + d)); [|lia].
    destruct (N.leb_spec (48 + d) 57); [|lia].
    cbn [andb]. f_equal. lia.
  - split; [lia|].
    destruct (N.leb_spec 48 (55 + d)); [|lia].
    destruct (N.leb_spec (55 + d) 57); [lia|].
    destruct (N.leb_spec 97 (55 + d)); [lia|].
    destruct (N.leb_spec 65 (55 + d)); [|lia].
    destruct (N.leb_spec (55 + d) 70); [|lia].
    cbn [andb]. f_equal. lia.
Qed.

Lemma safe_facts (c : N) :
  is_always_safe c = true ->
  c < 128 /\ c <> 32 /\ c <> 37 /\ c <> 43 /\ c <> 38 /\ c <> 61 /\ c <> 10
  /\ c <> 63 /\ c <> 34.
Proof.
  unfold is_always_safe. rewrite !orb_true_iff, !andb_true_iff.
  rewrite !N.leb_le, !N.eqb_eq. lia.
Qed.

Lemma hexdigit_upper_safe (d : N) :
  d < 16 -> is_always_safe (hexdigit_upper d) = true.
Proof.
  intros H. destruct (hexdigit_upper_range d H) as [R _].
  unfold is_always_safe. rewrite !orb_true_iff, !andb_true_iff, !N.leb_le. lia.
Qed.

(** [quote_plus], byte by byte. *)
Lemma quote_plus_bytes_eq (bs : bytes) :
  quote_plus_bytes bs = flat_map quoted_byte bs.
Proof.
  unfold quote_plus_bytes, quote_from_bytes, replace_char, space, plus.
  destruct (existsb (fun b => b2n b =? 32) bs) eqn:E.
  - rewrite flat_map_map. apply flat_map_ext. intros b. unfold quoted_byte.
    cbn [existsb]. rewrite orb_false_r.
    destruct (is_always_safe (b2n b)) eqn:S.
    + cbn [orb map]. destruct (safe_facts _ S) as [_ [H _]].
      destruct (N.eqb_spec (b2n b) 32); [contradiction|reflexivity].
    + cbn [orb]. destruct (N.eqb_spec (b2n b) 32) as [->|H]; [reflexivity|].
      destruct (percent_shape b) as [h [l [-> [Hh [Hl _]]]]]. cbn [map].
      destruct (hexdigit_upper_range h Hh) as [Rh _].
      destruct (hexdigit_upper_range l Hl) as [Rl _].
      destruct (N.eqb_spec (hexdigit_upper h) 32); [lia|].
      destruct (N.eqb_spec (hexdigit_upper l) 32); [lia|]. reflexivity.
  - induction bs as [|b bs IH]; [reflexivity|].
    cbn [existsb] in E. apply orb_false_iff in E. destruct E as [Eb E].
    cbn [flat_map]. rewrite (IH E). f_equal.
    unfold quoted_byte. cbn [existsb]. rewrite orb_false_r, Eb. reflexivity.
Qed.

Lemma quoted_byte_chars (b : byte) :
  forallb is_quoted_char (quoted_byte b) = true.
Proof.
  unfold quoted_byte, is_quoted_char.
  destruct (is_always_safe (b2n b)) eqn:S.
  - cbn [forallb]. now rewrite S.
  - destruct (b2n b =? 32); [reflexivity|].
    destruct (percent_shape b) as [h [l [-> [Hh [Hl _]]]]].
    cbn [forallb]. rewrite !hexdigit_upper_safe by assumption. reflexivity.
Qed.

Lemma quote_plus_bytes_chars (bs : bytes) :
  forallb is_quoted_char (quote_plus_bytes bs) = true.
Proof.
  rewrite quote_plus_bytes_eq.
  induction bs as [|b bs IH]; cbn [flat_map]; [reflexivity|].
  now rewrite forallb_app, quoted_byte_chars, IH.
Qed.

(** Decoding one quoted byte. *)
Lemma unquote_quoted_byte (b : byte) (t : text) :
  unquote_to_bytes (replace_char plus space (quoted_byte b ++ t))
  = cons_opt b (unquote_to_bytes (replace_char plus space t)).
Proof.
  unfold quoted_byte, replace_char, plus, space.
  destruct (is_always_safe (b2n b)) eqn:S.
  - destruct (safe_facts _ S) as [H1 [_ [H2 [H3 _]]]].
    cbn [app map unquote_to_bytes].
    destruct (N.eqb_spec (b2n b) 43); [contradiction|].
    destruct (N.leb_spec 128 (b2n b)); [lia|].
    destruct (N.eqb_spec (b2n b) 37); [contradiction|].
    now rewrite n2b_b2n.
  - destruct (N.eqb_spec (b2n b) 32) as [E|E].
    + cbn [app map unquote_to_bytes N.eqb Pos.eqb N.leb N.compare Pos.compare
             Pos.compare_cont].
      rewrite <- E. now rewrite n2b_b2n.
    + destruct (percent_shape b) as [h [l [-> [Hh [Hl Hb]]]]].
      destruct (hexdigit_upper_range h Hh) as [Rh Uh].
      destruct (hexdigit_upper_range l Hl) as [Rl Ul].
      cbn [app map].
      destruct (N.eqb_spec (hexdigit_upper h) 43); [lia|].
      destruct (N.eqb_spec (hexdigit_upper l) 43); [lia|].
      cbn [N.eqb Pos.eqb unquote_to_bytes N.leb N.compare Pos.compare
             Pos.compare_cont].
      rewrite Uh, Ul, Hb. now rewrite n2b_b2n.
Qed.

Lemma unquote_to_bytes_quote_plus (bs : bytes) :
  unquote_to_bytes (replace_char plus space (quote_plus_bytes bs)) = Some bs.
Proof.
  rewrite quote_plus_bytes_eq.
  induction bs as [|b bs IH]; cbn [flat_map]; [reflexivity|].
  now rewrite unquote_quoted_byte, IH.
Qed.

Lemma utf8_decode_ascii_bytes (bs : bytes) :
  is_ascii_bytes bs = true -> utf8_decode bs = Some (map b2n bs).
Proof.
  induction bs as [|b bs IH]; cbn [is_ascii_bytes forallb utf8_decode map];
    [reflexivity|].
  rewrite andb_true_iff. intros [Hb Hs]. unfold is_ascii_bytes in IH.
  change (b2n b <? 128) with (b2n b <? 0x80) in Hb.
  now rewrite Hb, (IH Hs).
Qed.

(** [unquote_plus(quote_plus(v))] gives the text of [v]. *)
Lemma unquote_plus_quote_plus (v : qvalue) :
  qvalue_ok v = true ->
  exists q, quote_plus v = Ok q
            /\ forallb is_quoted_char q = true
            /\ unquote_plus q = Some (qvalue_text v).
Proof.
  destruct v as [s|b]; cbn [qvalue_ok quote_plus qvalue_text]; intros H.
  - destruct (utf8_encode_scalar s H) as [bs E]. rewrite E.
    cbn [of_option bind]. eexists. split; [reflexivity|]. split.
    + apply quote_plus_bytes_chars.
    + unfold unquote_plus. rewrite unquote_to_bytes_quote_plus.
      now apply utf8_decode_encode.
  - eexists. split; [reflexivity|]. split.
    + apply quote_plus_bytes_chars.
    + unfold unquote_plus. rewrite unquote_to_bytes_quote_plus.
      now apply utf8_decode_ascii_bytes.
Qed.

Lemma lacks_quoted (c : N) (q : text) :
  forallb is_quoted_char q = true -> is_quoted_char c = false ->
  lacks c q = true.
Proof.
  intros H Hc. unfold lacks. induction q as [|x q IH]; [reflexivity|].
  cbn [forallb] in *. apply andb_true_iff in H. destruct H as [Hx Hq].
  rewrite (IH Hq), andb_true_r. apply negb_true_iff, N.eqb_neq.
  intros ->. congruence.
Qed.

Lemma split_first_app (sep : N) (a b : text) :
  lacks sep a = true -> split_first sep (a ++ sep :: b) = (a, Some b).
Proof.
  unfold lacks. induction a as [|x a IH]; cbn [app split_first forallb].
  - now rewrite N.eqb_refl.
  - rewrite andb_true_iff, negb_true_iff. intros [Hx Ha].
    now rewrite Hx, (IH Ha).
Qed.

Lemma split_on_lacks (sep : N) (a : text) :
  lacks sep a = true -> split_on sep a = [a].
Proof.
  unfold lacks. induction a as [|x a IH]; cbn [split_on forallb];
    [reflexivity|].
  rewrite andb_true_iff, negb_true_iff. intros [Hx Ha].
  now rewrite Hx, (IH Ha).
Qed.

Lemma split_on_app (sep : N) (a b : text) :
  lacks sep a = true -> split_on sep (a ++ sep :: b) = a :: split_on sep b.
Proof.
  unfold lacks. induction a as [|x a IH]; cbn [app split_on forallb].
  - now rewrite N.eqb_refl.
  - rewrite andb_true_iff, negb_true_iff. intros [Hx Ha].
    now rewrite Hx, (IH Ha).
Qed.

Lemma lacks_app (c : N) (a b : text) :
  lacks c (a ++ b) = lacks c a && lacks c b.
Proof. apply forallb_app. Qed.

(** The pieces of an encoded query: none contains [&], each reads back as
    its pair. *)
Lemma encode_pairs_spec (query : list (text * qvalue)) :
  query_ok query = true ->
  exists l,
    encode_pairs query = Ok l
    /\ forallb (lacks 38) l = true
    /\ forallb (lacks 10) l = true
    /\ List.length l = List.length query
    /\ parse_pairs l
       = Some (map (fun kv => (fst kv, qvalue_text (snd kv))) query).
Proof.
  induction query as [|[k v] query IH]; cbn [query_ok forallb fst snd].
  - intros _. exists []. repeat split.
  - rewrite !andb_true_iff. intros [[Hk Hv] Hq].
    destruct (IH Hq) as [l [E [L38 [L10 [Len P]]]]].
    destruct (unquote_plus_quote_plus (QStr k) Hk) as [k' [Ek [Ck Uk]]].
    destruct (unquote_plus_quote_plus v Hv) as [v' [Ev [Cv Uv]]].
    cbn [encode_pairs]. rewrite Ek. cbn [bind]. rewrite Ev. cbn [bind].
    rewrite E. cbn [bind].
    exists ((k' ++ lit "=" ++ v') :: l).
    change (lit "=") with [61].
    split; [reflexivity|].
    cbn [forallb]. rewrite L38, L10, !lacks_app. cbn [lacks forallb].
    rewrite !(lacks_quoted _ _ Ck), !(lacks_quoted _ _ Cv) by reflexivity.
    repeat split.
    + cbn [List.length]. now rewrite Len.
    + cbn [map fst snd].
      destruct (k' ++ [61] ++ v') as [|x p] eqn:Ep;
        [destruct k'; discriminate|].
      cbn [parse_pairs]. rewrite <- Ep. cbn [app].
      rewrite split_first_app by (now apply lacks_quoted).
      rewrite Uk, Uv, P. reflexivity.
Qed.

Lemma split_on_join (l : list text) :
  forallb (lacks 38) l = true -> l <> [] ->
  split_on 38 (join (lit "&") l) = l.
Proof.
  change (lit "&") with [38].
  induction l as [|p l IH]; [contradiction|]. intros H _.
  cbn [forallb] in H. apply andb_true_iff in H. destruct H as [Hp Hl].
  destruct l as [|p' l'].
  - cbn [join]. now apply split_on_lacks.
  - change (join [38] (p :: p' :: l')) with (p ++ 38 :: join [38] (p' :: l')).
    rewrite split_on_app by assumption.
    rewrite IH; [reflexivity|assumption|discriminate].
Qed.

Lemma lacks_join (c : N) (sep : text) (l : list text) :
  lacks c sep = true -> forallb (lacks c) l = true ->
  lacks c (join sep l) = true.
Proof.
  intros Hs. induction l as [|p l IH]; [reflexivity|].
  cbn [forallb]. rewrite andb_true_iff. intros [Hp Hl].
  destruct l as [|p' l']; [exact Hp|].
  change (join sep (p :: p' :: l')) with (p ++ sep ++ join sep (p' :: l')).
  now rewrite !lacks_app, Hp, Hs, (IH Hl).
Qed.

(** [parse_qsl(urlencode(q))] gives the pairs of [q] back, as text; the
    encoded query contains no line break. *)
Theorem parse_qsl_urlencode (query : list (text * qvalue)) :
  query_ok query = true ->
  exists qs,
    urlencode query = Ok qs
    /\ lacks 10 qs = true
    /\ parse_qsl qs
       = Some (map (fun kv => (fst kv, qvalue_text (snd kv))) query).
Proof.
  intros H. destruct (encode_pairs_spec query H) as [l [E [L38 [L10 [Len P]]]]].
  unfold urlencode. rewrite E. cbn [bind]. eexists. split; [reflexivity|].
  split; [now apply lacks_join|].
  unfold parse_qsl. destruct l as [|p l].
  - destruct query; [reflexivity|discriminate].
  - now rewrite split_on_join by (assumption || discriminate).
Qed.

End UrllibFacts.

(** ** Formatting and dedenting the snippets *)

Module StrFacts.

Import Str Urllib UrllibFacts.
Local Open Scope N_scope.

Lemma split_on_nonempty (sep : N) (s : text) : split_on sep s <> [].
Proof.
  destruct s as [|c r]; cbn [split_on]; [discriminate|].
  destruct (c =? sep); [discriminate|].
  destruct (split_on sep r); discriminate.
Qed.

Lemma split_on_glue (sep : N) (a b : text) :
  split_on sep (a ++ b) = glue (split_on sep a) (split_on sep b).
Proof.
  induction a as [|c a IH]; cbn [app split_on].
  - unfold glue. cbn [removelast last app].
    pose proof (split_on_nonempty sep b). now destruct (split_on sep b).
  - rewrite IH. pose proof (split_on_nonempty sep a) as Ha.
    destruct (c =? sep).
    + unfold glue. destruct (split_on sep a) as [|l ls]; [contradiction|].
      reflexivity.
    + unfold glue. destruct (split_on sep a) as [|l ls]; [contradiction|].
      destruct ls as [|l' ls']; reflexivity.
Qed.

(** The lines of a text around a URL without line break. *)
Lemma lines_around (before url after : text) :
  lacks newline url = true ->
  split_on newline (before ++ url ++ after)
  = glue (split_on newline before) (glue [url] (split_on newline after)).
Proof.
  intros H. rewrite !split_on_glue. now rewrite (split_on_lacks _ url H).
Qed.

Lemma format_iframe_url (url : text) :
  format xapo_tools.iframe_snippet [] [(lit "url", url)]
  = format micro_payment.iframe_snippet [url] [].
Proof. vm_compute. reflexivity. Qed.

Lemma dedent_iframe (url : text) :
  lacks newline url = true ->
  exists snippet,
    format xapo_tools.iframe_snippet [] [(lit "url", url)] = Ok snippet
    /\ dedent snippet = iframe_html url.
Proof.
  intros H.
  exists (template
            [line EmptyString;
             line "                <iframe id='tipButtonFrame' scrolling='no' frameborder='0'";
             line "                    style='border:none; overflow:hidden; height:22px;'";
             line "                    allowTransparency='true' src='"]
          ++ url
          ++ template
               [line "'>";
                line "                </iframe>";
                line "              "]).
  split; [vm_compute; reflexivity|].
  unfold dedent. rewrite lines_around by assumption.
  transitivity
    (template
       [line EmptyString;
        line "<iframe id='tipButtonFrame' scrolling='no' frameborder='0'";
        line "    style='border:none; overflow:hidden; height:22px;'";
        line "    allowTransparency='true' src='"]
     ++ (url ++ line "'>")
     ++ template [line EmptyString; line "</iframe>"; line EmptyString]).
  - vm_compute. reflexivity.
  - unfold iframe_html. now rewrite <- app_assoc.
Qed.

Lemma dedent_div (url : text) :
  lacks newline url = true ->
  exists snippet,
    format xapo_tools.div_snippet [] [(lit "url", url)] = Ok snippet
    /\ format micro_payment.div_snippet [] [(lit "url", url)] = Ok snippet
    /\ dedent snippet = div_html url.
Proof.
  intros H.
  exists (template
            [line EmptyString;
             line "                <div id='tipButtonDiv' class='tipButtonDiv'></div>";
             line "                <div id='tipButtonPopup' class='tipButtonPopup'></div>";
             line "                <script>";
             line "                    $(document).ready(function() {";
             line "                        $('#tipButtonDiv').load('"]
          ++ url
          ++ template
               [line "');";
                line "                    });";
                line "                </script>";
                line "              "]).
  split; [vm_compute; reflexivity|].
  split; [vm_compute; reflexivity|].
  unfold dedent. rewrite lines_around by assumption.
  transitivity
    (template
       [line EmptyString;
        line "<div id='tipButtonDiv' class='tipButtonDiv'></div>";
        line "<div id='tipButtonPopup' class='tipButtonPopup'></div>";
        line "<script>";
        line "    $(document).ready(function() {";
        line "        $('#tipButtonDiv').load('"]
     ++ (url ++ line "');")
     ++ template
          [line EmptyString; line "    });"; line "</script>";
           line EmptyString]).
  - vm_compute. reflexivity.
  - unfold div_html. now rewrite <- app_assoc.
Qed.

(** *** A text occurs once between texts that lack one of its characters *)

Lemma strip_prefix_spec (u s r : text) :
  strip_prefix u s = Some r <-> s = u ++ r.
Proof.
  revert s. induction u as [|x u IH]; intros s; cbn [strip_prefix app].
  - split; [now intros [= ->]|now intros ->].
  - destruct s as [|y s]; [split; discriminate|].
    destruct (N.eqb_spec x y) as [->|Hxy].
    + rewrite IH. split; [now intros ->|now intros [= ->]].
    + split; [discriminate|]. intros [= -> _]. contradiction.
Qed.

Lemma starts_with_true (u s : text) :
  starts_with u s = true -> exists r, s = u ++ r.
Proof.
  unfold starts_with. destruct (strip_prefix u s) as [r|] eqn:E; [|discriminate].
  intros _. exists r. now apply strip_prefix_spec.
Qed.

Lemma starts_with_app (u r : text) : starts_with u (u ++ r) = true.
Proof.
  unfold starts_with.
  now rewrite (proj2 (strip_prefix_spec u (u ++ r) r) eq_refl).
Qed.

Lemma lacks_not_in (c : N) (s : text) : lacks c s = true -> ~ In c s.
Proof.
  unfold lacks. rewrite forallb_forall. intros H I.
  specialize (H c I). now rewrite N.eqb_refl in H.
Qed.

(** If [b] starts [a ++ b ++ s], with [a] not empty, then [b] is made of
    repetitions of [a]: a character that [a] lacks, [b] lacks. *)
Lemma prefix_shift (c : N) (n : nat) :
  forall a b s r : text,
    (List.length b <= n)%nat -> a <> [] ->
    a ++ b ++ s = b ++ r -> lacks c a = true -> lacks c b = true.
Proof.
  induction n as [|n IH]; intros a b s r Hn Ha E La.
  - destruct b; [reflexivity|cbn in Hn; lia].
  - apply app_eq_app in E. destruct E as [l [[E1 E2]|[E1 E2]]].
    + subst a. rewrite lacks_app in La. now apply andb_true_iff in La.
    + subst b. rewrite lacks_app, La. cbn [andb].
      rewrite <- app_assoc in E2.
      apply (IH a l s r); try assumption.
      rewrite length_app in Hn. destruct a; [contradiction|cbn in Hn; lia].
Qed.

(** The same from the other side: if [a ++ b] starts [b ++ s], a character
    that [s] lacks, [a ++ b] lacks. *)
Lemma suffix_shift (c : N) (n : nat) :
  forall a b s r : text,
    (List.length b <= n)%nat -> a <> [] ->
    b ++ s = a ++ b ++ r -> lacks c s = true -> lacks c (a ++ b) = true.
Proof.
  induction n as [|n IH]; intros a b s r Hn Ha E Ls.
  - destruct b; [|cbn in Hn; lia]. cbn [app] in E. subst s.
    rewrite lacks_app in Ls. rewrite app_nil_r.
    now apply andb_true_iff in Ls.
  - apply app_eq_app in E. destruct E as [l [[E1 E2]|[E1 E2]]].
    + subst b. rewrite <- app_assoc in E2.
      assert (L : lacks c (a ++ l) = true).
      { apply (IH a l s r); try assumption; [|now symmetry].
        rewrite length_app in Hn. destruct a; [contradiction|cbn in Hn; lia]. }
      rewrite lacks_app. rewrite L.
      rewrite lacks_app in L. apply andb_true_iff in L. now destruct L as [-> _].
    + subst a s. rewrite !lacks_app in Ls.
      apply andb_true_iff in Ls. destruct Ls as [Ll Ls].
      apply andb_true_iff in Ls. destruct Ls as [Lb _].
      now rewrite !lacks_app, Lb, Ll.
Qed.

Section Once.

Variables (c : N) (u after : text).
Hypothesis c_in_u : In c u.
Hypothesis after_lacks_c : lacks c after = true.

Lemma count_lacking (s : text) : lacks c s = true -> count_occurrences u s = 0%nat.
Proof.
  induction s as [|x s IH]; intros L.
  - cbn [count_occurrences]. destruct (starts_with u []) eqn:E; [|reflexivity].
    apply starts_with_true in E. destruct E as [r E].
    destruct u; [contradiction|discriminate].
  - cbn [count_occurrences].
    assert (L' := L). cbn [lacks forallb] in L'.
    apply andb_true_iff in L'. destruct L' as [_ L'].
    rewrite (IH L').
    destruct (starts_with u (x :: s)) eqn:E; [|reflexivity].
    apply starts_with_true in E. destruct E as [r E].
    rewrite E, lacks_app in L. apply andb_true_iff in L. destruct L as [L _].
    now apply lacks_not_in in L.
Qed.

Lemma count_inside (u2 : text) :
  forall u1, u = u1 ++ u2 -> u1 <> [] ->
             count_occurrences u (u2 ++ after) = 0%nat.
Proof.
  induction u2 as [|x u2 IH]; intros u1 E H1.
  - now apply count_lacking.
  - cbn [app count_occurrences].
    rewrite (IH (u1 ++ [x])); [|now rewrite <- app_assoc|now destruct u1].
    destruct (starts_with u (x :: u2 ++ after)) eqn:S; [|reflexivity].
    apply starts_with_true in S. destruct S as [r S].
    exfalso. apply (lacks_not_in c u); [|exact c_in_u].
    rewrite E. apply (suffix_shift c (List.length (x :: u2)) u1 (x :: u2) after r);
      try assumption; [lia|].
    cbn [app]. rewrite S, E. now rewrite <- app_assoc.
Qed.

Lemma count_cons (x : N) (s : text) :
  count_occurrences u (x :: s)
  = ((if starts_with u (x :: s) then 1 else 0) + count_occurrences u s)%nat.
Proof. reflexivity. Qed.

Lemma count_at : count_occurrences u (u ++ after) = 1%nat.
Proof.
  assert (N : exists x u', u = x :: u')
    by (destruct u; [contradiction|eauto]).
  destruct N as [x [u' Eu]].
  assert (E : u ++ after = x :: (u' ++ after)) by (now rewrite Eu).
  rewrite E, count_cons, <- E, starts_with_app.
  rewrite (count_inside u' [x]); [reflexivity|assumption|discriminate].
Qed.

(** [u] occurs exactly once in [before ++ u ++ after] when [before] and
    [after] lack a character of [u]. *)
Lemma count_once (before : text) :
  lacks c before = true ->
  count_occurrences u (before ++ u ++ after) = 1%nat.
Proof.
  induction before as [|x p IH]; intros L.
  - now apply count_at.
  - assert (L' := L). cbn [lacks forallb] in L'.
    apply andb_true_iff in L'. destruct L' as [_ L'].
    cbn [app count_occurrences]. rewrite (IH L').
    destruct (starts_with u (x :: p ++ u ++ after)) eqn:S; [|reflexivity].
    apply starts_with_true in S. destruct S as [r S].
    exfalso. apply (lacks_not_in c u); [|exact c_in_u].
    apply (prefix_shift c (List.length u) (x :: p) u after r);
      try assumption; [lia|discriminate].
Qed.

End Once.

End StrFacts.

(** ** What the builders hand to each other *)

Module BuilderFacts.

Import Json Urllib Utf8Facts PaddingFacts AESFacts Base64Facts CodecFacts
  JsonFacts UrllibFacts StrFacts.
Local Open Scope N_scope.

Lemma is_ascii_join (sep : text) (l : list text) :
  is_ascii sep = true -> forallb is_ascii l = true ->
  is_ascii (join sep l) = true.
Proof.
  intros Hs. induction l as [|p l IH]; [reflexivity|].
  cbn [forallb]. rewrite andb_true_iff. intros [Hp Hl].
  destruct l as [|p' l']; [exact Hp|].
  change (join sep (p :: p' :: l')) with (p ++ sep ++ join sep (p' :: l')).
  now rewrite !is_ascii_app, Hp, Hs, (IH Hl).
Qed.

Lemma hexdigit_ascii (d : N) : d < 16 -> hexdigit d < 128.
Proof. unfold hexdigit. destruct (d <? 10); lia. Qed.

Lemma is_ascii_hex4 (n : N) : n < 65536 -> is_ascii (hex4 n) = true.
Proof.
  intros H. unfold hex4, is_ascii. cbn [forallb].
  rewrite !andb_true_iff, !N.ltb_lt.
  repeat split; try apply hexdigit_ascii; lia.
Qed.

(** With [ensure_ascii] every character is written in ASCII. *)
Lemma is_ascii_escape_char (c : N) : is_ascii (escape_char c) = true.
Proof.
  unfold escape_char, backslash, quote.
  destruct (c =? 92); [reflexivity|]. destruct (c =? 34); [reflexivity|].
  destruct (c =? 8); [reflexivity|]. destruct (c =? 12); [reflexivity|].
  destruct (c =? 10); [reflexivity|]. destruct (c =? 13); [reflexivity|].
  destruct (c =? 9); [reflexivity|].
  destruct (N.leb_spec 32 c); [destruct (N.leb_spec c 126)|]; cbn [andb].
  - unfold is_ascii. cbn [forallb]. rewrite andb_true_r. apply N.ltb_lt. lia.
  - destruct (N.ltb_spec c 0x10000).
    + change (92 :: 117 :: hex4 c) with ([92; 117] ++ hex4 c).
      rewrite is_ascii_app, is_ascii_hex4 by assumption. reflexivity.
    + change (is_ascii (([92; 117] ++ hex4 (0xd800 + (c - 0x10000) / 1024 mod 1024))
                        ++ [92; 117] ++ hex4 (0xdc00 + (c - 0x10000) mod 1024))
              = true).
      rewrite !is_ascii_app, !is_ascii_hex4 by lia. reflexivity.
  - destruct (N.ltb_spec c 0x10000); [|lia].
    change (92 :: 117 :: hex4 c) with ([92; 117] ++ hex4 c).
    rewrite is_ascii_app, is_ascii_hex4 by assumption. reflexivity.
Qed.

Lemma is_ascii_encode_string (s : text) : is_ascii (encode_string s) = true.
Proof.
  unfold encode_string, quote.
  change (34 :: flat_map escape_char s ++ [34])
    with ([34] ++ flat_map escape_char s ++ [34]).
  rewrite !is_ascii_app. cbn [is_ascii forallb N.ltb N.compare Pos.compare
                                Pos.compare_cont andb].
  rewrite andb_true_r.
  induction s as [|c s IH]; cbn [flat_map]; [reflexivity|].
  now rewrite is_ascii_app, is_ascii_escape_char, IH.
Qed.

Lemma forallb_impl {A} (f g : A -> bool) (l : list A) :
  (forall x, f x = true -> g x = true) ->
  forallb f l = true -> forallb g l = true.
Proof.
  intros H. induction l as [|x l IH]; cbn [forallb]; [reflexivity|].
  rewrite !andb_true_iff. intros [Hx Hl]. split; auto.
Qed.

Lemma is_ascii_encode_value (v : pyval) :
  value_ok v = true -> is_ascii (encode_value v) = true.
Proof.
  destruct v as [|[|]|z|r|s]; cbn [value_ok encode_value]; intros H;
    try reflexivity.
  - apply (forallb_impl is_int_char); [|apply repr_int_chars].
    intros c. unfold is_int_char.
    rewrite orb_true_iff, andb_true_iff, !N.leb_le, N.eqb_eq, N.ltb_lt. lia.
  - unfold is_float_repr in H.
    rewrite !orb_true_iff, !text_eqb_eq, andb_true_iff in H.
    destruct H as [[[-> | ->] | ->] | [H _]]; try reflexivity.
    apply (forallb_impl is_number_char); [|exact H].
    intros c. unfold is_number_char.
    rewrite !orb_true_iff, andb_true_iff, !N.leb_le, !N.eqb_eq, N.ltb_lt. lia.
  - apply is_ascii_encode_string.
Qed.

(** The serialised configuration is ASCII text. *)
Lemma is_ascii_dumps (d : dict) : dict_ok d = true -> is_ascii (dumps d) = true.
Proof.
  intros H. unfold dumps. rewrite !is_ascii_app.
  rewrite is_ascii_join; [reflexivity|reflexivity|].
  induction d as [|[k v] d IH]; [reflexivity|].
  cbn [dict_ok forallb fst snd] in H. rewrite !andb_true_iff in H.
  destruct H as [[_ Hv] Hd].
  cbn [map forallb]. rewrite (IH Hd), andb_true_r.
  unfold encode_item. cbn [fst snd].
  now rewrite !is_ascii_app, is_ascii_encode_string, is_ascii_encode_value.
Qed.

Lemma is_ascii_scalar (s : text) :
  is_ascii s = true -> forallb is_scalar s = true.
Proof.
  apply forallb_impl. intros c H%N.ltb_lt. unfold is_scalar, is_surrogate.
  destruct (N.ltb_spec c 0x110000); [|lia].
  destruct (N.leb_spec 0xD800 c); [lia|]. reflexivity.
Qed.

Lemma enc6_ascii (n : N) : b2n (Base64.enc6 n) < 128.
Proof.
  unfold Base64.enc6.
  assert (H : forall (l : list N) (k : nat),
             Forall (fun c => c < 128) l -> nth k l 0 < 128).
  { intros l. induction l as [|x l IH]; intros k F; destruct k; cbn [nth];
      try lia; inversion F; auto. }
  assert (A : Forall (fun c => c < 128) Base64.alphabet).
  { apply Forall_forall. intros c I.
    assert (B : forallb (fun c => c <? 128) Base64.alphabet = true)
      by (vm_compute; reflexivity).
    rewrite forallb_forall in B. now apply N.ltb_lt, B. }
  rewrite b2n_n2b; [now apply H|].
  specialize (H _ (N.to_nat n) A). lia.
Qed.

Lemma is_ascii_bytes_b64encode (bs : bytes) :
  is_ascii_bytes (Base64.b64encode bs) = true.
Proof.
  induction bs as [bs IH] using (well_founded_induction
                                   (Wf_nat.well_founded_ltof _ (@List.length byte))).
  destruct bs as [|a [|b [|c r]]]; cbn [Base64.b64encode]; try reflexivity;
    unfold is_ascii_bytes; cbn [forallb];
    rewrite ?andb_true_iff, ?N.ltb_lt;
    repeat split; try apply enc6_ascii; try (vm_compute; reflexivity).
  apply IH. unfold Wf_nat.ltof. simpl. lia.
Qed.

Lemma ecb_length (f : AES.state -> AES.state) (data ct : bytes) :
  AES.ecb f data = Ok ct -> List.length ct = List.length data.
Proof.
  unfold AES.ecb. destruct (AES.blocks data) as [l|] eqn:E; [|discriminate].
  intros [= <-]. rewrite (blocks_length _ _ E).
  rewrite (blocks_length (AES.unblocks (map f l)) (map f l)
             (blocks_unblocks _)).
  now rewrite length_map.
Qed.

(** The output of [encrypt] is never empty and is ASCII. *)
Lemma encrypt_output (payload secret : text) (out : bytes) :
  xapo_utils.encrypt payload secret = Ok out ->
  out <> [] /\ is_ascii_bytes out = true.
Proof.
  intros E.
  destruct (AES.new secret) as [c|e] eqn:Ec;
    [|rewrite (encrypt_without_cipher _ _ _ Ec) in E; discriminate].
  rewrite (encrypt_with_cipher _ _ _ Ec) in E.
  unfold AES.encrypt, AES.arg_bytes in E.
  destruct (utf8_encode (padded payload)) as [data|] eqn:Eu; [|discriminate].
  cbn [of_option bind] in E.
  destruct (AES.ecb _ data) as [ct|] eqn:Ect; [|discriminate].
  cbn [bind] in E. injection E as <-.
  split; [|apply is_ascii_bytes_b64encode].
  apply b64encode_nonempty.
  pose proof (ecb_length _ _ _ Ect) as L.
  pose proof (utf8_encode_length _ _ Eu) as L'.
  rewrite length_padded in L'.
  pose proof (pad_length_range (List.length payload)).
  destruct ct; [cbn in L; lia|discriminate].
Qed.

End BuilderFacts.

(** * The properties of the specification *)

Import Json Urllib Utf8Facts PaddingFacts AESFacts Base64Facts CodecFacts
  JsonFacts UrllibFacts StrFacts BuilderFacts.

(** The doctest of [encrypt]: the model computes the output that the
    docstring prints, with a secret of 32 characters. *)
Example encrypt_doctest :
  xapo_utils.encrypt Doctest.json Doctest.secret = Ok Doctest.enc.
Proof. vm_compute. reflexivity. Qed.

(** C1 - PKCS#7 padding with [k = 16]: a text of [n] characters is returned
    with [p] characters appended, each of value [p], where [1 <= p <= 16]
    and [(n + p) mod 16 = 0]; when [n mod 16 = 0] a full block of sixteen
    16s is appended.  Both copies of the function do so. *)
Theorem pkcs7_padding_appends_p_times_p (bytestring : text) :
  let n := List.length bytestring in
  let p := 16 - n mod 16 in
  1 <= p <= 16
  /\ (n + p) mod 16 = 0
  /\ (if n mod 16 =? 0 then p = 16 else p < 16)
  /\ xapo_utils._pkcs7_padding bytestring 16
     = Ok (bytestring ++ repeat (N.of_nat p) p)
  /\ micro_payment._pkcs7_encode bytestring 16
     = Ok (bytestring ++ repeat (N.of_nat p) p).
Proof.
  intros n p.
  pose proof (pad_length_range n) as R. fold p in R. change (pad_length n) with p in R.
  repeat split; try lia.
  - apply pad_length_multiple.
  - destruct (Nat.eqb_spec (n mod 16) 0) as [E|E]; unfold p; lia.
  - apply _pkcs7_padding_16.
  - apply _pkcs7_padding_16.
Qed.

(** C9 - the helpers of [micro_payment.py] are copies of those of
    [xapo_utils.py]: equal on every input, for any block size. *)
Theorem duplicated_helpers_agree :
  (forall (bytestring : text) (k : Z),
      micro_payment._pkcs7_encode bytestring k
      = xapo_utils._pkcs7_padding bytestring k)
  /\ (forall payload app_secret : text,
         micro_payment._encrypt payload app_secret
         = xapo_utils.encrypt payload app_secret).
Proof. split; reflexivity. Qed.

Lemma encrypt_key_error (payload secret : text) :
  xapo_utils.encrypt payload secret = Raise ValueError_key_length <->
  AES.new secret = Raise ValueError_key_length.
Proof.
  split.
  - intros E. destruct (AES.new secret) as [c|e] eqn:Ec.
    + rewrite (encrypt_with_cipher _ _ _ Ec) in E.
      unfold AES.encrypt, AES.arg_bytes, AES.ecb in E.
      destruct (utf8_encode (padded payload)); cbn [of_option bind] in E;
        [|discriminate].
      destruct (AES.blocks _); cbn [bind] in E; discriminate.
    + rewrite (encrypt_without_cipher _ _ _ Ec) in E. now injection E as ->.
  - apply encrypt_without_cipher.
Qed.

(** C2, as the code has it - [encrypt] fails with the key-length error of
    the cipher, and returns nothing, exactly when the secret has a UTF-8
    encoding whose length is none of 16, 24 and 32 bytes. *)
Theorem key_length_is_checked_by_the_cipher (payload secret : text) :
  xapo_utils.encrypt payload secret = Raise ValueError_key_length <->
  exists key, utf8_encode secret = Some key
              /\ ~ In (List.length key) [16; 24; 32].
Proof.
  rewrite encrypt_key_error, new_key_error.
  split; intros [key [E H]]; exists key; split; try assumption.
  - intros I. apply valid_key_length_iff in I. congruence.
  - destruct (valid_key_length (List.length key)) eqn:V; [|reflexivity].
    apply valid_key_length_iff in V. contradiction.
Qed.

Lemma key_length_is_checked_by_the_cipher_witness :
  xapo_utils.encrypt Doctest.json (lit "secret") = Raise ValueError_key_length.
Proof.
  apply (proj2 (key_length_is_checked_by_the_cipher Doctest.json (lit "secret"))).
  exists (map n2b (lit "secret")). split.
  - reflexivity.
  - simpl. intros [H|[H|[H|H]]]; try discriminate; exact H.
Defined.

(** C2 as stated fails: the secret of the doctest has 32 bytes, not 16, and
    [encrypt] raises no key-length error for it. *)
Lemma secret_of_32_bytes_is_accepted :
  ~ (forall (payload secret : text) (key : bytes),
        utf8_encode secret = Some key ->
        (xapo_utils.encrypt payload secret = Raise ValueError_key_length
         <-> List.length key <> 16)).
Proof.
  intros H.
  destruct (H Doctest.json Doctest.secret _ eq_refl) as [_ H'].
  assert (E : xapo_utils.encrypt Doctest.json Doctest.secret
              = Raise ValueError_key_length)
    by (apply H'; vm_compute; discriminate).
  rewrite encrypt_doctest in E. discriminate.
Qed.

(** C3, as the code has it - for a payload of ASCII characters, of any
    length, and a secret of 16, 24 or 32 bytes, [encrypt] returns, and
    base64-decoding its output, decrypting it in ECB mode under the same
    secret and stripping the [p] trailing bytes, [p] being the value of the
    last byte, gives the payload back. *)
Theorem encrypt_round_trip (payload secret : text) (key : bytes) :
  is_ascii payload = true ->
  utf8_encode secret = Some key ->
  In (List.length key) AES.key_size ->
  exists out,
    xapo_utils.encrypt payload secret = Ok out
    /\ Provider.decrypt_text out secret = Some payload.
Proof.
  intros Ha Ek Vk. apply valid_key_length_iff in Vk.
  destruct (encrypt_ascii payload secret key Ha Ek Vk) as [out E].
  exists out. split; [exact E|]. now apply encrypt_decrypt.
Qed.

Lemma encrypt_round_trip_witness :
  exists out,
    xapo_utils.encrypt Doctest.json Doctest.secret16 = Ok out
    /\ Provider.decrypt_text out Doctest.secret16 = Some Doctest.json.
Proof.
  apply (encrypt_round_trip Doctest.json Doctest.secret16
           (map n2b Doctest.secret16)).
  - reflexivity.
  - reflexivity.
  - simpl. tauto.
Defined.

(** C3 as stated fails: a payload of two bytes, the encoding of one
    character, with a secret of 16 bytes: [encrypt] raises and there is no
    output to decode. *)
Lemma round_trip_fails_on_two_byte_character :
  utf8_encode Doctest.e_acute = Some [Byte.xc3; Byte.xa9]
  /\ option_map (@List.length byte) (utf8_encode Doctest.secret16) = Some 16
  /\ xapo_utils.encrypt Doctest.e_acute Doctest.secret16
     = Raise ValueError_block_length
  /\ ~ (exists out,
          xapo_utils.encrypt Doctest.e_acute Doctest.secret16 = Ok out
          /\ Provider.decrypt_text out Doctest.secret16 = Some Doctest.e_acute).
Proof.
  assert (E : xapo_utils.encrypt Doctest.e_acute Doctest.secret16
              = Raise ValueError_block_length) by (vm_compute; reflexivity).
  repeat split; try reflexivity; try exact E.
  intros [out [H _]]. rewrite E in H. discriminate.
Qed.

Lemma utf8_encode_length_ascii (s : text) (bs : bytes) :
  utf8_encode s = Some bs ->
  if is_ascii s then List.length bs = List.length s
  else List.length s < List.length bs.
Proof.
  revert bs. induction s as [|c s IH]; intros bs; cbn [utf8_encode is_ascii forallb].
  - now intros [= <-].
  - destruct (utf8_encode_char c) as [b|] eqn:Ec; [|discriminate].
    destruct (utf8_encode s) as [r|] eqn:Es; [|discriminate].
    intros E%some_inj; subst bs. rewrite length_app. cbn [List.length].
    specialize (IH r eq_refl). fold (is_ascii s).
    pose proof (utf8_encode_length s r Es).
    unfold utf8_encode_char in Ec.
    destruct (N.ltb_spec c 128) as [Hc|Hc].
    + change (c <? 0x80)%N with (c <? 128)%N in Ec.
      destruct (N.ltb_spec c 128); [|lia].
      apply some_inj in Ec; subst b. cbn [andb List.length].
      destruct (is_ascii s); lia.
    + change (c <? 0x80)%N with (c <? 128)%N in Ec.
      destruct (N.ltb_spec c 128); [lia|]. cbn [andb].
      assert (2 <= List.length b).
      { destruct (c <? 0x800)%N; [apply some_inj in Ec; subst b; simpl; lia|].
        destruct (c <? 0x10000)%N.
        - destruct (is_surrogate c); [discriminate|].
          apply some_inj in Ec; subst b; simpl; lia.
        - destruct (c <? 0x110000)%N; [|discriminate].
          apply some_inj in Ec; subst b; simpl; lia. }
      lia.
Qed.

(** C5, as the code has it - with a secret the cipher accepts, the padding
    is computed from the number of characters of the payload; nothing is
    encoded before the padding.  The cipher library encodes the padded
    text: a payload with no UTF-8 encoding makes [encrypt] raise
    [UnicodeEncodeError]; otherwise the bytes handed to the cipher are those
    of the payload followed by [p] bytes of value [p], [encrypt] returns
    when their number is a multiple of 16 and raises the block-length error
    of the cipher when it is not.  An ASCII payload has as many bytes as
    characters; any other payload has more. *)
Theorem encrypt_pads_the_characters (payload secret : text) (key : bytes) :
  utf8_encode secret = Some key ->
  In (List.length key) AES.key_size ->
  let p := 16 - List.length payload mod 16 in
  xapo_utils._pkcs7_padding payload 16 = Ok (payload ++ repeat (N.of_nat p) p)
  /\ match utf8_encode payload with
     | None => xapo_utils.encrypt payload secret = Raise UnicodeEncodeError
     | Some bs =>
         utf8_encode (payload ++ repeat (N.of_nat p) p)
         = Some (bs ++ repeat (n2b (N.of_nat p)) p)
         /\ (if (List.length bs + p) mod 16 =? 0
             then exists out, xapo_utils.encrypt payload secret = Ok out
             else xapo_utils.encrypt payload secret = Raise ValueError_block_length)
         /\ (if is_ascii payload
             then List.length bs = List.length payload
                  /\ (List.length bs + p) mod 16 = 0
             else List.length payload < List.length bs)
     end.
Proof.
  intros Ek Vk p. apply valid_key_length_iff in Vk.
  pose proof (new_ok _ _ Ek Vk) as Ec.
  split; [apply _pkcs7_padding_16|].
  destruct (utf8_encode payload) as [bs|] eqn:Eu.
  - split; [|split].
    + pose proof (utf8_encode_padded payload) as H. rewrite Eu in H. exact H.
    + pose proof (encrypt_block_check payload secret _ bs Ec Eu) as H.
      change (pad_length (List.length payload)) with p in H.
      destruct ((List.length bs + p) mod 16 =? 0).
      * destruct H as [ct [_ H]]. eauto.
      * exact H.
    + pose proof (utf8_encode_length_ascii payload bs Eu) as H.
      destruct (is_ascii payload); [|exact H].
      split; [exact H|]. rewrite H. apply pad_length_multiple.
  - rewrite (encrypt_with_cipher _ _ _ Ec).
    unfold AES.encrypt, AES.arg_bytes. rewrite utf8_encode_padded, Eu.
    reflexivity.
Qed.

Lemma encrypt_pads_the_characters_witness :
  xapo_utils._pkcs7_padding Doctest.e_acute 16
  = Ok (Doctest.e_acute ++ repeat 15%N 15)
  /\ xapo_utils.encrypt Doctest.e_acute Doctest.secret16
     = Raise ValueError_block_length.
Proof.
  pose proof (encrypt_pads_the_characters Doctest.e_acute Doctest.secret16
                (map n2b Doctest.secret16) eq_refl
                (or_introl eq_refl)) as H.
  cbv zeta in H. destruct H as [H1 H2].
  split; [exact H1|].
  change (utf8_encode Doctest.e_acute) with (Some [Byte.xc3; Byte.xa9]) in H2.
  destruct H2 as [_ [H2 _]]. exact H2.
Defined.

(** C5 as stated fails: for the one-character payload U+00E9, two bytes in
    UTF-8, the padding has 15 characters (16 minus the number of characters)
    and not 14; the cipher is handed 17 bytes, not a multiple of 16, and
    [encrypt] raises the block-length error of the cipher. *)
Lemma padding_counts_characters_not_bytes :
  utf8_encode Doctest.e_acute = Some [Byte.xc3; Byte.xa9]
  /\ xapo_utils._pkcs7_padding Doctest.e_acute 16
     = Ok (Doctest.e_acute ++ repeat 15%N 15)
  /\ option_map (@List.length byte)
       (utf8_encode (Doctest.e_acute ++ repeat 15%N 15)) = Some 17
  /\ 17 mod 16 <> 0
  /\ xapo_utils.encrypt Doctest.e_acute Doctest.secret16
     = Raise ValueError_block_length.
Proof.
  repeat split; try (vm_compute; reflexivity). vm_compute. discriminate.
Qed.

(** What both builders put in the query string, and what a reader of the
    query string gets back. *)
Lemma query_spec (app_id app_secret : text) (d : dict) (button_text : pyval)
  (key : bytes) :
  utf8_encode app_secret = Some key ->
  In (List.length key) AES.key_size ->
  forallb is_scalar app_id = true ->
  dict_ok d = true ->
  value_ok button_text = true ->
  exists button_request query_string,
    xapo_utils.encrypt (dumps d) app_secret = Ok button_request
    /\ urlencode (query_of app_id button_request button_text) = Ok query_string
    /\ lacks Str.newline query_string = true
    /\ button_request <> []
    /\ parse_qsl query_string
       = Some [(lit "app_id", app_id);
               (lit "button_request", map b2n button_request);
               (lit "customization", dumps [(lit "button_text", button_text)])]
    /\ Provider.decrypt_text button_request app_secret = Some (dumps d)
    /\ loads (dumps d) = Some d
    /\ loads (dumps [(lit "button_text", button_text)])
       = Some [(lit "button_text", button_text)].
Proof.
  intros Ek Vk Ha Hd Hb. apply valid_key_length_iff in Vk.
  destruct (encrypt_ascii _ _ _ (is_ascii_dumps _ Hd) Ek Vk) as [br E].
  destruct (encrypt_output _ _ _ E) as [Hne Hbr].
  assert (Hc : dict_ok [(lit "button_text", button_text)] = true)
    by (cbn [dict_ok forallb fst snd]; now rewrite Hb).
  assert (Q : query_ok (query_of app_id br button_text) = true).
  { unfold query_of, query_ok. cbn [forallb fst snd qvalue_ok].
    rewrite Ha, Hbr.
    now rewrite (is_ascii_scalar (dumps _)) by now apply is_ascii_dumps. }
  destruct (parse_qsl_urlencode _ Q) as [qs [Eq [Lq Pq]]].
  exists br, qs. repeat split; try assumption.
  - now apply encrypt_decrypt.
  - now apply loads_dumps.
  - now apply loads_dumps.
Qed.

Lemma dict_ok_pay_type (config : xapo_tools.MicroPaymentConfig) :
  dict_ok (xapo_tools.__dict__ config) = true ->
  value_ok (xapo_tools.pay_type config) = true.
Proof.
  cbn [xapo_tools.__dict__ dict_ok forallb fst snd].
  rewrite !andb_true_iff. tauto.
Qed.

(** The shape of the widgets, for any builder, from the results of its
    [__build_url] and of the formatting of its snippets. *)
Lemma widget_shape_intro (service_url app_id app_secret : text) (d : dict)
  (button_text : pyval) (key : bytes)
  (url_result iframe_result div_result : result text) :
  utf8_encode app_secret = Some key ->
  In (List.length key) AES.key_size ->
  forallb is_scalar app_id = true ->
  lacks Str.newline service_url = true ->
  dict_ok d = true ->
  value_ok button_text = true ->
  (forall br, xapo_utils.encrypt (dumps d) app_secret = Ok br ->
              url_result
              = (qs <- urlencode (query_of app_id br button_text) ;;
                 Ok (service_url ++ lit "?" ++ qs))) ->
  iframe_result
  = (url <- url_result ;;
     snippet <- Str.format xapo_tools.iframe_snippet [] [(lit "url", url)] ;;
     Ok (Str.dedent snippet)) ->
  div_result
  = (url <- url_result ;;
     snippet <- Str.format xapo_tools.div_snippet [] [(lit "url", url)] ;;
     Ok (Str.dedent snippet)) ->
  widget_shape service_url app_id app_secret d button_text
    url_result iframe_result div_result.
Proof.
  intros Ek Vk Ha Hs Hd Hb Hurl Hiframe Hdiv.
  destruct (query_spec _ _ _ _ key Ek Vk Ha Hd Hb)
    as [br [qs [E [Eq [Lq [Hne [Pq [_ [_ Lc]]]]]]]]].
  set (url := service_url ++ lit "?" ++ qs) in *.
  assert (Eu : url_result = Ok url)
    by (rewrite (Hurl br E), Eq; reflexivity).
  assert (Lu : lacks Str.newline url = true)
    by (unfold url; now rewrite !lacks_app, Hs, Lq).
  assert (Iu : In 63%N url)
    by (unfold url; apply in_or_app; right; now left).
  exists br, qs, url, (dumps [(lit "button_text", button_text)]).
  repeat split; try assumption; try reflexivity.
  - rewrite Hiframe, Eu. cbn [bind].
    destruct (dedent_iframe url Lu) as [snippet [F D]].
    rewrite F. cbn [bind]. now rewrite D.
  - apply (count_once 63%N url _ Iu); vm_compute; reflexivity.
  - rewrite Hdiv, Eu. cbn [bind].
    destruct (dedent_div url Lu) as [snippet [F [_ D]]].
    rewrite F. cbn [bind]. now rewrite D.
  - apply (count_once 63%N url _ Iu); vm_compute; reflexivity.
Qed.

(** C6 - for a builder of either class whose secret the cipher accepts,
    whose [app_id] is Unicode text and whose [service_url] has no line
    break, and for every configuration and payment type made of values that
    JSON can carry: the URL is [service_url + "?" + query_string], the query
    string being the form encoding of the three parameters [app_id],
    [button_request] and [customization]; each of the two widgets is the
    snippet around that URL and contains it exactly once; reading the query
    string back gives the [app_id], a non-empty [button_request], which is
    the output of [encrypt], and a [customization] that decodes to the
    one-member object [{"button_text": pay_type}]. *)
Theorem widget_url_shape
  (self : xapo_tools.MicroPayment) (config : xapo_tools.MicroPaymentConfig)
  (key : bytes)
  (self' : micro_payment.XapoMicroPaymentSDK)
  (config' : micro_payment.MicroPaymentConfig) (pay_type : pyval)
  (key' : bytes) :
  utf8_encode (xapo_tools.app_secret self) = Some key ->
  In (List.length key) AES.key_size ->
  forallb is_scalar (xapo_tools.app_id self) = true ->
  lacks Str.newline (xapo_tools.service_url self) = true ->
  dict_ok (xapo_tools.__dict__ config) = true ->
  utf8_encode (micro_payment.app_secret self') = Some key' ->
  In (List.length key') AES.key_size ->
  forallb is_scalar (micro_payment.app_id self') = true ->
  lacks Str.newline (micro_payment.service_url self') = true ->
  dict_ok (micro_payment.__dict__ config') = true ->
  value_ok pay_type = true ->
  widget_shape (xapo_tools.service_url self) (xapo_tools.app_id self)
    (xapo_tools.app_secret self) (xapo_tools.__dict__ config)
    (xapo_tools.pay_type config)
    (xapo_tools.__build_url self config)
    (xapo_tools.build_iframe_widget self config)
    (xapo_tools.build_div_widget self config)
  /\ widget_shape (micro_payment.service_url self') (micro_payment.app_id self')
       (micro_payment.app_secret self') (micro_payment.__dict__ config')
       pay_type
       (micro_payment.__build_url self' config' pay_type)
       (micro_payment.build_iframe_widget self' config' pay_type)
       (micro_payment.build_div_widget self' config' pay_type).
Proof.
  intros Ek Vk Ha Hs Hd Ek' Vk' Ha' Hs' Hd' Hp. split.
  - apply (widget_shape_intro _ _ _ _ _ key); try assumption;
      try reflexivity.
    + now apply dict_ok_pay_type.
    + intros br E. unfold xapo_tools.__build_url. now rewrite E.
  - apply (widget_shape_intro _ _ _ _ _ key'); try assumption.
    + intros br E. unfold micro_payment.__build_url.
      change micro_payment._encrypt with xapo_utils.encrypt. now rewrite E.
    + unfold micro_payment.build_iframe_widget.
      destruct (micro_payment.__build_url self' config' pay_type) as [url|e];
        [|reflexivity].
      cbn [bind]. now rewrite format_iframe_url.
    + reflexivity.
Qed.

Lemma widget_url_shape_witness :
  widget_shape (xapo_tools.service_url Doctest.xmp)
    (xapo_tools.app_id Doctest.xmp) (xapo_tools.app_secret Doctest.xmp)
    (xapo_tools.__dict__ Doctest.mpc) (VStr (lit "Tip"))
    (xapo_tools.__build_url Doctest.xmp Doctest.mpc)
    (xapo_tools.build_iframe_widget Doctest.xmp Doctest.mpc)
    (xapo_tools.build_div_widget Doctest.xmp Doctest.mpc)
  /\ widget_shape (micro_payment.service_url sdk) (micro_payment.app_id sdk)
       (micro_payment.app_secret sdk) (micro_payment.__dict__ sdk_config)
       (VStr (lit "Tip"))
       (micro_payment.__build_url sdk sdk_config (VStr (lit "Tip")))
       (micro_payment.build_iframe_widget sdk sdk_config (VStr (lit "Tip")))
       (micro_payment.build_div_widget sdk sdk_config (VStr (lit "Tip"))).
Proof.
  apply (widget_url_shape Doctest.xmp Doctest.mpc
           (map n2b (xapo_tools.app_secret Doctest.xmp))
           sdk sdk_config (VStr (lit "Tip"))
           (map n2b (micro_payment.app_secret sdk)));
    try reflexivity; simpl; tauto.
Defined.

(** C6 as stated, for every configuration and payment type, fails at
    inputs for which the builders return.  With the payment type made of
    the surrogate code points U+D83D U+DE00 the [customization] parameter
    decodes to the object whose [button_text] is the one character U+1F600,
    not the payment type.  With a service URL whose second line is
    indented, [textwrap.dedent] takes the indentation from the URL, and
    neither widget contains the URL. *)
Lemma widgets_lose_a_surrogate_pair_and_an_indented_url :
  (exists query_string button_request customization,
      xapo_tools.__build_url Doctest.xmp Doctest.mpc_surrogate_pair
      = Ok (xapo_tools.service_url Doctest.xmp ++ lit "?" ++ query_string)
      /\ parse_qsl query_string
         = Some [(lit "app_id", xapo_tools.app_id Doctest.xmp);
                 (lit "button_request", button_request);
                 (lit "customization", customization)]
      /\ xapo_tools.pay_type Doctest.mpc_surrogate_pair
         = VStr Doctest.surrogate_pair
      /\ loads customization
         = Some [(lit "button_text", VStr Doctest.one_character)]
      /\ loads customization
         <> Some [(lit "button_text",
                   xapo_tools.pay_type Doctest.mpc_surrogate_pair)])
  /\ (exists url iframe div,
         xapo_tools.__build_url Doctest.xmp_two_lines Doctest.mpc = Ok url
         /\ xapo_tools.build_iframe_widget Doctest.xmp_two_lines Doctest.mpc
            = Ok iframe
         /\ xapo_tools.build_div_widget Doctest.xmp_two_lines Doctest.mpc
            = Ok div
         /\ Str.count_occurrences url iframe = 0
         /\ Str.count_occurrences url div = 0).
Proof.
  split.
  - destruct (xapo_utils.encrypt
                (dumps (xapo_tools.__dict__ Doctest.mpc_surrogate_pair))
                (xapo_tools.app_secret Doctest.xmp)) as [br|e] eqn:Eb;
      [|vm_compute in Eb; discriminate].
    destruct (urlencode
                (query_of (xapo_tools.app_id Doctest.xmp) br
                   (xapo_tools.pay_type Doctest.mpc_surrogate_pair)))
      as [qs|e] eqn:U.
    2: { vm_compute in Eb. injection Eb as <-. vm_compute in U.
         discriminate. }
    exists qs, (map b2n br),
      (dumps [(lit "button_text", VStr Doctest.surrogate_pair)]).
    split.
    { unfold xapo_tools.__build_url. rewrite Eb. cbn [bind]. cbv zeta.
      fold (query_of (xapo_tools.app_id Doctest.xmp) br
              (xapo_tools.pay_type Doctest.mpc_surrogate_pair)).
      now rewrite U. }
    split.
    { vm_compute in Eb. injection Eb as <-. vm_compute in U.
      injection U as <-. vm_compute. reflexivity. }
    split; [reflexivity|]. split; [vm_compute; reflexivity|].
    intros H. vm_compute in H. discriminate.
  - destruct (xapo_tools.__build_url Doctest.xmp_two_lines Doctest.mpc)
      as [url|e] eqn:E; [|vm_compute in E; discriminate].
    destruct (xapo_tools.build_iframe_widget Doctest.xmp_two_lines Doctest.mpc)
      as [iframe|e] eqn:Ei; [|vm_compute in Ei; discriminate].
    destruct (xapo_tools.build_div_widget Doctest.xmp_two_lines Doctest.mpc)
      as [div|e] eqn:Ed; [|vm_compute in Ed; discriminate].
    exists url, iframe, div.
    split; [reflexivity|]. split; [reflexivity|]. split; [reflexivity|].
    vm_compute in E. injection E as <-.
    vm_compute in Ei. injection Ei as <-.
    vm_compute in Ed. injection Ed as <-.
    split; vm_compute; reflexivity.
Qed.

(** The default of [timestamp] is the value computed when the [def]
    statement ran: a call that leaves [timestamp] out gets the time of the
    import, whenever the call is made. *)
Lemma default_timestamp_is_import_time (at_import at_call : Time.World)
  (kw : xapo_tools.kwargs) :
  xapo_tools.kw_timestamp kw = None ->
  xapo_tools.timestamp
    (xapo_tools.__init__ (xapo_tools.def___init__ at_import) at_call kw)
  = VInt (Time.now_ms at_import).
Proof. intros H. cbn. now rewrite H. Qed.

(** C4 - the module is imported at 1000 s; two configurations are built
    without a timestamp, at 2000 s and at 3000 s.  Both carry the timestamp
    of the import, 1000000 ms, and not the times of their construction,
    2000000 ms and 3000000 ms; the same holds for the class of
    [micro_payment.py]. *)
Example default_timestamp_is_shared :
  let f := xapo_tools.def___init__ Doctest.at_import in
  let g := micro_payment.def___init__ Doctest.at_import in
  Time.now_ms Doctest.at_import = 1000000%Z
  /\ Time.now_ms Doctest.at_first_call = 2000000%Z
  /\ Time.now_ms Doctest.at_second_call = 3000000%Z
  /\ xapo_tools.timestamp
       (xapo_tools.__init__ f Doctest.at_first_call xapo_tools.no_kwargs)
     = VInt 1000000
  /\ xapo_tools.timestamp
       (xapo_tools.__init__ f Doctest.at_second_call xapo_tools.no_kwargs)
     = VInt 1000000
  /\ micro_payment.timestamp
       (micro_payment.__init__ g Doctest.at_first_call micro_payment.no_kwargs)
     = VInt 1000000
  /\ micro_payment.timestamp
       (micro_payment.__init__ g Doctest.at_second_call micro_payment.no_kwargs)
     = VInt 1000000.
Proof. repeat split; vm_compute; reflexivity. Qed.

(** Electronic codebook: the blocks are encrypted one by one, each on its
    own; there is no initialisation vector and nothing is carried from one
    block to the next. *)
Lemma ecb_blockwise (f : AES.state -> AES.state) (l1 l2 : list AES.state) :
  AES.ecb f (AES.unblocks l1 ++ AES.unblocks l2)
  = Ok (AES.unblocks (map f l1) ++ AES.unblocks (map f l2)).
Proof.
  unfold AES.ecb, AES.unblocks. rewrite <- flat_map_app.
  fold (AES.unblocks (l1 ++ l2)). rewrite blocks_unblocks.
  now rewrite map_app, flat_map_app.
Qed.

(** [encrypt] is its closed form. *)
Lemma encrypt_is_its_closed_form (payload app_secret : text) :
  xapo_utils.encrypt payload app_secret
  = encrypt_closed_form payload app_secret.
Proof.
  unfold encrypt_closed_form.
  destruct (utf8_encode app_secret) as [key|] eqn:Ek.
  - destruct (valid_key_length (List.length key)) eqn:Vk.
    + rewrite (encrypt_with_cipher _ _ _ (new_ok _ _ Ek Vk)).
      unfold AES.encrypt, AES.arg_bytes. rewrite utf8_encode_padded.
      destruct (utf8_encode payload) as [bs|]; [|reflexivity].
      cbn [of_option bind]. cbv zeta. unfold AES.ecb.
      destruct (AES.blocks _) as [l|]; [|reflexivity].
      cbn [bind AES.round_keys]. unfold AES.unblocks.
      now rewrite flat_map_concat_map, map_map, <- flat_map_concat_map.
    + apply encrypt_without_cipher. apply new_key_error. eauto.
  - apply encrypt_without_cipher. unfold AES.new, AES.arg_bytes.
    now rewrite Ek.
Qed.

(** Formatting the snippets puts the URL in, as it is. *)
Lemma format_snippets_closed_form (url : text) :
  Str.format xapo_tools.iframe_snippet [] [(lit "url", url)]
  = Ok (iframe_formatted url)
  /\ Str.format xapo_tools.div_snippet [] [(lit "url", url)]
     = Ok (div_formatted url)
  /\ Str.format micro_payment.iframe_snippet [url] []
     = Ok (iframe_formatted url)
  /\ Str.format micro_payment.div_snippet [] [(lit "url", url)]
     = Ok (div_formatted url).
Proof.
  split; [vm_compute; reflexivity|]. split; [vm_compute; reflexivity|].
  split; vm_compute; reflexivity.
Qed.

(** C7 - two calls of [encrypt] on the same payload and secret return the
    same thing, value or exception, and so do two calls of a builder on
    the same configuration (and payment type): each result is what a
    closed form gives in which nothing but the arguments occurs.  For
    [encrypt] it is the base64 text of the blocks of the encoded and padded
    payload, each block enciphered on its own under the key expanded from
    the secret: no random source and no initialisation vector enters, and
    nothing is carried from one block to the next.  For a builder it is the
    snippet, with the URL of [__build_url] put where the replacement field
    is, and its margin removed. *)
Theorem encrypt_and_widgets_are_deterministic :
  (forall (payload app_secret : text) (first second : result bytes),
      xapo_utils.encrypt payload app_secret = first ->
      xapo_utils.encrypt payload app_secret = second ->
      first = second
      /\ first = encrypt_closed_form payload app_secret)
  /\ (forall (self : xapo_tools.MicroPayment)
             (config : xapo_tools.MicroPaymentConfig)
             (first second : result text),
         xapo_tools.build_div_widget self config = first ->
         xapo_tools.build_div_widget self config = second ->
         first = second
         /\ first = (url <- xapo_tools.__build_url self config ;;
                     Ok (Str.dedent (div_formatted url))))
  /\ (forall (self : xapo_tools.MicroPayment)
             (config : xapo_tools.MicroPaymentConfig)
             (first second : result text),
         xapo_tools.build_iframe_widget self config = first ->
         xapo_tools.build_iframe_widget self config = second ->
         first = second
         /\ first = (url <- xapo_tools.__build_url self config ;;
                     Ok (Str.dedent (iframe_formatted url))))
  /\ (forall (self : micro_payment.XapoMicroPaymentSDK)
             (config : micro_payment.MicroPaymentConfig) (pay_type : pyval)
             (first second : result text),
         micro_payment.build_div_widget self config pay_type = first ->
         micro_payment.build_div_widget self config pay_type = second ->
         first = second
         /\ first = (url <- micro_payment.__build_url self config pay_type ;;
                     Ok (Str.dedent (div_formatted url))))
  /\ (forall (self : micro_payment.XapoMicroPaymentSDK)
             (config : micro_payment.MicroPaymentConfig) (pay_type : pyval)
             (first second : result text),
         micro_payment.build_iframe_widget self config pay_type = first ->
         micro_payment.build_iframe_widget self config pay_type = second ->
         first = second
         /\ first = (url <- micro_payment.__build_url self config pay_type ;;
                     Ok (Str.dedent (iframe_formatted url)))).
Proof.
  split; [|split; [|split; [|split]]].
  - intros payload app_secret first second <- <-.
    split; [reflexivity|apply encrypt_is_its_closed_form].
  - intros self config first second <- <-. split; [reflexivity|].
    unfold xapo_tools.build_div_widget.
    destruct (xapo_tools.__build_url self config) as [url|e]; [|reflexivity].
    cbn [bind].
    destruct (format_snippets_closed_form url) as (_ & F & _). now rewrite F.
  - intros self config first second <- <-. split; [reflexivity|].
    unfold xapo_tools.build_iframe_widget.
    destruct (xapo_tools.__build_url self config) as [url|e]; [|reflexivity].
    cbn [bind].
    destruct (format_snippets_closed_form url) as (F & _). now rewrite F.
  - intros self config pay_type first second <- <-. split; [reflexivity|].
    unfold micro_payment.build_div_widget.
    destruct (micro_payment.__build_url self config pay_type) as [url|e];
      [|reflexivity].
    cbn [bind].
    destruct (format_snippets_closed_form url) as (_ & _ & _ & F).
    now rewrite F.
  - intros self config pay_type first second <- <-. split; [reflexivity|].
    unfold micro_payment.build_iframe_widget.
    destruct (micro_payment.__build_url self config pay_type) as [url|e];
      [|reflexivity].
    cbn [bind].
    destruct (format_snippets_closed_form url) as (_ & _ & F & _).
    now rewrite F.
Qed.

Lemma encrypt_and_widgets_are_deterministic_witness :
  exists url,
    xapo_tools.__build_url Doctest.xmp Doctest.mpc = Ok url
    /\ xapo_tools.build_div_widget Doctest.xmp Doctest.mpc
       = Ok (Str.dedent (div_formatted url)).
Proof.
  destruct encrypt_and_widgets_are_deterministic as (_ & D & _).
  destruct (D Doctest.xmp Doctest.mpc
              (xapo_tools.build_div_widget Doctest.xmp Doctest.mpc)
              (xapo_tools.build_div_widget Doctest.xmp Doctest.mpc)
              eq_refl eq_refl) as [_ H].
  destruct (xapo_tools.__build_url Doctest.xmp Doctest.mpc) as [url|e] eqn:E;
    [|vm_compute in E; discriminate].
  exists url. split; [reflexivity|exact H].
Defined.

(** C8 - a configuration built with any of its arguments left out has all
    nine attributes, an argument left out being the empty string, 0 for
    [amount_BIT] and the default timestamp; the JSON text that is encrypted
    into [button_request] decodes to an object with all nine keys and these
    values: no key is omitted. *)
Theorem every_key_is_serialised (self : xapo_tools.MicroPayment) (key : bytes)
  (at_import at_call : Time.World) (kw : xapo_tools.kwargs) :
  let config :=
    xapo_tools.__init__ (xapo_tools.def___init__ at_import) at_call kw in
  let members :=
    [(lit "sender_user_id", xapo_tools.arg (xapo_tools.kw_sender_user_id kw) (VStr []));
     (lit "sender_user_email",
      xapo_tools.arg (xapo_tools.kw_sender_user_email kw) (VStr []));
     (lit "sender_user_cellphone",
      xapo_tools.arg (xapo_tools.kw_sender_user_cellphone kw) (VStr []));
     (lit "receiver_user_id",
      xapo_tools.arg (xapo_tools.kw_receiver_user_id kw) (VStr []));
     (lit "receiver_user_email",
      xapo_tools.arg (xapo_tools.kw_receiver_user_email kw) (VStr []));
     (lit "pay_object_id", xapo_tools.arg (xapo_tools.kw_pay_object_id kw) (VStr []));
     (lit "amount_BIT", xapo_tools.arg (xapo_tools.kw_amount_BIT kw) (VInt 0));
     (lit "timestamp",
      xapo_tools.arg (xapo_tools.kw_timestamp kw) (VInt (Time.now_ms at_import)));
     (lit "pay_type", xapo_tools.arg (xapo_tools.kw_pay_type kw) (VStr []))] in
  utf8_encode (xapo_tools.app_secret self) = Some key ->
  In (List.length key) AES.key_size ->
  forallb is_scalar (xapo_tools.app_id self) = true ->
  dict_ok (xapo_tools.__dict__ config) = true ->
  map fst members = schema_keys
  /\ exists button_request query_string payload,
      xapo_tools.__build_url self config
      = Ok (xapo_tools.service_url self ++ lit "?" ++ query_string)
      /\ parse_qsl query_string
         = Some [(lit "app_id", xapo_tools.app_id self);
                 (lit "button_request", map b2n button_request);
                 (lit "customization",
                  dumps [(lit "button_text", xapo_tools.pay_type config)])]
      /\ Provider.decrypt_text button_request (xapo_tools.app_secret self)
         = Some payload
      /\ loads payload = Some members.
Proof.
  intros config members Ek Vk Ha Hd. split; [reflexivity|].
  destruct (query_spec _ _ _ _ key Ek Vk Ha Hd (dict_ok_pay_type _ Hd))
    as [br [qs [E [Eq [Lq [Hne [Pq [Dq [Ld Lc]]]]]]]]].
  exists br, qs, (dumps (xapo_tools.__dict__ config)).
  repeat split; try assumption.
  unfold xapo_tools.__build_url. rewrite E. cbn [bind]. cbv zeta.
  fold (query_of (xapo_tools.app_id self) br (xapo_tools.pay_type config)).
  now rewrite Eq.
Qed.

Lemma every_key_is_serialised_witness :
  exists button_request payload,
    Provider.decrypt_text button_request (xapo_tools.app_secret Doctest.xmp)
    = Some payload
    /\ loads payload
       = Some [(lit "sender_user_id", VStr []); (lit "sender_user_email", VStr []);
               (lit "sender_user_cellphone", VStr []);
               (lit "receiver_user_id", VStr []);
               (lit "receiver_user_email", VStr []);
               (lit "pay_object_id", VStr []); (lit "amount_BIT", VInt 0);
               (lit "timestamp", VInt (Time.now_ms Doctest.at_import));
               (lit "pay_type", VStr [])].
Proof.
  destruct (every_key_is_serialised Doctest.xmp
              (map n2b (xapo_tools.app_secret Doctest.xmp))
              Doctest.at_import Doctest.at_first_call xapo_tools.no_kwargs)
    as [_ [br [qs [payload [_ [_ [D L]]]]]]].
  - reflexivity.
  - simpl. tauto.
  - reflexivity.
  - reflexivity.
  - exists br, payload. split; assumption.
Defined.

(** The serialised default configuration, as text. *)
Example default_config_json :
  dumps (xapo_tools.__dict__
           (xapo_tools.__init__ (xapo_tools.def___init__ Doctest.at_import)
              Doctest.at_first_call xapo_tools.no_kwargs))
  = Str.line "{'sender_user_id': '', 'sender_user_email': '', 'sender_user_cellphone': '', 'receiver_user_id': '', 'receiver_user_email': '', 'pay_object_id': '', 'amount_BIT': 0, 'timestamp': 1000000, 'pay_type': ''}".
Proof. vm_compute. reflexivity. Qed.

(** The builder and the configuration of the doctests: the receiving side
    decrypts [button_request] to a JSON object whose [receiver_user_id] is
    the one of the configuration. *)
Example doctest_end_to_end :
  exists button_request query_string payload object,
    xapo_tools.__build_url Doctest.xmp Doctest.mpc
    = Ok (lit "http://dev.xapo.com:8089/pay_button/show?" ++ query_string)
    /\ parse_qsl query_string
       = Some [(lit "app_id", lit "b91014cc28c94841");
               (lit "button_request", map b2n button_request);
               (lit "customization", Str.line "{'button_text': 'Tip'}")]
    /\ Provider.decrypt_text button_request (xapo_tools.app_secret Doctest.xmp)
       = Some payload
    /\ loads payload = Some object
    /\ dict_get (lit "receiver_user_id") object = Some (VStr (lit "r0210")).
Proof.
  destruct (query_spec (xapo_tools.app_id Doctest.xmp)
              (xapo_tools.app_secret Doctest.xmp)
              (xapo_tools.__dict__ Doctest.mpc) (VStr (lit "Tip"))
              (map n2b (xapo_tools.app_secret Doctest.xmp)))
    as [br [qs [E [Eq [Lq [Hne [Pq [Dq [Ld Lc]]]]]]]]];
    try reflexivity; [simpl; tauto|].
  exists br, qs, (dumps (xapo_tools.__dict__ Doctest.mpc)),
    (xapo_tools.__dict__ Doctest.mpc).
  repeat split; try assumption.
  - unfold xapo_tools.__build_url. rewrite E. cbn [bind]. cbv zeta.
    change (xapo_tools.pay_type Doctest.mpc) with (VStr (lit "Tip")).
    fold (query_of (xapo_tools.app_id Doctest.xmp) br (VStr (lit "Tip"))).
    now rewrite Eq.
Qed.

(** C10 - in [MicroPayment] the decrypted [button_request] is a JSON object
    with a [pay_type] member, and the same value is the [button_text] of
    the [customization] parameter; in [XapoMicroPaymentSDK] the decrypted
    object has no [pay_type] member, the [button_request] is the same
    whatever the payment type, and the payment type is the [button_text] of
    the [customization] parameter only. *)
Theorem pay_type_placement
  (self : xapo_tools.MicroPayment) (config : xapo_tools.MicroPaymentConfig)
  (key : bytes)
  (self' : micro_payment.XapoMicroPaymentSDK)
  (config' : micro_payment.MicroPaymentConfig) (pay_type : pyval)
  (key' : bytes) :
  utf8_encode (xapo_tools.app_secret self) = Some key ->
  In (List.length key) AES.key_size ->
  forallb is_scalar (xapo_tools.app_id self) = true ->
  dict_ok (xapo_tools.__dict__ config) = true ->
  utf8_encode (micro_payment.app_secret self') = Some key' ->
  In (List.length key') AES.key_size ->
  forallb is_scalar (micro_payment.app_id self') = true ->
  dict_ok (micro_payment.__dict__ config') = true ->
  value_ok pay_type = true ->
  (exists button_request query_string payload object customization,
      xapo_tools.__build_url self config
      = Ok (xapo_tools.service_url self ++ lit "?" ++ query_string)
      /\ parse_qsl query_string
         = Some [(lit "app_id", xapo_tools.app_id self);
                 (lit "button_request", map b2n button_request);
                 (lit "customization", customization)]
      /\ Provider.decrypt_text button_request (xapo_tools.app_secret self)
         = Some payload
      /\ loads payload = Some object
      /\ dict_get (lit "pay_type") object = Some (xapo_tools.pay_type config)
      /\ loads customization
         = Some [(lit "button_text", xapo_tools.pay_type config)])
  /\ (exists button_request query_string payload object customization,
         micro_payment.__build_url self' config' pay_type
         = Ok (micro_payment.service_url self' ++ lit "?" ++ query_string)
         /\ parse_qsl query_string
            = Some [(lit "app_id", micro_payment.app_id self');
                    (lit "button_request", map b2n button_request);
                    (lit "customization", customization)]
         /\ Provider.decrypt_text button_request (micro_payment.app_secret self')
            = Some payload
         /\ loads payload = Some object
         /\ dict_get (lit "pay_type") object = None
         /\ (forall other : pyval,
                micro_payment.__build_url self' config' other
                = (query_string' <- urlencode
                                      (query_of (micro_payment.app_id self')
                                         button_request other) ;;
                   Ok (micro_payment.service_url self' ++ lit "?"
                       ++ query_string')))
         /\ loads customization = Some [(lit "button_text", pay_type)]).
Proof.
  intros Ek Vk Ha Hd Ek' Vk' Ha' Hd' Hp. split.
  - destruct (query_spec _ _ _ _ key Ek Vk Ha Hd (dict_ok_pay_type _ Hd))
      as [br [qs [E [Eq [Lq [Hne [Pq [Dq [Ld Lc]]]]]]]]].
    exists br, qs, (dumps (xapo_tools.__dict__ config)),
      (xapo_tools.__dict__ config),
      (dumps [(lit "button_text", xapo_tools.pay_type config)]).
    repeat split; try assumption.
    unfold xapo_tools.__build_url. rewrite E. cbn [bind]. cbv zeta.
    fold (query_of (xapo_tools.app_id self) br (xapo_tools.pay_type config)).
    now rewrite Eq.
  - destruct (query_spec _ _ _ _ key' Ek' Vk' Ha' Hd' Hp)
      as [br [qs [E [Eq [Lq [Hne [Pq [Dq [Ld Lc]]]]]]]]].
    exists br, qs, (dumps (micro_payment.__dict__ config')),
      (micro_payment.__dict__ config'),
      (dumps [(lit "button_text", pay_type)]).
    repeat split; try assumption.
    + unfold micro_payment.__build_url.
      change (micro_payment._encrypt) with (xapo_utils.encrypt).
      rewrite E. cbn [bind]. cbv zeta.
      fold (query_of (micro_payment.app_id self') br pay_type).
      now rewrite Eq.
    + intros other. unfold micro_payment.__build_url.
      change (micro_payment._encrypt) with (xapo_utils.encrypt).
      rewrite E. reflexivity.
Qed.

Lemma pay_type_placement_witness :
  (exists button_request payload object,
      Provider.decrypt_text button_request (xapo_tools.app_secret Doctest.xmp)
      = Some payload
      /\ loads payload = Some object
      /\ dict_get (lit "pay_type") object = Some (VStr (lit "Tip")))
  /\ (exists button_request payload object,
         Provider.decrypt_text button_request (micro_payment.app_secret sdk)
         = Some payload
         /\ loads payload = Some object
         /\ dict_get (lit "pay_type") object = None).
Proof.
  destruct (pay_type_placement Doctest.xmp Doctest.mpc
              (map n2b (xapo_tools.app_secret Doctest.xmp))
              sdk sdk_config (VStr (lit "Tip"))
              (map n2b (micro_payment.app_secret sdk)))
    as [[br [qs [payload [object [cu [_ [_ [D [L [G _]]]]]]]]]]
        [br' [qs' [payload' [object' [cu' [_ [_ [D' [L' [G' _]]]]]]]]]]].
  - reflexivity.
  - simpl. tauto.
  - reflexivity.
  - reflexivity.
  - reflexivity.
  - simpl. tauto.
  - reflexivity.
  - reflexivity.
  - reflexivity.
  - split.
    + exists br, payload, object. repeat split; assumption.
    + exists br', payload', object'. repeat split; assumption.
Defined.

(** * Further properties of the code

    ** The padding, for any block size *)

Module PaddingCases.

(** A run of one byte of value 128 or more is not UTF-8. *)
Lemma utf8_decode_repeat_high (v : N) (m : nat) :
  (128 <= v < 256)%N -> utf8_decode (repeat (n2b v) (S m)) = None.
Proof.
  intros H.
  assert (NC : (0xC0 <= v)%N -> is_cont (n2b v) = false).
  { intros G. unfold is_cont. rewrite b2n_n2b by lia.
    apply andb_false_iff. right. apply N.ltb_ge. exact G. }
  cbn [repeat utf8_decode]. rewrite b2n_n2b by lia.
  destruct (N.ltb_spec v 0x80) as [L|_]; [lia|].
  destruct (N.ltb_spec v 0xC2) as [_|G]; [reflexivity|].
  rewrite <- (N.ltb_ge v 0xC2) in G. apply N.ltb_ge in G.
  assert (NC' : is_cont (n2b v) = false) by (apply NC; lia).
  destruct (v <? 0xE0)%N.
  { destruct m as [|m]; cbn [repeat]; [reflexivity|]. now rewrite NC'. }
  destruct (v <? 0xF0)%N.
  { destruct m as [|[|m]]; cbn [repeat]; try reflexivity. now rewrite NC'. }
  destruct (v <? 0xF5)%N.
  { destruct m as [|[|[|m]]]; cbn [repeat]; try reflexivity. now rewrite NC'. }
  reflexivity.
Qed.

(** [bytearray] refuses a value above 255. *)
Lemma bytearray_repeat_high (z : Z) (m : nat) :
  (256 <= z)%Z -> bytearray (repeat z (S m)) = Raise ValueError_byte.
Proof.
  intros H. cbn [repeat bytearray].
  destruct (Z.ltb_spec z 256) as [L|_]; [lia|]. now rewrite andb_false_r.
Qed.

(** What the padding function returns, by cases on the block size and on
    the pad value. *)
Lemma _pkcs7_padding_cases (bytestring : text) (k : Z) :
  xapo_utils._pkcs7_padding bytestring k
  = if (k =? 0)%Z then Raise ZeroDivisionError
    else let val := (k - len bytestring mod k)%Z in
         if (val <? - 2 ^ 63)%Z then Raise OverflowError
         else if (val <? 0)%Z then Ok bytestring
         else if (val <=? 127)%Z
         then Ok (bytestring ++ repeat (Z.to_N val) (Z.to_nat val))
         else if (val <=? 255)%Z then Raise UnicodeDecodeError
         else if (val <? 2 ^ 60)%Z then Raise ValueError_byte
         else if (val <? 2 ^ 63)%Z then Raise MemoryError
         else Raise OverflowError.
Proof.
  unfold xapo_utils._pkcs7_padding.
  destruct (Z.eqb_spec k 0) as [K0|K0]; [reflexivity|].
  cbv zeta. set (val := (k - len bytestring mod k)%Z).
  destruct (Z.ltb_spec val (- 2 ^ 63)) as [Lo|Lo].
  { unfold list_mul. destruct (Z.ltb_spec val (- 2 ^ 63)); [reflexivity|lia]. }
  destruct (Z.ltb_spec val 0) as [Vn|Vp].
  { rewrite list_mul_ok by lia.
    replace (Z.to_nat val) with 0%nat by lia.
    cbn. now rewrite app_nil_r. }
  destruct (Z.leb_spec val 127) as [S|L].
  { rewrite list_mul_ok by lia. cbn [bind].
    rewrite bytearray_repeat by lia. cbn [bind].
    rewrite utf8_decode_repeat by lia. reflexivity. }
  assert (V0 : val <> 0%Z) by lia.
  destruct (Z.leb_spec val 255) as [S'|L'].
  { rewrite list_mul_ok by lia. cbn [bind].
    destruct (Z.to_nat val) as [|m] eqn:Em; [lia|].
    rewrite bytearray_repeat by lia. cbn [bind].
    rewrite utf8_decode_repeat_high by lia. reflexivity. }
  destruct (Z.ltb_spec val (2 ^ 60)) as [M|M].
  { rewrite list_mul_ok by lia. cbn [bind].
    destruct (Z.to_nat val) as [|m] eqn:Em; [lia|].
    now rewrite bytearray_repeat_high by lia. }
  unfold list_mul.
  destruct (Z.ltb_spec val (- 2 ^ 63)); [lia|].
  destruct (Z.leb_spec (2 ^ 63) val); destruct (Z.ltb_spec val (2 ^ 63));
    try lia; cbn [orb]; [reflexivity|].
  destruct (Z.leb_spec (2 ^ 60) val); [reflexivity|lia].
Qed.

Lemma pad_value_positive (n k : Z) :
  (0 < k)%Z -> (1 <= k - n mod k <= k)%Z.
Proof. intros K. pose proof (Z.mod_pos_bound n k K). lia. Qed.

Lemma pad_value_negative (n k : Z) :
  (k < 0)%Z -> (k <= k - n mod k <= -1)%Z.
Proof. intros K. pose proof (Z.mod_neg_bound n k K). lia. Qed.

Lemma pad_value_fills (n k : Z) :
  (k <> 0)%Z -> ((n + (k - n mod k)) mod k = 0)%Z.
Proof.
  intros K.
  replace (n + (k - n mod k))%Z with ((n / k + 1) * k)%Z
    by (pose proof (Z.div_mod n k); lia).
  now apply Z.mod_mul.
Qed.

End PaddingCases.

Import PaddingCases.

(** X1 - the padding with a positive block size [k], on CPython with
    64-bit indexes: the pad value [val = k - len % k] lies between 1 and
    [k] and brings the length to a multiple of [k].  The function returns
    the text followed by [val] characters of value [val] when [val] is at
    most 127.  For a larger [val] no text is returned: up to 255 the run
    of [val] bytes is not UTF-8 and [decode] raises [UnicodeDecodeError];
    from 256 on [bytearray] raises [ValueError] once the list of [val]
    items is built, and a machine without the memory for that list raises
    [MemoryError] instead; from [2**60] on the list is refused with
    [MemoryError] on every machine, and from [2**63] on [val] is no index
    and the repetition raises [OverflowError].  Both copies of the
    function do so. *)
Theorem padding_with_a_positive_block_size (bytestring : text) (k : Z) :
  (0 < k)%Z ->
  let val := (k - len bytestring mod k)%Z in
  let outcome (r : result text) : Prop :=
    if (val <=? 127)%Z
    then r = Ok (bytestring ++ repeat (Z.to_N val) (Z.to_nat val))
    else if (val <=? 255)%Z then r = Raise UnicodeDecodeError
    else if (val <? 2 ^ 60)%Z
         then r = Raise ValueError_byte \/ r = Raise MemoryError
    else if (val <? 2 ^ 63)%Z then r = Raise MemoryError
    else r = Raise OverflowError in
  (1 <= val <= k)%Z
  /\ ((len bytestring + val) mod k = 0)%Z
  /\ outcome (xapo_utils._pkcs7_padding bytestring k)
  /\ outcome (micro_payment._pkcs7_encode bytestring k).
Proof.
  intros K val outcome.
  pose proof (pad_value_positive (len bytestring) k K) as V. fold val in V.
  assert (E : outcome (xapo_utils._pkcs7_padding bytestring k)).
  { unfold outcome. rewrite _pkcs7_padding_cases.
    destruct (Z.eqb_spec k 0); [lia|]. cbv zeta. fold val.
    destruct (Z.ltb_spec val (- 2 ^ 63)); [lia|].
    destruct (Z.ltb_spec val 0); [lia|].
    destruct (val <=? 127)%Z; [reflexivity|].
    destruct (val <=? 255)%Z; [reflexivity|].
    destruct (val <? 2 ^ 60)%Z; [now left|].
    destruct (val <? 2 ^ 63)%Z; reflexivity. }
  split; [exact V|]. split; [apply pad_value_fills; lia|].
  split; exact E.
Qed.

Lemma padding_with_a_positive_block_size_witness :
  xapo_utils._pkcs7_padding (lit "payload") 5 = Ok (lit "payload" ++ repeat 3%N 3)
  /\ xapo_utils._pkcs7_padding (lit "payload") 200 = Raise UnicodeDecodeError
  /\ xapo_utils._pkcs7_padding (lit "payload") (2 ^ 63 + 7) = Raise OverflowError.
Proof.
  split; [|split].
  - now destruct (padding_with_a_positive_block_size (lit "payload") 5)
      as (_ & _ & H & _).
  - now destruct (padding_with_a_positive_block_size (lit "payload") 200)
      as (_ & _ & H & _).
  - now destruct (padding_with_a_positive_block_size (lit "payload")
                    (2 ^ 63 + 7)) as (_ & _ & H & _).
Defined.

(** X2 - the padding with a block size that is not positive, on CPython
    with 64-bit indexes: [k = 0] raises [ZeroDivisionError]; with a
    negative [k] the pad value [val = k - len % k] is negative, between [k]
    and -1: down to [-2**63] the list [[val] * val] is empty and the text
    is returned unchanged, without an error; below [-2**63] [val] is no
    index and the repetition raises [OverflowError].  Both copies of the
    function do so. *)
Theorem padding_with_a_block_size_that_is_not_positive
  (bytestring : text) (k : Z) :
  (k <= 0)%Z ->
  let val := (k - len bytestring mod k)%Z in
  let outcome :=
    if (k =? 0)%Z then Raise ZeroDivisionError
    else if (- 2 ^ 63 <=? val)%Z then Ok bytestring
    else Raise OverflowError in
  (k < 0 -> k <= val <= -1)%Z
  /\ xapo_utils._pkcs7_padding bytestring k = outcome
  /\ micro_payment._pkcs7_encode bytestring k = outcome.
Proof.
  intros K val outcome.
  assert (E : xapo_utils._pkcs7_padding bytestring k = outcome).
  { rewrite _pkcs7_padding_cases. unfold outcome.
    destruct (Z.eqb_spec k 0) as [K0|K0]; [reflexivity|].
    cbv zeta. fold val.
    pose proof (pad_value_negative (len bytestring) k ltac:(lia)) as V.
    fold val in V.
    destruct (Z.ltb_spec val (- 2 ^ 63));
      destruct (Z.leb_spec (- 2 ^ 63) val); try lia; [reflexivity|].
    destruct (Z.ltb_spec val 0); [reflexivity|lia]. }
  split; [apply pad_value_negative|]. split; exact E.
Qed.

Lemma padding_with_a_block_size_that_is_not_positive_witness :
  xapo_utils._pkcs7_padding (lit "payload") (-16) = Ok (lit "payload")
  /\ xapo_utils._pkcs7_padding (lit "payload") 0 = Raise ZeroDivisionError
  /\ xapo_utils._pkcs7_padding [] (- 2 ^ 64) = Raise OverflowError.
Proof.
  split; [|split].
  - apply (padding_with_a_block_size_that_is_not_positive (lit "payload") (-16)).
    lia.
  - apply (padding_with_a_block_size_that_is_not_positive (lit "payload") 0).
    lia.
  - apply (padding_with_a_block_size_that_is_not_positive [] (- 2 ^ 64)).
    lia.
Defined.

(** X3 - the padding loses nothing: for any block size, two texts that are
    padded to the same text are equal. *)
Theorem padding_is_injective (a b padded_text : text) (k : Z) :
  xapo_utils._pkcs7_padding a k = Ok padded_text ->
  xapo_utils._pkcs7_padding b k = Ok padded_text ->
  a = b.
Proof.
  rewrite !_pkcs7_padding_cases.
  destruct (Z.eqb_spec k 0) as [K0|K0]; [discriminate|].
  cbv zeta.
  set (va := (k - len a mod k)%Z). set (vb := (k - len b mod k)%Z).
  destruct (Z.ltb_spec k 0) as [Kn|Kp].
  - pose proof (pad_value_negative (len a) k Kn) as Va. fold va in Va.
    pose proof (pad_value_negative (len b) k Kn) as Vb. fold vb in Vb.
    destruct (va <? - 2 ^ 63)%Z; [discriminate|].
    destruct (vb <? - 2 ^ 63)%Z; [discriminate|].
    destruct (Z.ltb_spec va 0); [|lia]. destruct (Z.ltb_spec vb 0); [|lia].
    congruence.
  - assert (Kp' : (0 < k)%Z) by lia.
    pose proof (pad_value_positive (len a) k Kp') as Va. fold va in Va.
    pose proof (pad_value_positive (len b) k Kp') as Vb. fold vb in Vb.
    destruct (Z.ltb_spec va (- 2 ^ 63)); [lia|].
    destruct (Z.ltb_spec vb (- 2 ^ 63)); [lia|].
    destruct (Z.ltb_spec va 0); [lia|]. destruct (Z.ltb_spec vb 0); [lia|].
    destruct (va <=? 127)%Z;
      [|destruct (va <=? 255)%Z; [|destruct (va <? 2 ^ 60)%Z;
                                     [|destruct (va <? 2 ^ 63)%Z]];
        discriminate].
    destruct (vb <=? 127)%Z;
      [|destruct (vb <=? 255)%Z; [|destruct (vb <? 2 ^ 60)%Z;
                                     [|destruct (vb <? 2 ^ 63)%Z]];
        discriminate].
    intros Ea Eb. rewrite <- Eb in Ea. apply some_inj.
    assert (E : a ++ repeat (Z.to_N va) (Z.to_nat va)
                = b ++ repeat (Z.to_N vb) (Z.to_nat vb)) by congruence.
    clear Ea Eb.
    destruct (Z.to_nat va) as [|na] eqn:Na; [lia|].
    destruct (Z.to_nat vb) as [|nb] eqn:Nb; [lia|].
    cbn [repeat] in E. rewrite !repeat_cons, !app_assoc in E.
    apply app_inj_tail in E. destruct E as [E V].
    assert (va = vb) by lia.
    assert (na = nb) by lia. subst nb.
    rewrite V in E. apply app_inv_tail in E. now subst.
Qed.

Lemma padding_is_injective_witness :
  lit "payload" = lit "payload".
Proof.
  apply (padding_is_injective (lit "payload") (lit "payload")
           (lit "payload" ++ repeat 9%N 9) 16); reflexivity.
Defined.

(** X4 - padding twice: with a block size from 1 to 127, the padded text
    has a length that is a multiple of the block size, so that padding it
    again appends a full block of [k] characters of value [k]. *)
Theorem padding_a_padded_text_adds_a_full_block
  (bytestring padded_text : text) (k : Z) :
  (1 <= k <= 127)%Z ->
  xapo_utils._pkcs7_padding bytestring k = Ok padded_text ->
  (len padded_text mod k = 0)%Z
  /\ xapo_utils._pkcs7_padding padded_text k
     = Ok (padded_text ++ repeat (Z.to_N k) (Z.to_nat k)).
Proof.
  intros K. rewrite !_pkcs7_padding_cases.
  destruct (Z.eqb_spec k 0) as [K0|K0]; [lia|].
  assert (Kp' : (0 < k)%Z) by lia.
  pose proof (pad_value_positive (len bytestring) k Kp') as B.
  cbv zeta. set (val := (k - len bytestring mod k)%Z). fold val in B.
  destruct (Z.ltb_spec val (- 2 ^ 63)); [lia|].
  destruct (Z.ltb_spec val 0); [lia|].
  destruct (Z.leb_spec val 127) as [_|L]; [|lia].
  intros E. injection E as <-.
  assert (M : (len (bytestring ++ repeat (Z.to_N val) (Z.to_nat val)) mod k
               = 0)%Z).
  { unfold len. rewrite length_app, repeat_length, Nat2Z.inj_add.
    rewrite Z2Nat.id by lia. fold (len bytestring). unfold val.
    apply pad_value_fills. lia. }
  split; [exact M|].
  rewrite M, Z.sub_0_r.
  destruct (Z.ltb_spec k (- 2 ^ 63)); [lia|].
  destruct (Z.ltb_spec k 0); [lia|].
  destruct (Z.leb_spec k 127); [reflexivity|lia].
Qed.

Lemma padding_a_padded_text_adds_a_full_block_witness :
  xapo_utils._pkcs7_padding (lit "payload" ++ repeat 9%N 9) 16
  = Ok ((lit "payload" ++ repeat 9%N 9) ++ repeat 16%N 16).
Proof.
  apply (padding_a_padded_text_adds_a_full_block (lit "payload")
           (lit "payload" ++ repeat 9%N 9) 16); [lia | reflexivity].
Defined.

(** ** [encrypt] *)

Module EncryptCases.

Lemma new_encode_error (secret : text) :
  utf8_encode secret = None -> AES.new secret = Raise UnicodeEncodeError.
Proof. intros E. unfold AES.new, AES.arg_bytes. now rewrite E. Qed.

Lemma unblocks_length (l : list AES.state) :
  List.length (AES.unblocks l) = 16 * List.length l.
Proof. apply blocks_length, blocks_unblocks. Qed.

(** What [encrypt] has computed when it returns. *)
Lemma encrypt_ok_inv (payload secret : text) (out : bytes) :
  xapo_utils.encrypt payload secret = Ok out ->
  exists c bs l,
    AES.new secret = Ok c
    /\ utf8_encode payload = Some bs
    /\ AES.blocks (bs ++ repeat (n2b (N.of_nat (pad_length (List.length payload))))
                     (pad_length (List.length payload))) = Some l
    /\ out = Base64.b64encode
               (AES.unblocks (map (AES.cipher (AES.round_keys c)) l)).
Proof.
  intros E.
  destruct (AES.new secret) as [c|e] eqn:Ec;
    [|rewrite (encrypt_without_cipher _ _ _ Ec) in E; discriminate].
  rewrite (encrypt_with_cipher _ _ _ Ec) in E.
  unfold AES.encrypt, AES.arg_bytes in E. rewrite utf8_encode_padded in E.
  destruct (utf8_encode payload) as [bs|] eqn:Eu; [|discriminate].
  cbn [of_option bind] in E. unfold AES.ecb in E.
  destruct (AES.blocks _) as [l|] eqn:El; [|discriminate].
  cbn [bind] in E. injection E as <-.
  exists c, bs, l. repeat split; assumption.
Qed.

Lemma b64encode_length (bs : bytes) :
  List.length (Base64.b64encode bs) = 4 * ((List.length bs + 2) / 3).
Proof.
  induction bs as [bs IH] using (well_founded_induction
                                   (Wf_nat.well_founded_ltof _ (@List.length byte))).
  destruct bs as [|a [|b [|c r]]]; try reflexivity.
  cbn [Base64.b64encode List.length].
  rewrite IH by (unfold Wf_nat.ltof; simpl; lia).
  replace (S (S (S (List.length r))) + 2) with (1 * 3 + (List.length r + 2))
    by lia.
  rewrite Nat.div_add_l by lia. lia.
Qed.

Lemma enc6_base64 (n : N) : (n < 64)%N -> is_base64_char (Base64.enc6 n) = true.
Proof.
  apply (forall_N_below (fun n => is_base64_char (Base64.enc6 n)) 64).
  vm_compute. reflexivity.
Qed.

Lemma b64encode_chars (bs : bytes) :
  forallb is_base64_char (Base64.b64encode bs) = true.
Proof.
  induction bs as [bs IH] using (well_founded_induction
                                   (Wf_nat.well_founded_ltof _ (@List.length byte))).
  destruct bs as [|a [|b [|c r]]].
  - reflexivity.
  - pose proof (b2n_lt a).
    cbn [Base64.b64encode forallb].
    rewrite !enc6_base64 by lia. reflexivity.
  - pose proof (b2n_lt a). pose proof (b2n_lt b).
    cbn [Base64.b64encode forallb].
    rewrite !enc6_base64 by lia. reflexivity.
  - pose proof (b2n_lt a). pose proof (b2n_lt b). pose proof (b2n_lt c).
    cbn [Base64.b64encode forallb].
    rewrite !enc6_base64 by lia.
    rewrite IH by (unfold Wf_nat.ltof; simpl; lia). reflexivity.
Qed.

(** The first [4 * j] characters of a base64 text encode the first [3 * j]
    bytes. *)
Lemma b64encode_firstn (j : nat) :
  forall bs : bytes,
    3 * j <= List.length bs ->
    firstn (4 * j) (Base64.b64encode bs) = Base64.b64encode (firstn (3 * j) bs).
Proof.
  induction j as [|j IH]; intros bs L; [reflexivity|].
  destruct bs as [|a [|b [|c r]]]; try (simpl in L; lia).
  replace (4 * S j) with (S (S (S (S (4 * j))))) by lia.
  replace (3 * S j) with (S (S (S (3 * j)))) by lia.
  cbn [firstn Base64.b64encode].
  rewrite IH by (simpl in L; lia). reflexivity.
Qed.

(** The leading blocks of the data are encrypted without regard to what
    follows them. *)
Lemma ecb_prefix (f : AES.state -> AES.state) (A R ct : bytes) (m : nat) :
  List.length A = 16 * m ->
  AES.ecb f (A ++ R) = Ok ct ->
  exists lA, AES.blocks A = Some lA
             /\ firstn (16 * m) ct = AES.unblocks (map f lA).
Proof.
  intros LA E.
  destruct (blocks_total m A LA) as [lA EA].
  pose proof (ecb_length _ _ _ E) as Lct.
  assert (E' := E). unfold AES.ecb in E'.
  destruct (AES.blocks (A ++ R)) as [l|] eqn:El; [|discriminate].
  pose proof (blocks_length _ _ El) as Ll. rewrite length_app in Ll.
  destruct (blocks_total (List.length l - m) R) as [lR ER]; [lia|].
  rewrite <- (unblocks_blocks _ _ EA), <- (unblocks_blocks _ _ ER) in E.
  rewrite ecb_blockwise in E. injection E as <-.
  exists lA. split; [exact EA|].
  pose proof (blocks_length _ _ EA) as LlA.
  rewrite firstn_app.
  replace (16 * m - List.length (AES.unblocks (map f lA))) with 0
    by (rewrite unblocks_length, length_map; lia).
  rewrite firstn_O, app_nil_r.
  apply firstn_all2. rewrite unblocks_length, length_map. lia.
Qed.

End EncryptCases.

Import EncryptCases.

(** X5 - the outcomes of [encrypt], in the order in which the checks are
    made.  The secret comes first: a secret without UTF-8 encoding raises
    [UnicodeEncodeError] and a key that has not 16, 24 or 32 bytes raises
    the key-length error, whatever the payload.  Then the payload: without
    UTF-8 encoding it raises [UnicodeEncodeError]; when its bytes and the
    padding do not fill whole blocks, the block-length error; otherwise
    [encrypt] returns. *)
Theorem encrypt_outcomes (payload app_secret : text) :
  match utf8_encode app_secret with
  | None => xapo_utils.encrypt payload app_secret = Raise UnicodeEncodeError
  | Some key =>
      if valid_key_length (List.length key) then
        match utf8_encode payload with
        | None =>
            xapo_utils.encrypt payload app_secret = Raise UnicodeEncodeError
        | Some bs =>
            if (List.length bs + pad_length (List.length payload)) mod 16 =? 0
            then exists out, xapo_utils.encrypt payload app_secret = Ok out
            else xapo_utils.encrypt payload app_secret
                 = Raise ValueError_block_length
        end
      else xapo_utils.encrypt payload app_secret = Raise ValueError_key_length
  end.
Proof.
  destruct (utf8_encode app_secret) as [key|] eqn:Ek.
  - destruct (valid_key_length (List.length key)) eqn:Vk.
    + pose proof (new_ok _ _ Ek Vk) as Ec.
      destruct (utf8_encode payload) as [bs|] eqn:Eu.
      * pose proof (encrypt_block_check payload app_secret _ bs Ec Eu) as H.
        destruct (_ =? 0); [|exact H].
        destruct H as [ct [_ H]]. eauto.
      * rewrite (encrypt_with_cipher _ _ _ Ec).
        unfold AES.encrypt, AES.arg_bytes. rewrite utf8_encode_padded, Eu.
        reflexivity.
    + apply encrypt_without_cipher. apply new_key_error. eauto.
  - apply encrypt_without_cipher. now apply new_encode_error.
Qed.

(** X6 - whenever [encrypt] returns, for any payload, ASCII or not, the
    receiver gets the payload back: base64-decoding the output, decrypting
    it under the same secret, stripping the padding and decoding the bytes
    gives the payload.  Hence no two payloads have the same output under
    one secret. *)
Theorem encrypt_can_be_undone (payload app_secret : text) (out : bytes) :
  xapo_utils.encrypt payload app_secret = Ok out ->
  Provider.decrypt_text out app_secret = Some payload
  /\ forall other : text,
       xapo_utils.encrypt other app_secret = Ok out -> other = payload.
Proof.
  intros E. pose proof (encrypt_decrypt _ _ _ E) as D. split; [exact D|].
  intros other E'. apply encrypt_decrypt in E'. congruence.
Qed.

Lemma encrypt_can_be_undone_witness :
  exists out,
    xapo_utils.encrypt (repeat 233%N 16) Doctest.secret16 = Ok out
    /\ Provider.decrypt_text out Doctest.secret16 = Some (repeat 233%N 16).
Proof.
  destruct (xapo_utils.encrypt (repeat 233%N 16) Doctest.secret16)
    as [out|e] eqn:E; [|vm_compute in E; discriminate].
  exists out. split; [reflexivity|].
  now apply (encrypt_can_be_undone (repeat 233%N 16) Doctest.secret16 out).
Defined.

(** X7 - the size and the alphabet of the output: when [encrypt] returns,
    the bytes of the payload and the padding fill whole 16-byte blocks,
    [n] bytes in all; the output has [4 * ceil(n / 3)] characters, all of
    them in the base64 alphabet or [=]: it has no line break.  For an
    ASCII payload of [len] characters [n] is [16 * (len / 16 + 1)]. *)
Theorem encrypt_output_size (payload app_secret : text) (out : bytes) :
  xapo_utils.encrypt payload app_secret = Ok out ->
  exists bs,
    utf8_encode payload = Some bs
    /\ let n := List.length bs + pad_length (List.length payload) in
       n mod 16 = 0
       /\ List.length out = 4 * ((n + 2) / 3)
       /\ forallb is_base64_char out = true
       /\ (is_ascii payload = true ->
           n = 16 * (List.length payload / 16 + 1)).
Proof.
  intros E. destruct (encrypt_ok_inv _ _ _ E) as (c & bs & l & Ec & Eu & El & ->).
  exists bs. split; [exact Eu|]. cbv zeta.
  pose proof (blocks_length _ _ El) as L.
  rewrite length_app, repeat_length in L.
  repeat split.
  - rewrite L, Nat.mul_comm. apply Nat.Div0.mod_mul.
  - rewrite b64encode_length, unblocks_length, length_map, <- L. reflexivity.
  - apply b64encode_chars.
  - intros Ha. rewrite (utf8_encode_ascii _ Ha) in Eu.
    apply some_inj in Eu. subst bs. rewrite length_map. unfold pad_length.
    pose proof (Nat.div_mod_eq (List.length payload) 16).
    pose proof (Nat.mod_upper_bound (List.length payload) 16). lia.
Qed.

Lemma encrypt_output_size_witness :
  List.length Doctest.enc = 4 * ((307 + 13 + 2) / 3).
Proof.
  destruct (encrypt_output_size Doctest.json Doctest.secret Doctest.enc)
    as (bs & Eu & _ & L & _).
  - vm_compute. reflexivity.
  - assert (B : bs = map n2b Doctest.json)
      by (apply some_inj; rewrite <- Eu; vm_compute; reflexivity).
    rewrite B in L. exact L.
Defined.

(** X8 - what electronic codebook lets through: two ASCII payloads that
    begin with the same [16 * m] characters, encrypted under one secret,
    give ciphertexts that begin with the same [16 * m] bytes, and outputs
    that begin with the same [4 * (16 * m / 3)] characters. *)
Theorem equal_leading_blocks_show_in_the_output
  (common rest1 rest2 app_secret : text) (key : bytes) (m : nat) :
  is_ascii common = true -> is_ascii rest1 = true -> is_ascii rest2 = true ->
  List.length common = 16 * m ->
  utf8_encode app_secret = Some key ->
  In (List.length key) AES.key_size ->
  exists out1 out2 ct1 ct2,
    xapo_utils.encrypt (common ++ rest1) app_secret = Ok out1
    /\ xapo_utils.encrypt (common ++ rest2) app_secret = Ok out2
    /\ Base64.b64decode out1 = Some ct1
    /\ Base64.b64decode out2 = Some ct2
    /\ firstn (16 * m) ct1 = firstn (16 * m) ct2
    /\ firstn (4 * (16 * m / 3)) out1 = firstn (4 * (16 * m / 3)) out2.
Proof.
  intros Hc H1 H2 Lc Ek Vk. apply valid_key_length_iff in Vk.
  pose proof (new_ok _ _ Ek Vk) as Ec.
  set (c := {| AES.round_keys := AES.key_expansion key |}) in Ec.
  assert (P : forall rest, is_ascii rest = true ->
            exists ct lA,
              xapo_utils.encrypt (common ++ rest) app_secret
              = Ok (Base64.b64encode ct)
              /\ AES.blocks (map n2b common) = Some lA
              /\ firstn (16 * m) ct
                 = AES.unblocks (map (AES.cipher (AES.round_keys c)) lA)
              /\ 16 * m <= List.length ct).
  { intros rest Hr.
    assert (Ha : is_ascii (common ++ rest) = true)
      by (rewrite is_ascii_app, Hc, Hr; reflexivity).
    pose proof (encrypt_block_check (common ++ rest) app_secret c _ Ec
                  (utf8_encode_ascii _ Ha)) as H.
    rewrite length_map, pad_length_multiple in H. cbn [Nat.eqb] in H.
    destruct H as [ct [Ect E]]. exists ct.
    unfold AES.encrypt, AES.arg_bytes in Ect.
    rewrite utf8_encode_padded, (utf8_encode_ascii _ Ha) in Ect.
    cbn [of_option bind] in Ect. rewrite map_app, <- app_assoc in Ect.
    assert (LA : List.length (map n2b common) = 16 * m)
      by (rewrite length_map; exact Lc).
    destruct (ecb_prefix _ _ _ _ m LA Ect) as [lA [EA F]].
    exists lA. repeat split; try assumption.
    rewrite (ecb_length _ _ _ Ect), length_app, length_map. lia. }
  destruct (P rest1 H1) as (ct1 & lA1 & E1 & A1 & F1 & L1).
  destruct (P rest2 H2) as (ct2 & lA2 & E2 & A2 & F2 & L2).
  assert (lA1 = lA2) by congruence. subst lA2.
  assert (F : firstn (16 * m) ct1 = firstn (16 * m) ct2) by congruence.
  exists (Base64.b64encode ct1), (Base64.b64encode ct2), ct1, ct2.
  repeat split; try assumption; try apply b64decode_b64encode.
  assert (J : 3 * (16 * m / 3) <= 16 * m) by apply Nat.Div0.mul_div_le.
  rewrite !b64encode_firstn by lia. f_equal.
  rewrite <- (Nat.min_l _ _ J), <- !firstn_firstn. now rewrite F.
Qed.

Lemma equal_leading_blocks_show_in_the_output_witness :
  exists out1 out2,
    xapo_utils.encrypt (lit "0123456789abcdef" ++ lit "Tip") Doctest.secret16
    = Ok out1
    /\ xapo_utils.encrypt (lit "0123456789abcdef" ++ lit "Donate")
         Doctest.secret16 = Ok out2
    /\ firstn 20 out1 = firstn 20 out2.
Proof.
  destruct (equal_leading_blocks_show_in_the_output
              (lit "0123456789abcdef") (lit "Tip") (lit "Donate")
              Doctest.secret16 (map n2b Doctest.secret16) 1)
    as (out1 & out2 & ct1 & ct2 & E1 & E2 & _ & _ & _ & F);
    try reflexivity.
  - simpl. tauto.
  - exists out1, out2. repeat split; assumption.
Defined.

(** ** The URL and the widgets *)

Module UrlCases.

Lemma utf8_encode_char_some_scalar (c : N) (bs : bytes) :
  utf8_encode_char c = Some bs -> is_scalar c = true.
Proof.
  unfold utf8_encode_char, is_scalar, is_surrogate.
  destruct (N.ltb_spec c 0x80); [intros _|].
  { destruct (N.ltb_spec c 0x110000); [|lia].
    destruct (N.leb_spec 0xD800 c); [lia|reflexivity]. }
  destruct (N.ltb_spec c 0x800); [intros _|].
  { destruct (N.ltb_spec c 0x110000); [|lia].
    destruct (N.leb_spec 0xD800 c); [lia|reflexivity]. }
  destruct (N.ltb_spec c 0x10000).
  { destruct (N.ltb_spec c 0x110000); [|lia].
    destruct (N.leb_spec 0xD800 c); destruct (N.leb_spec c 0xDFFF);
      cbn; try discriminate; reflexivity. }
  destruct (N.ltb_spec c 0x110000); [intros _|discriminate].
  destruct (N.leb_spec 0xD800 c); destruct (N.leb_spec c 0xDFFF);
    try lia; reflexivity.
Qed.

(** Text has a UTF-8 encoding only if it is made of Unicode scalar
    values. *)
Lemma utf8_encode_some_scalar (s : text) :
  forall bs, utf8_encode s = Some bs -> forallb is_scalar s = true.
Proof.
  induction s as [|c s IH]; intros bs E; [reflexivity|].
  cbn [utf8_encode] in E.
  destruct (utf8_encode_char c) as [b|] eqn:Ec; [|discriminate].
  destruct (utf8_encode s) as [r|] eqn:Es; [|discriminate].
  cbn [forallb]. rewrite (utf8_encode_char_some_scalar _ _ Ec).
  now rewrite (IH r).
Qed.

(** An [app_id] without UTF-8 encoding makes [urlencode] raise. *)
Lemma urlencode_app_id_error (app_id : text) (br : bytes) (bt : pyval) :
  utf8_encode app_id = None ->
  urlencode (query_of app_id br bt) = Raise UnicodeEncodeError.
Proof.
  intros E. unfold urlencode, query_of. cbn [encode_pairs].
  destruct (quote_plus (QStr (lit "app_id"))) as [k|e] eqn:Q;
    [|vm_compute in Q; discriminate].
  cbn [bind]. unfold quote_plus at 1. now rewrite E.
Qed.

(** The outcomes of the computation that both [__build_url] make, [d]
    being the dictionary that is serialised and [bt] the button text. *)
Lemma url_outcomes (service_url app_id app_secret : text) (d : dict)
  (bt : pyval) :
  dict_ok d = true -> value_ok bt = true ->
  let r := (br <- xapo_utils.encrypt (dumps d) app_secret ;;
            qs <- urlencode (query_of app_id br bt) ;;
            Ok (service_url ++ lit "?" ++ qs)) in
  match utf8_encode app_secret with
  | None => r = Raise UnicodeEncodeError
  | Some key =>
      if valid_key_length (List.length key) then
        match utf8_encode app_id with
        | None => r = Raise UnicodeEncodeError
        | Some _ => exists qs, r = Ok (service_url ++ lit "?" ++ qs)
        end
      else r = Raise ValueError_key_length
  end.
Proof.
  intros Hd Hb r. unfold r.
  destruct (utf8_encode app_secret) as [key|] eqn:Ek.
  - destruct (valid_key_length (List.length key)) eqn:Vk.
    + destruct (utf8_encode app_id) as [ib|] eqn:Ei.
      * apply utf8_encode_some_scalar in Ei.
        apply valid_key_length_iff in Vk.
        destruct (query_spec _ _ _ _ key Ek Vk Ei Hd Hb)
          as (br & qs & E & Eq & _).
        exists qs. rewrite E. cbn [bind]. now rewrite Eq.
      * destruct (encrypt_ascii (dumps d) app_secret key
                    (is_ascii_dumps _ Hd) Ek Vk) as [br E].
        rewrite E. cbn [bind]. now rewrite urlencode_app_id_error.
    + rewrite (encrypt_without_cipher _ _ ValueError_key_length);
        [reflexivity|]. apply new_key_error. eauto.
  - rewrite (encrypt_without_cipher _ _ UnicodeEncodeError); [reflexivity|].
    unfold AES.new, AES.arg_bytes. now rewrite Ek.
Qed.

(** What is known when that computation returns. *)
Lemma url_ok_inv (service_url app_id app_secret : text) (d : dict)
  (bt : pyval) (url : text) :
  dict_ok d = true -> value_ok bt = true ->
  (br <- xapo_utils.encrypt (dumps d) app_secret ;;
   qs <- urlencode (query_of app_id br bt) ;;
   Ok (service_url ++ lit "?" ++ qs)) = Ok url ->
  exists br qs,
    xapo_utils.encrypt (dumps d) app_secret = Ok br
    /\ url = service_url ++ lit "?" ++ qs
    /\ parse_qsl qs
       = Some [(lit "app_id", app_id);
               (lit "button_request", map b2n br);
               (lit "customization", dumps [(lit "button_text", bt)])].
Proof.
  intros Hd Hb E.
  pose proof (url_outcomes service_url app_id app_secret d bt Hd Hb) as O.
  cbv zeta in O. rewrite E in O.
  destruct (utf8_encode app_secret) as [key|] eqn:Ek; [|discriminate].
  destruct (valid_key_length (List.length key)) eqn:Vk; [|discriminate].
  destruct (utf8_encode app_id) as [ib|] eqn:Ei; [|discriminate].
  apply utf8_encode_some_scalar in Ei. apply valid_key_length_iff in Vk.
  destruct (query_spec _ _ _ _ key Ek Vk Ei Hd Hb)
    as (br & qs & Eb & Eq & _ & _ & P & _).
  rewrite Eb in E. cbn [bind] in E. rewrite Eq in E. cbn [bind] in E.
  exists br, qs. repeat split; try assumption. congruence.
Qed.

Lemma map_b2n_inj (a b : bytes) : map b2n a = map b2n b -> a = b.
Proof.
  revert b. induction a as [|x a IH]; intros [|y b] E; try discriminate;
    [reflexivity|].
  cbn [map] in E. injection E as Exy E. apply b2n_inj in Exy.
  now rewrite Exy, (IH b E).
Qed.

(** Two URLs for one service, application and secret are equal only if
    the serialised dictionaries and the button texts are. *)
Lemma url_injective (service_url app_id app_secret : text) (d1 d2 : dict)
  (bt1 bt2 : pyval) (url : text) :
  dict_ok d1 = true -> value_ok bt1 = true ->
  dict_ok d2 = true -> value_ok bt2 = true ->
  (br <- xapo_utils.encrypt (dumps d1) app_secret ;;
   qs <- urlencode (query_of app_id br bt1) ;;
   Ok (service_url ++ lit "?" ++ qs)) = Ok url ->
  (br <- xapo_utils.encrypt (dumps d2) app_secret ;;
   qs <- urlencode (query_of app_id br bt2) ;;
   Ok (service_url ++ lit "?" ++ qs)) = Ok url ->
  d1 = d2 /\ bt1 = bt2.
Proof.
  intros Hd1 Hb1 Hd2 Hb2 E1 E2.
  destruct (url_ok_inv _ _ _ _ _ _ Hd1 Hb1 E1) as (br1 & qs1 & B1 & U1 & P1).
  destruct (url_ok_inv _ _ _ _ _ _ Hd2 Hb2 E2) as (br2 & qs2 & B2 & U2 & P2).
  rewrite U1 in U2. apply app_inv_head in U2. apply app_inv_head in U2.
  subst qs2. rewrite P1 in P2. apply some_inj in P2.
  assert (Eb : map b2n br1 = map b2n br2) by congruence.
  assert (Ec : dumps [(lit "button_text", bt1)]
               = dumps [(lit "button_text", bt2)]) by congruence.
  clear P1 P2. split.
  - apply map_b2n_inj in Eb. subst br2.
    apply encrypt_decrypt in B1. apply encrypt_decrypt in B2.
    rewrite B1 in B2. apply some_inj in B2.
    pose proof (loads_dumps _ Hd1) as L1. pose proof (loads_dumps _ Hd2) as L2.
    rewrite B2 in L1. congruence.
  - assert (O1 : dict_ok [(lit "button_text", bt1)] = true)
      by (unfold dict_ok; cbn [forallb fst snd]; now rewrite Hb1).
    assert (O2 : dict_ok [(lit "button_text", bt2)] = true)
      by (unfold dict_ok; cbn [forallb fst snd]; now rewrite Hb2).
    pose proof (loads_dumps _ O1) as L1. pose proof (loads_dumps _ O2) as L2.
    rewrite Ec in L1. congruence.
Qed.

Lemma forallb_join (P : N -> bool) (sep : text) (l : list text) :
  forallb P sep = true -> forallb (forallb P) l = true ->
  forallb P (join sep l) = true.
Proof.
  intros Hs. induction l as [|p [|q l] IH]; intros H; [reflexivity| |].
  - cbn [join]. cbn [forallb] in H. now apply andb_prop in H.
  - cbn [forallb] in H. apply andb_prop in H. destruct H as [Hp H].
    change (join sep (p :: q :: l)) with (p ++ sep ++ join sep (q :: l)).
    rewrite !forallb_app, Hp, Hs. cbn [andb]. apply IH. exact H.
Qed.

Lemma quote_plus_chars (v : qvalue) (q : text) :
  quote_plus v = Ok q -> forallb is_query_char q = true.
Proof.
  intros E. apply (forallb_impl is_quoted_char).
  - intros c H. unfold is_query_char. now rewrite H.
  - destruct v as [s|b]; cbn [quote_plus] in E.
    + destruct (utf8_encode s) as [bs|]; [|discriminate].
      cbn [of_option bind] in E. injection E as <-.
      apply quote_plus_bytes_chars.
    + injection E as <-. apply quote_plus_bytes_chars.
Qed.

(** The characters of a form-encoded query, whatever is encoded. *)
Lemma urlencode_chars (query : list (text * qvalue)) (qs : text) :
  urlencode query = Ok qs -> forallb is_query_char qs = true.
Proof.
  unfold urlencode.
  destruct (encode_pairs query) as [l|] eqn:E; [|discriminate].
  cbn [bind]. intros Q. injection Q as <-.
  apply forallb_join; [reflexivity|].
  revert l E. induction query as [|[k v] query IH]; intros l E.
  - cbn in E. injection E as <-. reflexivity.
  - cbn [encode_pairs] in E.
    destruct (quote_plus (QStr k)) as [k'|] eqn:Qk; [|discriminate].
    cbn [bind] in E.
    destruct (quote_plus v) as [v'|] eqn:Qv; [|discriminate].
    cbn [bind] in E.
    destruct (encode_pairs query) as [l'|]; [|discriminate].
    cbn [bind] in E. injection E as <-.
    change (forallb is_query_char (k' ++ 61%N :: v')
            && forallb (forallb is_query_char) l' = true).
    rewrite (IH l' eq_refl), forallb_app, (quote_plus_chars _ _ Qk).
    cbn [forallb]. now rewrite (quote_plus_chars _ _ Qv).
Qed.

Lemma query_char_facts (c : N) :
  is_query_char c = true ->
  c <> 34%N /\ c <> 39%N /\ c <> 60%N /\ c <> 62%N /\ c <> 32%N /\ c <> 10%N
  /\ c <> 35%N /\ c <> 63%N.
Proof.
  unfold is_query_char, is_quoted_char, is_always_safe. intros H.
  repeat split; intros ->; vm_compute in H; discriminate.
Qed.

Lemma lacks_query (c : N) (q : text) :
  forallb is_query_char q = true -> is_query_char c = false ->
  lacks c q = true.
Proof.
  intros H Hc. unfold lacks. apply (forallb_impl is_query_char); [|exact H].
  intros x Hx. destruct (N.eqb_spec x c) as [->|]; [congruence|reflexivity].
Qed.

(** Formatting a snippet cannot fail, whatever the URL. *)
Lemma format_snippets (url : text) :
  exists iframe div,
    Str.format xapo_tools.iframe_snippet [] [(lit "url", url)] = Ok iframe
    /\ Str.format xapo_tools.div_snippet [] [(lit "url", url)] = Ok div
    /\ Str.format micro_payment.iframe_snippet [url] [] = Ok iframe
    /\ Str.format micro_payment.div_snippet [] [(lit "url", url)] = Ok div.
Proof.
  destruct (Str.format xapo_tools.iframe_snippet [] [(lit "url", url)])
    as [iframe|e] eqn:Ei; [|vm_compute in Ei; discriminate].
  destruct (Str.format xapo_tools.div_snippet [] [(lit "url", url)])
    as [div|e] eqn:Ed; [|vm_compute in Ed; discriminate].
  exists iframe, div. repeat split.
  - now rewrite <- format_iframe_url.
  - exact Ed.
Qed.

End UrlCases.

Import UrlCases.

(** X9 - the outcomes of [__build_url] of either class, for values that
    JSON can carry, in the order of the checks: a secret without UTF-8
    encoding raises [UnicodeEncodeError]; a key that has not 16, 24 or 32
    bytes raises the key-length error of the cipher; then an [app_id]
    without UTF-8 encoding makes [urlencode] raise [UnicodeEncodeError];
    otherwise the URL is returned, and it starts with the service URL and
    a question mark. *)
Theorem build_url_outcomes
  (self : xapo_tools.MicroPayment) (config : xapo_tools.MicroPaymentConfig)
  (self' : micro_payment.XapoMicroPaymentSDK)
  (config' : micro_payment.MicroPaymentConfig) (pay_type : pyval) :
  dict_ok (xapo_tools.__dict__ config) = true ->
  dict_ok (micro_payment.__dict__ config') = true ->
  value_ok pay_type = true ->
  match utf8_encode (xapo_tools.app_secret self) with
  | None => xapo_tools.__build_url self config = Raise UnicodeEncodeError
  | Some key =>
      if valid_key_length (List.length key) then
        match utf8_encode (xapo_tools.app_id self) with
        | None => xapo_tools.__build_url self config = Raise UnicodeEncodeError
        | Some _ =>
            exists query_string,
              xapo_tools.__build_url self config
              = Ok (xapo_tools.service_url self ++ lit "?" ++ query_string)
        end
      else xapo_tools.__build_url self config = Raise ValueError_key_length
  end
  /\ match utf8_encode (micro_payment.app_secret self') with
     | None =>
         micro_payment.__build_url self' config' pay_type
         = Raise UnicodeEncodeError
     | Some key =>
         if valid_key_length (List.length key) then
           match utf8_encode (micro_payment.app_id self') with
           | None =>
               micro_payment.__build_url self' config' pay_type
               = Raise UnicodeEncodeError
           | Some _ =>
               exists query_string,
                 micro_payment.__build_url self' config' pay_type
                 = Ok (micro_payment.service_url self' ++ lit "?"
                       ++ query_string)
           end
         else micro_payment.__build_url self' config' pay_type
              = Raise ValueError_key_length
     end.
Proof.
  intros Hd Hd' Hp. split.
  - exact (url_outcomes (xapo_tools.service_url self) (xapo_tools.app_id self)
             (xapo_tools.app_secret self) _ _ Hd (dict_ok_pay_type _ Hd)).
  - exact (url_outcomes (micro_payment.service_url self')
             (micro_payment.app_id self') (micro_payment.app_secret self')
             _ _ Hd' Hp).
Qed.

Lemma build_url_outcomes_witness :
  xapo_tools.__build_url xmp_short_secret Doctest.mpc
  = Raise ValueError_key_length
  /\ exists query_string,
       micro_payment.__build_url sdk sdk_config (VStr (lit "Tip"))
       = Ok (micro_payment.service_url sdk ++ lit "?" ++ query_string).
Proof.
  destruct (build_url_outcomes xmp_short_secret Doctest.mpc sdk sdk_config
              (VStr (lit "Tip"))) as [A B]; try reflexivity.
  split; [exact A | exact B].
Defined.

(** X10 - a widget builder of either class raises exactly what
    [__build_url] raises, and returns whenever [__build_url] does:
    formatting the snippet and removing its margin cannot fail, whatever
    characters the URL holds. *)
Theorem a_widget_fails_only_with_its_url
  (self : xapo_tools.MicroPayment) (config : xapo_tools.MicroPaymentConfig)
  (self' : micro_payment.XapoMicroPaymentSDK)
  (config' : micro_payment.MicroPaymentConfig) (pay_type : pyval) :
  match xapo_tools.__build_url self config with
  | Raise e =>
      xapo_tools.build_iframe_widget self config = Raise e
      /\ xapo_tools.build_div_widget self config = Raise e
  | Ok url =>
      exists iframe div,
        xapo_tools.build_iframe_widget self config = Ok iframe
        /\ xapo_tools.build_div_widget self config = Ok div
  end
  /\ match micro_payment.__build_url self' config' pay_type with
     | Raise e =>
         micro_payment.build_iframe_widget self' config' pay_type = Raise e
         /\ micro_payment.build_div_widget self' config' pay_type = Raise e
     | Ok url =>
         exists iframe div,
           micro_payment.build_iframe_widget self' config' pay_type = Ok iframe
           /\ micro_payment.build_div_widget self' config' pay_type = Ok div
     end.
Proof.
  unfold xapo_tools.build_iframe_widget, xapo_tools.build_div_widget,
    micro_payment.build_iframe_widget, micro_payment.build_div_widget.
  split.
  - destruct (xapo_tools.__build_url self config) as [url|e];
      [|split; reflexivity].
    destruct (format_snippets url) as (iframe & div & Fi & Fd & _ & _).
    cbn [bind]. rewrite Fi, Fd. cbn [bind]. eauto.
  - destruct (micro_payment.__build_url self' config' pay_type) as [url|e];
      [|split; reflexivity].
    destruct (format_snippets url) as (iframe & div & _ & _ & Fi & Fd).
    cbn [bind]. rewrite Fi, Fd. cbn [bind]. eauto.
Qed.

(** X11 - nothing of the [app_id], of the configuration or of the payment
    type reaches the URL unquoted: whenever [__build_url] of either class
    returns, what follows the service URL and the question mark is made of
    letters, digits and the characters [_ . - ~ + % = &] only; it holds no
    double quote, no angle bracket and no line break, which could end the
    attribute that the snippets put the URL in. *)
Theorem the_query_string_is_quoted
  (self : xapo_tools.MicroPayment) (config : xapo_tools.MicroPaymentConfig)
  (url : text)
  (self' : micro_payment.XapoMicroPaymentSDK)
  (config' : micro_payment.MicroPaymentConfig) (pay_type : pyval)
  (url' : text) :
  xapo_tools.__build_url self config = Ok url ->
  micro_payment.__build_url self' config' pay_type = Ok url' ->
  (exists query_string,
      url = xapo_tools.service_url self ++ lit "?" ++ query_string
      /\ forallb is_query_char query_string = true
      /\ lacks 34 query_string = true /\ lacks 60 query_string = true
      /\ lacks 62 query_string = true /\ lacks 10 query_string = true)
  /\ (exists query_string,
         url' = micro_payment.service_url self' ++ lit "?" ++ query_string
         /\ forallb is_query_char query_string = true
         /\ lacks 34 query_string = true /\ lacks 60 query_string = true
         /\ lacks 62 query_string = true /\ lacks 10 query_string = true).
Proof.
  intros E E'. split.
  - unfold xapo_tools.__build_url in E.
    destruct (xapo_utils.encrypt _ _) as [br|]; [|discriminate].
    cbn [bind] in E. cbv zeta in E.
    destruct (urlencode _) as [qs|] eqn:U; [|discriminate].
    cbn [bind] in E. injection E as <-.
    apply urlencode_chars in U. exists qs.
    split; [reflexivity|]. split; [exact U|].
    repeat split; apply lacks_query; try exact U; reflexivity.
  - unfold micro_payment.__build_url in E'.
    destruct (micro_payment._encrypt _ _) as [br|]; [|discriminate].
    cbn [bind] in E'. cbv zeta in E'.
    destruct (urlencode _) as [qs|] eqn:U; [|discriminate].
    cbn [bind] in E'. injection E' as <-.
    apply urlencode_chars in U. exists qs.
    split; [reflexivity|]. split; [exact U|].
    repeat split; apply lacks_query; try exact U; reflexivity.
Qed.

Lemma the_query_string_is_quoted_witness :
  exists url query_string,
    xapo_tools.__build_url Doctest.xmp Doctest.mpc = Ok url
    /\ url = xapo_tools.service_url Doctest.xmp ++ lit "?" ++ query_string
    /\ lacks 34 query_string = true.
Proof.
  destruct (xapo_tools.__build_url Doctest.xmp Doctest.mpc) as [url|e] eqn:E;
    [|vm_compute in E; discriminate].
  destruct (micro_payment.__build_url sdk sdk_config (VStr (lit "Tip")))
    as [url'|e] eqn:E'; [|vm_compute in E'; discriminate].
  destruct (the_query_string_is_quoted Doctest.xmp Doctest.mpc url
              sdk sdk_config (VStr (lit "Tip")) url' E E')
    as [(qs & U & _ & Q & _) _].
  exists url, qs. repeat split; assumption.
Defined.

(** X12 - the URL tells the configuration: for one builder, two
    configurations of values that JSON can carry that give the same URL
    are equal; for [XapoMicroPaymentSDK] the payment types are equal as
    well. *)
Theorem the_url_determines_the_configuration
  (self : xapo_tools.MicroPayment)
  (config1 config2 : xapo_tools.MicroPaymentConfig) (url : text)
  (self' : micro_payment.XapoMicroPaymentSDK)
  (config1' config2' : micro_payment.MicroPaymentConfig)
  (pay_type1 pay_type2 : pyval) (url' : text) :
  dict_ok (xapo_tools.__dict__ config1) = true ->
  dict_ok (xapo_tools.__dict__ config2) = true ->
  xapo_tools.__build_url self config1 = Ok url ->
  xapo_tools.__build_url self config2 = Ok url ->
  dict_ok (micro_payment.__dict__ config1') = true ->
  dict_ok (micro_payment.__dict__ config2') = true ->
  value_ok pay_type1 = true -> value_ok pay_type2 = true ->
  micro_payment.__build_url self' config1' pay_type1 = Ok url' ->
  micro_payment.__build_url self' config2' pay_type2 = Ok url' ->
  config1 = config2 /\ config1' = config2' /\ pay_type1 = pay_type2.
Proof.
  intros H1 H2 E1 E2 H1' H2' P1 P2 E1' E2'.
  destruct (url_injective _ _ _ _ _ _ _ _ H1 (dict_ok_pay_type _ H1)
              H2 (dict_ok_pay_type _ H2) E1 E2) as [D _].
  destruct (url_injective _ _ _ _ _ _ _ _ H1' P1 H2' P2 E1' E2') as [D' B].
  repeat split.
  - destruct config1, config2. unfold xapo_tools.__dict__ in D.
    cbn in D. congruence.
  - destruct config1', config2'. unfold micro_payment.__dict__ in D'.
    cbn in D'. congruence.
  - exact B.
Qed.

Lemma the_url_determines_the_configuration_witness :
  Doctest.mpc = Doctest.mpc /\ sdk_config = sdk_config
  /\ VStr (lit "Tip") = VStr (lit "Tip").
Proof.
  destruct (xapo_tools.__build_url Doctest.xmp Doctest.mpc) as [url|e] eqn:E;
    [|vm_compute in E; discriminate].
  destruct (micro_payment.__build_url sdk sdk_config (VStr (lit "Tip")))
    as [url'|e] eqn:E'; [|vm_compute in E'; discriminate].
  apply (the_url_determines_the_configuration Doctest.xmp Doctest.mpc
           Doctest.mpc url sdk sdk_config sdk_config (VStr (lit "Tip"))
           (VStr (lit "Tip")) url'); try reflexivity; assumption.
Defined.

(** The product of a reading by 1000 is a finite float: [round] is always
    applied to a number. *)
Lemma the_product_is_finite (w : Time.World) :
  Time.is_finite (Time.mul (Time.time w) Time.thousand) = true.
Proof.
  pose proof (Time.clock_is_reading w) as R. unfold Time.is_reading in R.
  apply andb_prop in R. exact (proj2 R).
Qed.

(** The default timestamp at a reading with a fraction, 1762387200.0015
    seconds or so: the product by 1000 is rounded to a float first, here to
    1762387200001.5, which [round] takes to the even neighbour; rounding
    the exact product would give the millisecond before. *)
Example the_product_is_rounded_to_a_float_first :
  Time.mul (Time.clock Doctest.at_a_fraction) Time.thousand
  = SpecFloat.S754_finite false 7218737971206144 (-12)
  /\ Time.now_ms Doctest.at_a_fraction = 1762387200002%Z
  /\ Time.round
       (QArith_base.Qmult (Time.to_Q (Time.clock Doctest.at_a_fraction))
          (QArith_base.inject_Z 1000))
     = 1762387200001%Z.
Proof. split; [|split]; vm_compute; reflexivity. Qed.

(** X13 - the import time shows in the URL.  For one builder and one list
    of arguments, take the configurations made in two processes, which
    imported the module at their own times: when [timestamp] is among the
    arguments the configurations and the URLs are the same; when it is
    left out the URLs are the same only if both imports fell in the same
    millisecond. *)
Theorem the_url_depends_on_the_import_time
  (self : xapo_tools.MicroPayment)
  (import1 import2 call1 call2 : Time.World) (kw : xapo_tools.kwargs)
  (url1 url2 : text) :
  let config1 :=
    xapo_tools.__init__ (xapo_tools.def___init__ import1) call1 kw in
  let config2 :=
    xapo_tools.__init__ (xapo_tools.def___init__ import2) call2 kw in
  dict_ok (xapo_tools.__dict__ config1) = true ->
  dict_ok (xapo_tools.__dict__ config2) = true ->
  xapo_tools.__build_url self config1 = Ok url1 ->
  xapo_tools.__build_url self config2 = Ok url2 ->
  match xapo_tools.kw_timestamp kw with
  | Some _ => config1 = config2 /\ url1 = url2
  | None => url1 = url2 <-> Time.now_ms import1 = Time.now_ms import2
  end.
Proof.
  intros config1 config2 H1 H2 E1 E2.
  destruct (xapo_tools.kw_timestamp kw) as [t|] eqn:T.
  - assert (C : config1 = config2).
    { unfold config1, config2, xapo_tools.__init__. now rewrite T. }
    split; [exact C|]. rewrite C in E1. congruence.
  - split.
    + intros ->.
      destruct (url_injective _ _ _ _ _ _ _ _ H1 (dict_ok_pay_type _ H1)
                  H2 (dict_ok_pay_type _ H2) E1 E2) as [D _].
      unfold config1, config2, xapo_tools.__dict__, xapo_tools.__init__ in D.
      rewrite T in D. cbn in D. congruence.
    + intros N.
      assert (C : config1 = config2).
      { unfold config1, config2, xapo_tools.__init__,
          xapo_tools.def___init__. cbn. now rewrite N. }
      rewrite C in E1. congruence.
Qed.

Lemma the_url_depends_on_the_import_time_witness :
  exists url1 url2,
    xapo_tools.__build_url Doctest.xmp
      (xapo_tools.__init__ (xapo_tools.def___init__ Doctest.at_import)
         Doctest.at_second_call Doctest.mpc_kwargs) = Ok url1
    /\ xapo_tools.__build_url Doctest.xmp
         (xapo_tools.__init__ (xapo_tools.def___init__ Doctest.at_first_call)
            Doctest.at_second_call Doctest.mpc_kwargs) = Ok url2
    /\ url1 <> url2.
Proof.
  destruct (xapo_tools.__build_url Doctest.xmp
              (xapo_tools.__init__ (xapo_tools.def___init__ Doctest.at_import)
                 Doctest.at_second_call Doctest.mpc_kwargs))
    as [url1|e] eqn:E1; [|vm_compute in E1; discriminate].
  destruct (xapo_tools.__build_url Doctest.xmp
              (xapo_tools.__init__
                 (xapo_tools.def___init__ Doctest.at_first_call)
                 Doctest.at_second_call Doctest.mpc_kwargs))
    as [url2|e] eqn:E2; [|vm_compute in E2; discriminate].
  exists url1, url2. split; [reflexivity|]. split; [reflexivity|].
  intros U.
  apply (the_url_depends_on_the_import_time Doctest.xmp Doctest.at_import
           Doctest.at_first_call Doctest.at_second_call Doctest.at_second_call
           Doctest.mpc_kwargs url1 url2 eq_refl eq_refl E1 E2) in U.
  vm_compute in U. discriminate.
Defined.

(** X14 - the two classes do not build the same URL: for the same
    service, application and secret, and whatever the configurations and
    the payment type, the URL of [MicroPayment], whose encrypted object has
    nine members, differs from the URL of [XapoMicroPaymentSDK], whose
    encrypted object has eight. *)
Theorem the_two_classes_build_different_urls
  (self : xapo_tools.MicroPayment) (config : xapo_tools.MicroPaymentConfig)
  (url : text)
  (self' : micro_payment.XapoMicroPaymentSDK)
  (config' : micro_payment.MicroPaymentConfig) (pay_type : pyval)
  (url' : text) :
  micro_payment.service_url self' = xapo_tools.service_url self ->
  micro_payment.app_id self' = xapo_tools.app_id self ->
  micro_payment.app_secret self' = xapo_tools.app_secret self ->
  dict_ok (xapo_tools.__dict__ config) = true ->
  dict_ok (micro_payment.__dict__ config') = true ->
  value_ok pay_type = true ->
  xapo_tools.__build_url self config = Ok url ->
  micro_payment.__build_url self' config' pay_type = Ok url' ->
  url <> url'.
Proof.
  intros Su Ai As Hd Hd' Hp E E' U. subst url'.
  unfold micro_payment.__build_url in E'. rewrite Su, Ai, As in E'.
  destruct (url_injective _ _ _ _ _ _ _ _ Hd (dict_ok_pay_type _ Hd)
              Hd' Hp E E') as [D _].
  discriminate D.
Qed.

Lemma the_two_classes_build_different_urls_witness :
  exists url url',
    xapo_tools.__build_url Doctest.xmp Doctest.mpc = Ok url
    /\ micro_payment.__build_url sdk sdk_config (VStr (lit "Tip")) = Ok url'
    /\ url <> url'.
Proof.
  destruct (xapo_tools.__build_url Doctest.xmp Doctest.mpc) as [url|e] eqn:E;
    [|vm_compute in E; discriminate].
  destruct (micro_payment.__build_url sdk sdk_config (VStr (lit "Tip")))
    as [url'|e] eqn:E'; [|vm_compute in E'; discriminate].
  exists url, url'. split; [reflexivity|]. split; [reflexivity|].
  apply (the_two_classes_build_different_urls Doctest.xmp Doctest.mpc url
           sdk sdk_config (VStr (lit "Tip")) url');
    try reflexivity; assumption.
Defined.
